(** * Portfolio visualizer: the valuation and aggregation engine of [app.py]

    A shallow embedding of the computational part of [src/app.py]
    (currency normalisation, current-price lookup, the per-holding value
    series, the total series with its "today" point, the summary totals, the
    y-range and the y-axis labels, the add-asset and delete-asset flows),
    followed by the properties stated about them.

    Conventions of the embedding.
    - A Python [float] is an IEEE-754 binary64 value: Rocq's primitive
      [float], with its own rounding arithmetic.
    - A calendar date ([datetime.date], or the midnight [pd.Timestamp] built
      from one) is its day number, a [Z]; only the order of dates and
      differences in days matter to the code.
    - A [pd.Series] indexed by dates is the list of its (date, value) rows in
      index order.
    - Yahoo Finance is an oracle [yfinance]; every request sent to it is
      appended to a log threaded through the code by the monad [M], which also
      carries Python exceptions. *)

From Stdlib Require Import String Ascii.
From Stdlib Require Import ZArith List Bool Lia Floats.
From Stdlib Require Import DecimalString.
From Stdlib Require Import Sorting.Sorted Sorting.Permutation.
Import ListNotations.

Set Warnings "-inexact-float".
Local Open Scope Z_scope.

(** ** Python values and built-ins used by the code *)

Module Py.

(** [float('nan')], the value pandas stores for a missing entry. *)
Definition nan : float := PrimFloat.nan.

(** Truth value of a float ([bool(x)]): everything but [0.0] and [-0.0];
    a NaN is true. *)
Definition truthy (x : float) : bool := negb (x =? 0)%float.

(** [a or b] on values that may be [None]. *)
Definition or_else (a b : option float) : option float :=
  match a with
  | Some x => if truthy x then a else b
  | None => b
  end.

(** [a or b] on integers that may be [None] ([0] is false). *)
Definition or_else_int (a b : option Z) : option Z :=
  match a with
  | Some x => if x =? 0 then b else a
  | None => b
  end.

(** Characters removed by [str.strip()] among the ASCII ones: tab, line feed,
    vertical tab, form feed, carriage return, the four separators 28-31 and
    the space. *)
Definition is_space (c : ascii) : bool :=
  let n := nat_of_ascii c in
  ((9 <=? n) && (n <=? 13) || (28 <=? n) && (n <=? 32))%nat.

Fixpoint lstrip (s : string) : string :=
  match s with
  | String c r => if is_space c then lstrip r else s
  | EmptyString => EmptyString
  end.

Fixpoint rstrip (s : string) : string :=
  match s with
  | String c r =>
      match rstrip r with
      | EmptyString => if is_space c then EmptyString else String c EmptyString
      | r' => String c r'
      end
  | EmptyString => EmptyString
  end.

(** [s.strip()]. *)
Definition strip (s : string) : string := rstrip (lstrip s).

Definition upper_char (c : ascii) : ascii :=
  let n := nat_of_ascii c in
  if ((97 <=? n) && (n <=? 122))%nat then ascii_of_nat (n - 32) else c.

(** [s.upper()] on ASCII letters. *)
Fixpoint upper (s : string) : string :=
  match s with
  | String c r => String (upper_char c) (upper r)
  | EmptyString => EmptyString
  end.

(** [bool(s)] for a string. *)
Definition nonempty (s : string) : bool :=
  match s with EmptyString => false | _ => true end.

End Py.

(** ** Date-indexed series, as pandas handles them in the code

    The operations below are embedded on series whose dates are pairwise
    distinct, which is what Yahoo Finance returns for daily bars; on such
    series pandas aligns by label without raising. *)

Module Pd.

Definition Series : Type := list (Z * float).

(** [s.index] *)
Definition index {A : Type} (s : list (Z * A)) : list Z := map fst s.

(** [s.values] *)
Definition values (s : Series) : list float := map snd s.

(** [s.dropna()] *)
Definition dropna (s : Series) : Series :=
  filter (fun e => negb (PrimFloat.is_nan (snd e))) s.

(** Position of a row in [sort_index]: before the first row whose date is
    not earlier. *)
Fixpoint insert_row {A : Type} (e : Z * A) (s : list (Z * A)) : list (Z * A) :=
  match s with
  | [] => [e]
  | h :: t => if fst e <=? fst h then e :: s else h :: insert_row e t
  end.

(** [s.sort_index()]: rows in ascending date order. *)
Fixpoint sort_index {A : Type} (s : list (Z * A)) : list (Z * A) :=
  match s with
  | [] => []
  | h :: t => insert_row h (sort_index t)
  end.

(** [d in s.index] *)
Definition has_date {A : Type} (d : Z) (s : list (Z * A)) : bool :=
  existsb (fun e => fst e =? d) s.

(** [s.loc[d] = v]: overwrite the rows labelled [d]; when there is none,
    append a new row at the end (setting with enlargement). *)
Definition loc_set (s : Series) (d : Z) (v : float) : Series :=
  if has_date d s
  then map (fun e => if fst e =? d then (d, v) else e) s
  else s ++ [(d, v)].

(** [s[s.index >= d]] *)
Definition from_date (s : Series) (d : Z) : Series :=
  filter (fun e => d <=? fst e) s.

(** The value labelled [d], if any. *)
Fixpoint lookup (d : Z) (s : Series) : option float :=
  match s with
  | [] => None
  | (d', v) :: t => if d' =? d then Some v else lookup d t
  end.

(** [s.reindex(idx)]: the rows of [s] at the labels [idx], NaN where [s] has
    no such label. *)
Definition reindex (s : Series) (idx : list Z) : Series :=
  map (fun d => (d, match lookup d s with Some v => v | None => Py.nan end)) idx.

(** Forward fill, knowing the last value seen so far. *)
Fixpoint ffill_from (last : float) (s : Series) : Series :=
  match s with
  | [] => []
  | (d, v) :: t =>
      let v' := if PrimFloat.is_nan v then last else v in
      (d, v') :: ffill_from v' t
  end.

(** [s.ffill()]: a NaN takes the most recent earlier value; leading NaNs
    stay. *)
Definition ffill (s : Series) : Series := ffill_from Py.nan s.

(** [a * b] for two series over the same index. *)
Definition mul (a b : Series) : Series :=
  map (fun p => (fst (fst p), (snd (fst p) * snd (snd p))%float)) (combine a b).

(** [a * k] for a scalar [k]. *)
Definition scale (a : Series) (k : float) : Series :=
  map (fun e => (fst e, (snd e * k)%float)) a.

(** A data frame, row by row: date and one cell per column. *)
Definition DataFrame : Type := list (Z * list float).

(** The union of the indexes, each date once. *)
Definition union_index (ss : list Series) : list Z :=
  nodup Z.eq_dec (concat (map (@index float) ss)).

(** [pd.concat(ss, axis=1)]: one column per series over the union of the
    dates, NaN where a series has no row. *)
Definition concat_columns (ss : list Series) : DataFrame :=
  map (fun d =>
         (d, map (fun s => match lookup d s with Some v => v | None => Py.nan end) ss))
      (union_index ss).

Definition fill_cell (last v : float) : float :=
  if PrimFloat.is_nan v then last else v.

Fixpoint fill_row (last row : list float) : list float :=
  match last, row with
  | l :: ls, v :: vs => fill_cell l v :: fill_row ls vs
  | [], _ => row
  | _, [] => []
  end.

Fixpoint df_ffill_from (last : list float) (df : DataFrame) : DataFrame :=
  match df with
  | [] => []
  | (d, row) :: t =>
      let row' := fill_row last row in
      (d, row') :: df_ffill_from row' t
  end.

(** [df.ffill()], column by column. *)
Definition df_ffill (df : DataFrame) : DataFrame :=
  match df with
  | [] => []
  | (d, row) :: t => (d, row) :: df_ffill_from row t
  end.

(** [df.fillna(0)] *)
Definition fillna0 (df : DataFrame) : DataFrame :=
  map (fun r => (fst r, map (fun v => if PrimFloat.is_nan v then 0%float else v) (snd r))) df.

(** [df.sum(axis=1)]: the cells of a row added from left to right. *)
Definition sum_rows (df : DataFrame) : Series :=
  map (fun r => (fst r, fold_left PrimFloat.add (snd r) 0%float)) df.

(** [s.index.max()] of a non-empty series. *)
Definition index_max (s : Series) : option Z :=
  match index s with
  | [] => None
  | d :: ds => Some (fold_left Z.max ds d)
  end.

(** numpy's [min] and [max] of an array: a NaN wins. *)
Definition np_minimum (a b : float) : float :=
  if PrimFloat.is_nan a then a
  else if PrimFloat.is_nan b then b
  else if (b <? a)%float then b else a.

Definition np_maximum (a b : float) : float :=
  if PrimFloat.is_nan a then a
  else if PrimFloat.is_nan b then b
  else if (a <? b)%float then b else a.

Definition np_min (vs : list float) : option float :=
  match vs with
  | [] => None
  | v :: r => Some (fold_left np_minimum r v)
  end.

Definition np_max (vs : list float) : option float :=
  match vs with
  | [] => None
  | v :: r => Some (fold_left np_maximum r v)
  end.

End Pd.

(** ** Requests to Yahoo Finance, exceptions and the request log *)

(** Keyword arguments of [yf.download]: a date window or a period. *)
Inductive dl_args : Type :=
| Window (start_date end_date : Z)
| Period (period : string).

Inductive request : Type :=
| Download (ticker : string) (args : dl_args)
| Info (ticker : string)
| History (ticker : string).

(** The fields of [yf.Ticker(t).info] the program reads; [None] is a missing
    key. *)
Record ticker_info : Type := {
  currency : option string;
  regularMarketPrice : option float;
  currentPrice : option float;
  previousClose : option float;
  firstTradeDateEpochUtc : option Z;
  firstTradeDateEpochUTC : option Z;
  longName : option string;
  quoteType : option string
}.

(** What the outside world answers.
    - [yf_download t args]: the [Close] column of the frame [yf.download]
      returns, dates already normalised to days; [None] when the call raises,
      returns nothing or an empty frame, or the frame has no [Close] column.
    - [yf_info t]: [yf.Ticker(t).info]; [None] when reading it raises.
    - [yf_history t]: the [Close] column of [yf.Ticker(t).history(period="5d")]
      when that frame is not empty and has such a column.
    - [date_fromtimestamp e]: [datetime.date.fromtimestamp(e)] in the local
      time zone; [None] when it raises. *)
Record world : Type := {
  yf_download : string -> dl_args -> option Pd.Series;
  yf_info : string -> option ticker_info;
  yf_history : string -> option (list float);
  date_fromtimestamp : Z -> option Z
}.

Inductive result (A : Type) : Type :=
| Ok (a : A)
| Raised.
Arguments Ok {A} a.
Arguments Raised {A}.

(** A computation that may raise and that logs its requests. *)
Definition M (A : Type) : Type := list request -> result A * list request.

Definition ret {A : Type} (a : A) : M A := fun log => (Ok a, log).

Definition raise {A : Type} : M A := fun log => (Raised, log).

Definition bind {A B : Type} (m : M A) (k : A -> M B) : M B :=
  fun log =>
    match m log with
    | (Ok a, log') => k a log'
    | (Raised, log') => (Raised, log')
    end.

(** [try: m  except Exception: h] *)
Definition try_except {A : Type} (m h : M A) : M A :=
  fun log =>
    match m log with
    | (Ok a, log') => (Ok a, log')
    | (Raised, log') => h log'
    end.

Definition ask {A : Type} (r : request) (answer : A) : M A :=
  fun log => (Ok answer, log ++ [r]).

Declare Scope m_scope.
Delimit Scope m_scope with m.
Notation "x <- m ;; k" := (bind m (fun x => k))
  (at level 100, m at next level, right associativity) : m_scope.

(** Running a computation from an empty log. *)
Definition run {A : Type} (m : M A) : result A * list request := m [].

(** Lines 155-167 of [download_close]: drop the missing prices; nothing
    usable when no row remains. *)
Definition clean_close (hist : option Pd.Series) : option Pd.Series :=
  match hist with
  | None => None
  | Some close =>
      let close := Pd.dropna close in
      match close with
      | [] => None
      | _ => Some close
      end
  end.

Section DataAccess.

Variable w : world.

(** [download_close(ticker, **kwargs)] (lines 143-167): the cleaned closing
    prices, [None] when there is nothing usable. *)
Definition download_close (ticker : string) (args : dl_args) : M (option Pd.Series) :=
  (hist <- ask (Download ticker args) (yf_download w ticker args) ;;
   ret (clean_close hist))%m.

(** [_normalize_ccy(ccy)] (lines 170-178). *)
Definition _normalize_ccy (ccy : option string) : string :=
  match ccy with
  | None => "CHF"%string
  | Some c =>
      if Py.nonempty c then
        let c := Py.strip c in
        if String.eqb c "GBp" then "GBP"%string else c
      else "CHF"%string
  end.

(** [yf.Ticker(t).info] *)
Definition ticker_info_of (ticker : string) : M ticker_info :=
  (i <- ask (Info ticker) (yf_info w ticker) ;;
   match i with
   | Some info => ret info
   | None => raise
   end)%m.

(** [get_ticker_currency(ticker_symbol)] (lines 181-187). *)
Definition get_ticker_currency (ticker_symbol : string) : M string :=
  try_except
    (info <- ticker_info_of ticker_symbol ;;
     ret (_normalize_ccy (currency info)))%m
    (ret "CHF"%string).

(** The FX ticker [f"{from_ccy}CHF=X"]. *)
Definition fx_ticker_of (from_ccy : string) : string :=
  (from_ccy ++ "CHF=X")%string.

(** [get_fx_rate_to_chf(from_ccy)] (lines 190-201). *)
Definition get_fx_rate_to_chf (from_ccy : string) : M float :=
  let from_ccy := _normalize_ccy (Some from_ccy) in
  if String.eqb from_ccy "CHF" then ret 1%float
  else
    (close <- download_close (fx_ticker_of from_ccy) (Period "5d") ;;
     match close with
     | None => raise
     | Some c => match last (map Some (Pd.values c)) None with
                 | Some v => ret v
                 | None => raise
                 end
     end)%m.

(** [pd.date_range(start, end, freq="D")] *)
Definition date_range (start_date end_date : Z) : list Z :=
  map (fun i => start_date + Z.of_nat i) (seq 0 (Z.to_nat (end_date - start_date + 1))).

(** [get_fx_series_to_chf(from_ccy, start_date, end_date)] (lines 204-220). *)
Definition get_fx_series_to_chf (from_ccy : string) (start_date end_date : Z)
  : M Pd.Series :=
  let from_ccy := _normalize_ccy (Some from_ccy) in
  if String.eqb from_ccy "CHF"
  then ret (map (fun d => (d, 1%float)) (date_range start_date end_date))
  else
    (fx <- download_close (fx_ticker_of from_ccy) (Window start_date end_date) ;;
     match fx with
     | None => raise
     | Some s => ret s
     end)%m.

(** [get_current_price(ticker_symbol)] (lines 223-251): the latest price,
    converted to CHF. *)
Definition get_current_price (ticker_symbol : string) : M float :=
  (info <- ticker_info_of ticker_symbol ;;
   let price :=
     Py.or_else (Py.or_else (regularMarketPrice info) (currentPrice info))
                (previousClose info) in
   price <- match price with
            | Some p => ret (Some p)
            | None =>
                hist <- ask (History ticker_symbol) (yf_history w ticker_symbol) ;;
                match hist with
                | Some close =>
                    match last (map Some (filter (fun v => negb (PrimFloat.is_nan v)) close)) None with
                    | Some p => ret (Some p)
                    | None => raise
                    end
                | None => ret None
                end
            end ;;
   match price with
   | None => raise
   | Some price =>
       let ccy := _normalize_ccy (currency info) in
       let price :=
         if String.eqb ccy "GBP" &&
            match currency info with Some c => String.eqb c "GBp" | None => false end
         then (price / 100)%float else price in
       fx <- get_fx_rate_to_chf ccy ;;
       ret (price * fx)%float
   end)%m.

(** [get_first_price_date(ticker_symbol)] (lines 254-273). *)
Definition get_first_price_date (ticker_symbol : string) : M (option Z) :=
  (early <- try_except
              (i <- ask (Info ticker_symbol) (yf_info w ticker_symbol) ;;
               match i with
               | None => raise
               | Some info =>
                   let epoch := Py.or_else_int (firstTradeDateEpochUtc info)
                                               (firstTradeDateEpochUTC info) in
                   match epoch with
                   | Some e =>
                       if e =? 0 then ret None
                       else match date_fromtimestamp w e with
                            | Some d => ret (Some d)
                            | None => raise
                            end
                   | None => ret None
                   end
               end)
              (ret None) ;;
   match early with
   | Some d => ret (Some d)
   | None =>
       close <- download_close ticker_symbol (Period "max") ;;
       match close with
       | None => ret None
       | Some c => match Pd.index c with
                   | [] => ret None
                   | d :: ds => ret (Some (fold_left Z.min ds d))
                   end
       end
   end)%m.

(** [get_ticker_name(ticker)] (lines 276-282). *)
Definition get_ticker_name (ticker : string) : M (option string) :=
  try_except
    (info <- ticker_info_of ticker ;; ret (longName info))%m
    (ret None).

(** [get_asset_type(ticker)] (lines 285-304). *)
Definition get_asset_type (ticker : string) : M string :=
  try_except
    (info <- ticker_info_of ticker ;;
     let qt_is qt := match quoteType info with
                  | Some q => String.eqb q qt
                  | None => false
                  end in
     ret (if qt_is "EQUITY" then "Stock"
          else if qt_is "ETF" then "ETF"
          else if qt_is "MUTUALFUND" then "Fund"
          else if qt_is "CRYPTOCURRENCY" then "Crypto"
          else if qt_is "INDEX" then "Index"
          else "Other")%string)%m
    (ret "Unknown"%string).

End DataAccess.

(** ** Number formatting and rounding of floats *)

Module Fmt.

(** Nearest integer to [num / den] for [den > 0], ties to the even one. *)
Definition round_half_even_div (num den : Z) : Z :=
  let q := num / den in
  let r := num mod den in
  match 2 * r ?= den with
  | Lt => q
  | Gt => q + 1
  | Eq => if Z.even q then q else q + 1
  end.

(** Sign and magnitude of the exact value of [f * k] rounded to an integer,
    ties to even; [None] for an infinity or a NaN. *)
Definition scaled_round (k : Z) (f : float) : option (bool * Z) :=
  match Prim2SF f with
  | S754_zero s => Some (s, 0)
  | S754_finite s m e =>
      let n := Z.pos m * k in
      Some (s, if 0 <=? e then n * 2 ^ e else round_half_even_div n (2 ^ (- e)))
  | _ => None
  end.

(** [int(round(f))] for a finite [f]. *)
Definition py_round (f : float) : option Z :=
  match scaled_round 1 f with
  | Some (s, n) => Some (if s then - n else n)
  | None => None
  end.

(** Decimal digits of a natural number. *)
Definition digits (n : Z) : string :=
  NilZero.string_of_uint (N.to_uint (Z.to_N n)).

Fixpoint commas_rev (l : list ascii) (k : nat) : list ascii :=
  match l with
  | [] => []
  | c :: r =>
      if (k =? 3)%nat then ","%char :: c :: commas_rev r 1
      else c :: commas_rev r (S k)
  end.

(** Thousands separators in a string of digits. *)
Definition group3 (s : string) : string :=
  string_of_list_ascii (rev (commas_rev (rev (list_ascii_of_string s)) 0)).

(** [f"{value:,.2f}"] when [comma], [f"{value:.2f}"] otherwise. *)
Definition fixed2 (comma : bool) (value : float) : string :=
  match scaled_round 100 value with
  | Some (s, n) =>
      let int_part := digits (n / 100) in
      let frac := n mod 100 in
      let sign := if s then "-"%string else ""%string in
      let pad := if frac <? 10 then "0"%string else ""%string in
      (sign ++ (if comma then group3 int_part else int_part) ++ "." ++
       pad ++ digits frac)%string
  | None =>
      if PrimFloat.is_nan value then "nan"%string
      else if (value <? 0)%float then "-inf"%string else "inf"%string
  end.

(** [float(n)] for an integer below [2^63] in magnitude. *)
Definition float_of_Z (n : Z) : float :=
  if n <? 0 then (- PrimFloat.of_uint63 (Uint63.of_Z (- n)))%float
  else PrimFloat.of_uint63 (Uint63.of_Z n).

End Fmt.

(** ** Holdings and the chart *)

(** One entry of the [assets] list (the dictionary built in [on_add_click],
    without its pre-formatted [purchase_date_str]). *)
Record asset : Type := {
  ticker : string;
  name : option string;
  asset_type : string;
  shares : float;
  price : float;
  current_price : float;
  purchase_date : option Z;
  percentage_gain : float;
  profit_gain : float
}.

(** [to_float(value, default=0.0)] (lines 113-121). [value] is the outcome of
    Python's [float(value)]: [None] when it raises [TypeError] or
    [ValueError]. *)
Definition to_float (value : option float) (default : float) : float :=
  match value with
  | Some x => x
  | None => default
  end.

Inductive color : Type := WHITE70 | GREEN_ACCENT | RED_ACCENT.

(** [format_pct(value)] (lines 124-129). *)
Definition format_pct (value : float) : string :=
  let body := (Fmt.fixed2 false (value * 100)%float ++ "%")%string in
  if (0 <=? value)%float then ("+" ++ body)%string else body.

(** [signed_color(value)] (lines 132-134). *)
Definition signed_color (value : float) : color :=
  if (0 <=? value)%float then GREEN_ACCENT else RED_ACCENT.

(** [format_signed_chf(value, comma)] (lines 137-140). *)
Definition format_signed_chf (value : float) (comma : bool) : string :=
  let fmt := Fmt.fixed2 comma value in
  if (0 <=? value)%float then ("CHF +" ++ fmt)%string else ("CHF " ++ fmt)%string.

(** What [update_total_worth_graph] writes to the page: the three summary
    texts, the chart series and bounds, the y labels and the dates shown by
    the x labels. *)
Record chart : Type := {
  total_worth_value_text : string;
  total_gain_pct_text : string;
  total_gain_pct_color : color;
  total_profit_text : string;
  total_profit_color : color;
  data_points : list (Z * float);
  min_x : Z;
  max_x : Z;
  min_y : float;
  max_y : float;
  y_axis_labels : list string;
  x_axis_label_dates : list Z
}.

(** [reset_total_worth(clear_summary)] (lines 306-322), applied to the
    previous page content [c]. *)
Definition reset_total_worth (clear_summary : bool) (c : chart) : chart :=
  {| total_worth_value_text := "CHF 0.00";
     total_gain_pct_text := if clear_summary then ""%string else total_gain_pct_text c;
     total_gain_pct_color := if clear_summary then WHITE70 else total_gain_pct_color c;
     total_profit_text := if clear_summary then ""%string else total_profit_text c;
     total_profit_color := if clear_summary then WHITE70 else total_profit_color c;
     data_points := [];
     min_x := 0;
     max_x := 1;
     min_y := 0%float;
     max_y := 1%float;
     y_axis_labels := [];
     x_axis_label_dates := [] |}.

(** The page before anything was drawn (lines 33-77). *)
Definition initial_chart : chart :=
  {| total_worth_value_text := "CHF 0.00";
     total_gain_pct_text := "";
     total_gain_pct_color := WHITE70;
     total_profit_text := "";
     total_profit_color := WHITE70;
     data_points := [];
     min_x := 0;
     max_x := 1;
     min_y := 0%float;
     max_y := 1%float;
     y_axis_labels := [];
     x_axis_label_dates := [] |}.

(** ** [update_total_worth_graph], piece by piece *)

(** Lines 337-344: the earliest purchase date, or a year before today. *)
Definition start_date_of (today : Z) (assets : list asset) : Z :=
  let purchase_dates :=
    flat_map (fun a => match purchase_date a with
                       | Some d => [d]
                       | None => []
                       end) assets in
  match purchase_dates with
  | [] => today - 365
  | d :: ds => fold_left Z.min ds d
  end.

(** Line 345. *)
Definition end_date_of (today : Z) : Z := today + 1.

(** Lines 373-375: the FX series aligned on the price dates, forward
    filled, times the prices. *)
Definition to_chf (close fx : Pd.Series) : Pd.Series :=
  Pd.mul close (Pd.ffill (Pd.reindex fx (Pd.index close))).

(** Lines 379-387: trim to the purchase date and pin the value there to the
    purchase cost. *)
Definition anchor (a : asset) (shares : float) (value : Pd.Series) : Pd.Series :=
  match purchase_date a with
  | Some p_ts =>
      let value := Pd.from_date value p_ts in
      let purchase_price := to_float (Some (price a)) 0 in
      if (0 <? purchase_price)%float
      then Pd.sort_index (Pd.loc_set value p_ts (shares * purchase_price)%float)
      else value
  | None => value
  end.

Section Engine.

Variable w : world.

(** [datetime.date.today()] *)
Variable today : Z.

(** The body of the loop of lines 348-392 for one holding: [Some value] when
    a series is appended to [series_list], [None] on [continue]. The name
    given to the series by [value.rename(ticker)] plays no role afterwards
    and is left out. *)
Definition holding_series (start_date end_date : Z) (a : asset)
  : M (option Pd.Series) :=
  if negb (Py.nonempty (ticker a)) then ret None
  else
    let shares := to_float (Some (shares a)) 0 in
    if (shares <=? 0)%float then ret None
    else
      (close <- download_close w (ticker a) (Window start_date end_date) ;;
       match close with
       | None => ret None
       | Some close =>
           asset_ccy <- get_ticker_currency w (ticker a) ;;
           close <- (if negb (String.eqb asset_ccy "CHF")
                     then fx <- get_fx_series_to_chf w asset_ccy start_date end_date ;;
                          ret (to_chf close fx)
                     else ret close) ;;
           let value := Pd.scale close shares in
           let value := anchor a shares value in
           match value with
           | [] => ret None
           | _ => ret (Some value)
           end
       end)%m.

(** The loop of lines 347-392. *)
Fixpoint series_list_of (start_date end_date : Z) (assets : list asset)
  : M (list Pd.Series) :=
  match assets with
  | [] => ret []
  | a :: rest =>
      (v <- holding_series start_date end_date a ;;
       l <- series_list_of start_date end_date rest ;;
       ret (match v with Some s => s :: l | None => l end))%m
  end.

(** Lines 400-401: all series on one date index, forward filled, summed. *)
Definition combine_series (series_list : list Pd.Series) : Pd.Series :=
  Pd.sum_rows (Pd.fillna0 (Pd.df_ffill (Pd.sort_index (Pd.concat_columns series_list)))).

(** Lines 405-416: the portfolio value from the stored current prices. *)
Definition latest_total_of (assets : list asset) : float :=
  fold_left
    (fun latest_total a =>
       let shares := to_float (Some (shares a)) 0 in
       if (shares <=? 0)%float then latest_total
       else if match purchase_date a with
               | Some pdate => today <? pdate
               | None => false
               end then latest_total
       else
         let current_price := to_float (Some (current_price a)) 0 in
         (latest_total + shares * current_price)%float)
    assets 0%float.

(** Lines 403-419: the point for today, when the series stops earlier. *)
Definition with_today (assets : list asset) (total : Pd.Series) : Pd.Series :=
  match Pd.index_max total with
  | Some latest =>
      if latest <? today
      then Pd.sort_index (Pd.loc_set total today (latest_total_of assets))
      else total
  | None => total
  end.

(** Lines 347-419: the total series, [None] where the code resets the chart
    and returns. *)
Definition total_series (assets : list asset) : M (option Pd.Series) :=
  let start_date := start_date_of today assets in
  let end_date := end_date_of today in
  (series_list <- series_list_of start_date end_date assets ;;
   match series_list with
   | [] => ret None
   | _ =>
       let total := with_today assets (combine_series series_list) in
       match total with
       | [] => ret None
       | _ => ret (Some total)
       end
   end)%m.

End Engine.

(** ** Summary, bounds and labels (lines 425-543) *)

(** Lines 429-440: [(total_cost, total_current)]. *)
Definition summary_totals (assets : list asset) : float * float :=
  fold_left
    (fun totals a =>
       let shares := to_float (Some (shares a)) 0 in
       if (shares <=? 0)%float then totals
       else
         let purchase_price := to_float (Some (price a)) 0 in
         let current_price := to_float (Some (current_price a)) 0 in
         ((fst totals + shares * purchase_price)%float,
          (snd totals + shares * current_price)%float))
    assets (0%float, 0%float).

(** Lines 443-444: [(total_profit, total_pct)]. *)
Definition profit_and_pct (totals : float * float) : float * float :=
  let total_cost := fst totals in
  let total_current := snd totals in
  let total_profit := (total_current - total_cost)%float in
  (total_profit,
   if (0 <? total_cost)%float then (total_profit / total_cost)%float else 0%float).

(** Lines 458-468: [(min_y, max_y)] for a non-empty array of values. *)
Definition y_range (values : list float) : option (float * float) :=
  match Pd.np_min values, Pd.np_max values with
  | Some min_val, Some max_val =>
      let rng_val := (max_val - min_val)%float in
      if (PrimFloat.abs rng_val <? 1e-9)%float
      then Some ((min_val - 1)%float, (max_val + 1)%float)
      else
        let pad := (0.05 * rng_val)%float in
        Some ((min_val - pad)%float, (max_val + pad)%float)
  | _, _ => None
  end.

(** [range(n)] *)
Definition py_range (n : nat) : list Z := map Z.of_nat (seq 0 n).

(** Line 499. *)
Definition y_ticks : Z := 8.

(** Lines 500-501. *)
Definition y_step (min_y max_y : float) : float :=
  let rng := (max_y - min_y)%float in
  if (0 <? rng)%float then (rng / Fmt.float_of_Z y_ticks)%float else 1%float.

(** The value shown by the label of rank [i] (line 504). *)
Definition y_tick (min_y max_y : float) (i : Z) : float :=
  (min_y + Fmt.float_of_Z i * y_step min_y max_y)%float.

(** Lines 502-510: the texts of the y-axis column, top first. *)
Definition y_labels (min_y max_y : float) : list string :=
  map (fun i => ("CHF " ++ Fmt.fixed2 true (y_tick min_y max_y i))%string)
      (rev (py_range (Z.to_nat (y_ticks + 1)))).

(** Line 513. *)
Definition x_labels_count : Z := 8.

(** Line 533: [int(round(total_days * i / denom))]; the quotient of two
    integers is a finite float. *)
Definition day_offset (total_days i denom : Z) : Z :=
  match Fmt.py_round (Fmt.float_of_Z (total_days * i) / Fmt.float_of_Z denom)%float with
  | Some k => k
  | None => 0
  end.

(** Lines 516-543: the dates the x labels show. *)
Definition x_label_dates (dates : list Z) : list Z :=
  match dates with
  | [] => []
  | [d] => [d]
  | start_ts :: _ =>
      let end_ts := last dates start_ts in
      let total_days := end_ts - start_ts in
      let denom := x_labels_count - 1 in
      map (fun i => start_ts + day_offset total_days i denom)
          (py_range (Z.to_nat x_labels_count))
  end.

(** Lines 425-543: the page drawn from a non-empty total series. *)
Definition draw (assets : list asset) (total : Pd.Series) : chart :=
  let last_value := last (Pd.values total) 0%float in
  let totals := summary_totals assets in
  let total_profit := fst (profit_and_pct totals) in
  let total_pct := snd (profit_and_pct totals) in
  let values := Pd.values total in
  let n := Z.of_nat (List.length values) in
  let bounds := match y_range values with
                | Some b => b
                | None => (0%float, 1%float)
                end in
  {| total_worth_value_text := ("CHF " ++ Fmt.fixed2 true last_value)%string;
     total_gain_pct_text := format_pct total_pct;
     total_gain_pct_color := signed_color total_profit;
     total_profit_text := format_signed_chf total_profit true;
     total_profit_color := signed_color total_profit;
     data_points := combine (py_range (List.length values)) values;
     min_x := 0;
     max_x := Z.max 1 (n - 1);
     min_y := fst bounds;
     max_y := snd bounds;
     y_axis_labels := y_labels (fst bounds) (snd bounds);
     x_axis_label_dates := x_label_dates (Pd.index total) |}.

Section App.

Variable w : world.
Variable today : Z.

(** [update_total_worth_graph()] (lines 325-543) on the holdings [assets] and
    the page content [page]. *)
Definition update_total_worth_graph (assets : list asset) (page : chart) : M chart :=
  match assets with
  | [] => ret (reset_total_worth true page)
  | _ =>
      (total <- total_series w today assets ;;
       match total with
       | None => ret (reset_total_worth true page)
       | Some total => ret (draw assets total)
       end)%m
  end.

(** [refresh_assets()] (lines 548-697); the holding cards it rebuilds are
    not part of the model. *)
Definition refresh_assets (assets : list asset) (page : chart) : M chart :=
  update_total_worth_graph assets page.

(** Lines 701-704: pop the first holding with that ticker. *)
Fixpoint pop_first (t : string) (assets : list asset) : list asset :=
  match assets with
  | [] => []
  | a :: rest => if String.eqb (ticker a) t then rest else a :: pop_first t rest
  end.

(** [delete_asset(ticker)] (lines 699-705): the list after the loop, and the
    refresh that follows it. *)
Definition delete_asset (t : string) (assets : list asset) (page : chart)
  : list asset * M chart :=
  let assets := pop_first t assets in
  (assets, refresh_assets assets page).

(** The add-asset dialog when "Add" is clicked: the ticker text, the outcome
    of [float()] on the shares and price texts, and the picked day. *)
Record form : Type := {
  ticker_field : string;
  shares_field : option float;
  price_field : option float;
  selected_purchase_date : option Z
}.

(** [validate_fields(show_errors)] (lines 796-829), its return value. *)
Definition validate_fields (f : form) : bool :=
  let ticker_ok := Py.nonempty (Py.strip (ticker_field f)) in
  let shares_ok := (0 <? to_float (shares_field f) 0)%float in
  let price_ok := (0 <? to_float (price_field f) 0)%float in
  let date_ok := match selected_purchase_date f with Some _ => true | None => false end in
  ticker_ok && shares_ok && price_ok && date_ok.

Inductive rejection : Type :=
| FieldsRequired
| NoDate
| FutureDate
| InvalidNumbers
| InvalidTicker
| BeforeFirstPrice (first_dt : Z).

(** How a click ends. [Rejected why]: [on_add_click] returned at one of its
    checks (lines 833-875), the holdings list untouched. [Added r]: it
    appended the holding (line 883) and called [refresh_assets()] (line 899),
    which ended as [r]. That call stands in no [try]:
    - [Added (Ok pg)] is the handler returning, the page [pg] drawn;
    - [Added Raised] is the handler raising, the exception of
      [refresh_assets()] leaving [on_add_click] after [assets.append] has
      changed the list. *)
Inductive add_outcome : Type :=
| Rejected (why : rejection)
| Added (page : result chart).

(** Whether the call of [on_add_click] that ended so raised. *)
Definition click_raised (out : add_outcome) : bool :=
  match out with
  | Added Raised => true
  | _ => false
  end.

(** [try: m  except Exception: ...] with the way [m] ended as the value:
    the [try] of lines 858-867. *)
Definition attempt {A : Type} (m : M A) : M (result A) :=
  fun log =>
    match m log with
    | (Ok a, log') => (Ok (Ok a), log')
    | (Raised, log') => (Ok Raised, log')
    end.

(** The statements [m] that follow [assets.append] (lines 898-899), which no
    [try] encloses. The list is a Python list changed in place: it keeps the
    new holding however [m] ends, so it is given with the way [m] ended,
    [Raised] standing for an exception that leaves the handler. *)
Definition after_append (assets : list asset) (m : M chart)
  : M (list asset * add_outcome) :=
  fun log =>
    match m log with
    | (Ok pg, log') => (Ok (assets, Added (Ok pg)), log')
    | (Raised, log') => (Ok (assets, Added Raised), log')
    end.

(** Lines 877-899 of [on_add_click]: build the holding, append it, refresh.
    An exception of the refresh is not caught here. *)
Definition append_asset (ticker : string) (shares price current_price : float)
    (purchase_date : Z) (assets : list asset) (page : chart)
  : M (list asset * add_outcome) :=
  let profit := (shares * (current_price - price))%float in
  (name <- get_ticker_name w ticker ;;
   type <- get_asset_type w ticker ;;
   let a := {| ticker := ticker;
               name := name;
               asset_type := type;
               shares := shares;
               price := price;
               current_price := current_price;
               purchase_date := Some purchase_date;
               percentage_gain := ((current_price - price) / price)%float;
               profit_gain := profit |} in
   let assets := assets ++ [a] in
   after_append assets (refresh_assets assets page))%m.

(** [on_add_click(e)] (lines 831-899): the holdings list after the click and
    how the click ended. The list is always given, also when the handler
    raises: that case is the outcome [Added Raised], see [add_outcome]. *)
Definition on_add_click (f : form) (assets : list asset) (page : chart)
  : M (list asset * add_outcome) :=
  if negb (validate_fields f) then ret (assets, Rejected FieldsRequired)
  else
    let ticker := Py.upper (Py.strip (ticker_field f)) in
    match selected_purchase_date f with
    | None => ret (assets, Rejected NoDate)
    | Some purchase_date =>
        if today <? purchase_date then ret (assets, Rejected FutureDate)
        else
          let shares := to_float (shares_field f) 0 in
          let price := to_float (price_field f) 0 in
          if (shares <=? 0)%float || (price <=? 0)%float
          then ret (assets, Rejected InvalidNumbers)
          else
            (current_price <- attempt (get_current_price w ticker) ;;
             match current_price with
             | Raised => ret (assets, Rejected InvalidTicker)
             | Ok current_price =>
                 first_dt <- get_first_price_date w ticker ;;
                 match first_dt with
                 | Some d =>
                     if purchase_date <? d
                     then ret (assets, Rejected (BeforeFirstPrice d))
                     else append_asset ticker shares price current_price
                                       purchase_date assets page
                 | None => append_asset ticker shares price current_price
                                        purchase_date assets page
                 end
             end)%m
    end.

End App.

(** ** What the data functions answer, as functions of the world

    The requests of the program do not depend on the log: the definitions
    below give the answers of [download_close], [get_ticker_currency] and
    [get_fx_series_to_chf] directly from the world; the lemmas of
    [MFacts] relate them to the code above. *)

(** The answer of [download_close]. *)
Definition close_of (w : world) (ticker : string) (args : dl_args) : option Pd.Series :=
  clean_close (yf_download w ticker args).

(** The answer of [get_ticker_currency]. *)
Definition asset_currency (w : world) (ticker : string) : string :=
  match yf_info w ticker with
  | Some info => _normalize_ccy (currency info)
  | None => "CHF"%string
  end.

(** The answer of [get_fx_series_to_chf]; [None] when it raises. *)
Definition fx_series (w : world) (from_ccy : string) (start_date end_date : Z)
  : option Pd.Series :=
  let from_ccy := _normalize_ccy (Some from_ccy) in
  if String.eqb from_ccy "CHF"
  then Some (map (fun d => (d, 1%float)) (date_range start_date end_date))
  else close_of w (fx_ticker_of from_ccy) (Window start_date end_date).

(** The holding's currency is not CHF and its FX series cannot be fetched:
    [get_fx_series_to_chf] raises. *)
Definition fx_fails (w : world) (ticker : string) (start_date end_date : Z) : bool :=
  let ccy := asset_currency w ticker in
  negb (String.eqb ccy "CHF") &&
  match fx_series w ccy start_date end_date with
  | Some _ => false
  | None => true
  end.

(** A computation whose result and requests do not depend on the requests
    logged before it. *)
Definition oblivious {A : Type} (m : M A) : Prop :=
  forall log, m log = (fst (run m), log ++ snd (run m)).

(** ** The "today" rule in the words of the specification

    Shares times the stored current price, added up in list order over the
    holdings with [shares > 0] whose purchase date is not after today (a
    holding without a purchase date counts). *)

Definition held_today (today : Z) (a : asset) : bool :=
  (0 <? shares a)%float &&
  match purchase_date a with
  | Some pdate => pdate <=? today
  | None => true
  end.

Definition snapshot_value (today : Z) (assets : list asset) : float :=
  fold_left (fun total a => (total + shares a * current_price a)%float)
            (filter (held_today today) assets) 0%float.

(** ** Invalid input that needs no market data, in the words of the
    specification: shares or price not positive, or a purchase date in the
    future. *)

Definition invalid_without_data (today : Z) (f : form) : bool :=
  (to_float (shares_field f) 0 <=? 0)%float ||
  (to_float (price_field f) 0 <=? 0)%float ||
  match selected_purchase_date f with
  | Some purchase_date => today <? purchase_date
  | None => false
  end.

(** An array of values without NaN. *)
Definition no_nan (vs : list float) : Prop :=
  Forall (fun v => PrimFloat.is_nan v = false) vs.

(** ** Sample data

    A London share quoted in pence ("GBp"): two daily closes, an FX series
    that starts on the second day, no first-trade date in the metadata. *)

Definition vod_info : ticker_info :=
  {| currency := Some "GBp"%string;
     regularMarketPrice := Some 600%float;
     currentPrice := None;
     previousClose := None;
     firstTradeDateEpochUtc := None;
     firstTradeDateEpochUTC := None;
     longName := Some "Vodafone Group"%string;
     quoteType := Some "EQUITY"%string |}.

Definition pence_world : world :=
  {| yf_download := fun t _ =>
       if String.eqb t "VOD.L" then Some [(10, 500%float); (11, 600%float)]
       else if String.eqb t "GBPCHF=X" then Some [(11, 1.25%float)]
       else None;
     yf_info := fun t => if String.eqb t "VOD.L" then Some vod_info else None;
     yf_history := fun _ => None;
     date_fromtimestamp := fun _ => None |}.

(** Two shares of it bought on day 9 at CHF 4. *)
Definition vod : asset :=
  {| ticker := "VOD.L";
     name := Some "Vodafone Group"%string;
     asset_type := "Stock";
     shares := 2%float;
     price := 4%float;
     current_price := 7.5%float;
     purchase_date := Some 9;
     percentage_gain := 0.875%float;
     profit_gain := 7%float |}.

(** A Swiss share quoted in CHF, with closes on days 10, 11 and 12. *)
Definition swiss_world : world :=
  {| yf_download := fun t _ =>
       if String.eqb t "NESN.SW"
       then Some [(10, 100%float); (11, 110%float); (12, 120%float)]
       else None;
     yf_info := fun t =>
       if String.eqb t "NESN.SW"
       then Some {| currency := Some "CHF"%string;
                    regularMarketPrice := Some 120%float;
                    currentPrice := None;
                    previousClose := None;
                    firstTradeDateEpochUtc := None;
                    firstTradeDateEpochUTC := None;
                    longName := Some "Nestle"%string;
                    quoteType := Some "EQUITY"%string |}
       else None;
     yf_history := fun _ => None;
     date_fromtimestamp := fun _ => None |}.

Definition nesn : asset :=
  {| ticker := "NESN.SW";
     name := Some "Nestle"%string;
     asset_type := "Stock";
     shares := 3%float;
     price := 90%float;
     current_price := 120%float;
     purchase_date := Some 10;
     percentage_gain := 0.33333333333333331%float;
     profit_gain := 90%float |}.

(** The dialog filled in for two shares of VOD.L at CHF 4, bought on the
    given day. *)
Definition vod_form (day : Z) : form :=
  {| ticker_field := " vod.l ";
     shares_field := Some 2%float;
     price_field := Some 4%float;
     selected_purchase_date := Some day |}.

(** The first-trade date the metadata give, when they can be read, carry a
    non-zero time stamp and that time stamp converts to a date. *)
Definition first_trade_date (w : world) (ticker : string) : option Z :=
  match yf_info w ticker with
  | Some info =>
      match Py.or_else_int (firstTradeDateEpochUtc info) (firstTradeDateEpochUTC info) with
      | Some e => if e =? 0 then None else date_fromtimestamp w e
      | None => None
      end
  | None => None
  end.

(** A list of dates that never goes backwards. *)
Fixpoint nondecreasing (l : list Z) : bool :=
  match l with
  | a :: ((b :: _) as t) => (a <=? b) && nondecreasing t
  | _ => true
  end.

(** The eight day offsets of the x labels for a span of [total_days] days
    start at 0, end at [total_days] and never go backwards. *)
Definition offsets_ok (total_days : Z) : bool :=
  let offsets := map (fun i => day_offset total_days i (x_labels_count - 1))
                     (py_range (Z.to_nat x_labels_count)) in
  (hd 1 offsets =? 0) && (last offsets (-1) =? total_days) && nondecreasing offsets.

(** The cell of a series in the frame of [pd.concat] at a date: its value
    there, NaN when it has no row. *)
Definition frame_cell (s : Pd.Series) (d : Z) : float :=
  match Pd.lookup d s with Some v => v | None => Py.nan end.

(** The row of the frame at a date. *)
Definition frame_row (ss : list Pd.Series) (d : Z) : Z * list float :=
  (d, map (fun s => frame_cell s d) ss).

(** What a series contributes to the total at the last of the given dates,
    the dates of the total up to there: its value at the most recent of
    these dates where it has one, 0 when it has none. *)
Definition contribution (s : Pd.Series) (dates : list Z) : float :=
  let carried :=
    fold_left (fun acc d => Pd.fill_cell acc (frame_cell s d)) dates Py.nan in
  if PrimFloat.is_nan carried then 0%float else carried.

(** ** More sample data *)

(** Metadata with a currency code and nothing else. *)
Definition bare_info (ccy : option string) : ticker_info :=
  {| currency := ccy;
     regularMarketPrice := None;
     currentPrice := None;
     previousClose := None;
     firstTradeDateEpochUtc := None;
     firstTradeDateEpochUTC := None;
     longName := None;
     quoteType := None |}.

(** A world without quotes in the metadata: the five-day history has the
    closes 98 and 99 and a missing one; no download succeeds. *)
Definition history_world : world :=
  {| yf_download := fun _ _ => None;
     yf_info := fun _ => Some (bare_info (Some "CHF"%string));
     yf_history := fun _ => Some [98%float; 99%float; Py.nan];
     date_fromtimestamp := fun _ => None |}.

(** A world whose only quote is zero and whose history has no close. *)
Definition silent_world : world :=
  {| yf_download := fun _ _ => None;
     yf_info := fun _ =>
       Some {| currency := None;
               regularMarketPrice := Some 0%float;
               currentPrice := None;
               previousClose := None;
               firstTradeDateEpochUtc := None;
               firstTradeDateEpochUTC := None;
               longName := None;
               quoteType := None |};
     yf_history := fun _ => Some [Py.nan];
     date_fromtimestamp := fun _ => None |}.

(** A share quoted in US dollars whose prices can be downloaded while the
    FX ticker "USDCHF=X" gives nothing; its metadata carry a first-trade
    time stamp that the local calendar maps to day 3. *)
Definition dollar_info : ticker_info :=
  {| currency := Some "USD"%string;
     regularMarketPrice := Some 50%float;
     currentPrice := None;
     previousClose := None;
     firstTradeDateEpochUtc := Some 259200;
     firstTradeDateEpochUTC := None;
     longName := None;
     quoteType := Some "ETF"%string |}.

Definition dollar_world : world :=
  {| yf_download := fun t _ =>
       if String.eqb t "SPY" then Some [(10, 40%float); (11, 50%float)] else None;
     yf_info := fun t => if String.eqb t "SPY" then Some dollar_info else None;
     yf_history := fun _ => None;
     date_fromtimestamp := fun e => Some (e / 86400) |}.

Definition spy : asset :=
  {| ticker := "SPY";
     name := None;
     asset_type := "ETF";
     shares := 1%float;
     price := 30%float;
     current_price := 45%float;
     purchase_date := Some 10;
     percentage_gain := 0.5%float;
     profit_gain := 15%float |}.

(** The holding the dialog [vod_form 10] adds in [pence_world]. *)
Definition vod_added : asset :=
  {| ticker := "VOD.L";
     name := Some "Vodafone Group"%string;
     asset_type := "Stock";
     shares := 2%float;
     price := 4%float;
     current_price := 7.5%float;
     purchase_date := Some 10;
     percentage_gain := 0.875%float;
     profit_gain := 7%float |}.

(** The dialog filled in for one share of SPY at CHF 30, bought on day 10. *)
Definition spy_form : form :=
  {| ticker_field := "spy";
     shares_field := Some 1%float;
     price_field := Some 30%float;
     selected_purchase_date := Some 10 |}.

(** A world like [dollar_world] in which "USDCHF=X" has a rate for the last
    five days and, as there, no series over a window of dates. *)
Definition late_fx_world : world :=
  {| yf_download := fun t args =>
       if String.eqb t "SPY" then Some [(10, 40%float); (11, 50%float)]
       else if String.eqb t "USDCHF=X"
            then match args with
                 | Period _ => Some [(12, 0.9%float)]
                 | Window _ _ => None
                 end
            else None;
     yf_info := fun t => if String.eqb t "SPY" then Some dollar_info else None;
     yf_history := fun _ => None;
     date_fromtimestamp := fun e => Some (e / 86400) |}.

(** * Properties *)

(** ** Facts about binary64 comparisons and NaN *)

Module FloatFacts.

Lemma Prim2SF_zero : Prim2SF 0%float = S754_zero false.
Proof. reflexivity. Qed.

Lemma SFcompare_refl (f : spec_float) :
  f <> S754_nan -> SFcompare f f = Some Eq.
Proof.
  destruct f as [s | s | | s m e]; simpl; intros Hn; try congruence.
  - destruct s; reflexivity.
  - rewrite Z.compare_refl.
    change (Pos.compare_cont Eq m m) with (Pos.compare m m).
    rewrite Pos.compare_refl. destruct s; reflexivity.
Qed.

Lemma is_nan_spec (x : float) :
  PrimFloat.is_nan x = true <-> Prim2SF x = S754_nan.
Proof.
  unfold PrimFloat.is_nan. rewrite FloatAxioms.eqb_spec. unfold SFeqb. split.
  - intros H. destruct (Prim2SF x) eqn:E; try reflexivity;
      rewrite SFcompare_refl in H by congruence; discriminate.
  - intros ->. reflexivity.
Qed.

Lemma is_nan_mul_l (x y : float) :
  PrimFloat.is_nan x = true -> PrimFloat.is_nan (x * y)%float = true.
Proof.
  rewrite !is_nan_spec, mul_spec. intros ->. reflexivity.
Qed.

Lemma is_nan_mul_r (x y : float) :
  PrimFloat.is_nan y = true -> PrimFloat.is_nan (x * y)%float = true.
Proof.
  rewrite !is_nan_spec, mul_spec. intros ->.
  destruct (Prim2SF x); reflexivity.
Qed.

(** [0 < x] excludes [x <= 0]. *)
Lemma ltb_0_leb (x : float) :
  (0 <? x)%float = true -> (x <=? 0)%float = false.
Proof.
  rewrite ltb_spec, leb_spec, Prim2SF_zero. unfold SFltb, SFleb.
  destruct (Prim2SF x) as [s | s | | s m e]; simpl; try discriminate;
    destruct s; simpl; congruence.
Qed.

(** Away from NaN, [x <= 0] is the negation of [0 < x]. *)
Lemma leb_0_ltb (x : float) :
  PrimFloat.is_nan x = false -> (x <=? 0)%float = negb (0 <? x)%float.
Proof.
  intros Hn.
  assert (Prim2SF x <> S754_nan) as Hx.
  { intros E. apply is_nan_spec in E. congruence. }
  rewrite ltb_spec, leb_spec, Prim2SF_zero. unfold SFltb, SFleb.
  destruct (Prim2SF x) as [s | s | | s m e]; simpl; try congruence;
    destruct s; reflexivity.
Qed.

Ltac cmp_cases :=
  repeat match goal with
         | H : context [Z.compare ?a ?b] |- _ =>
             destruct (Z.compare_spec a b); try discriminate H
         | |- context [Z.compare ?a ?b] =>
             destruct (Z.compare_spec a b)
         | H : context [Pos.compare ?a ?b] |- _ =>
             destruct (Pos.compare_spec a b); try discriminate H
         | |- context [Pos.compare ?a ?b] =>
             destruct (Pos.compare_spec a b)
         end.

Ltac by_float_cases x y :=
  destruct x as [[] | [] | | [] ? ?], y as [[] | [] | | [] ? ?];
  simpl; try discriminate; try reflexivity; try congruence.

Lemma SFleb_trans (x y z : spec_float) :
  SFleb x y = true -> SFleb y z = true -> SFleb x z = true.
Proof.
  unfold SFleb.
  destruct z as [[] | [] | | [] ? ?]; by_float_cases x y.
  all: change (Pos.compare_cont Eq) with Pos.compare.
  all: intros H1 H2; cmp_cases; simpl in *; subst;
    try reflexivity; try discriminate; try lia.
Qed.

Lemma SFleb_total (x y : spec_float) :
  x <> S754_nan -> y <> S754_nan -> SFltb y x = false -> SFleb x y = true.
Proof.
  unfold SFleb, SFltb. by_float_cases x y.
  all: change (Pos.compare_cont Eq) with Pos.compare.
  all: intros _ _ H; cmp_cases; simpl in *; subst;
    try reflexivity; try discriminate; try lia.
Qed.

Lemma leb_trans (x y z : float) :
  (x <=? y)%float = true -> (y <=? z)%float = true -> (x <=? z)%float = true.
Proof. rewrite !leb_spec. apply SFleb_trans. Qed.

Lemma leb_refl (x : float) :
  PrimFloat.is_nan x = false -> (x <=? x)%float = true.
Proof.
  intros Hn. rewrite leb_spec. unfold SFleb.
  rewrite SFcompare_refl; [reflexivity |].
  intros E. apply is_nan_spec in E. congruence.
Qed.

Lemma ltb_leb (x y : float) :
  (x <? y)%float = true -> (x <=? y)%float = true.
Proof.
  rewrite ltb_spec, leb_spec. unfold SFltb, SFleb.
  destruct (SFcompare (Prim2SF x) (Prim2SF y)) as [[] |]; congruence.
Qed.

Lemma not_ltb_leb (x y : float) :
  PrimFloat.is_nan x = false -> PrimFloat.is_nan y = false ->
  (y <? x)%float = false -> (x <=? y)%float = true.
Proof.
  intros Hx Hy. rewrite ltb_spec, leb_spec. apply SFleb_total.
  - intros E. apply is_nan_spec in E. congruence.
  - intros E. apply is_nan_spec in E. congruence.
Qed.

End FloatFacts.

(** ** Facts about series *)

Module PdFacts.
Import Pd.

Section Rows.

Context {A : Type}.
Implicit Types (s : list (Z * A)) (e : Z * A).

Lemma insert_row_perm e s : Permutation (e :: s) (insert_row e s).
Proof.
  induction s as [| h t IH]; simpl; [reflexivity |].
  destruct (fst e <=? fst h); [reflexivity |].
  rewrite perm_swap. now apply perm_skip.
Qed.

Lemma sort_index_perm s : Permutation s (sort_index s).
Proof.
  induction s as [| h t IH]; simpl; [reflexivity |].
  rewrite <- insert_row_perm. now apply perm_skip.
Qed.

Lemma sort_index_In e s : In e (sort_index s) <-> In e s.
Proof.
  split; apply Permutation_in; [symmetry |]; apply sort_index_perm.
Qed.

Lemma index_perm s s' : Permutation s s' -> Permutation (index s) (index s').
Proof. apply Permutation_map. Qed.

Lemma insert_row_sorted e s :
  StronglySorted Z.le (index s) -> StronglySorted Z.le (index (insert_row e s)).
Proof.
  induction s as [| h t IH]; simpl; intros Hs.
  - repeat constructor.
  - apply StronglySorted_inv in Hs as [Ht Hh].
    destruct (fst e <=? fst h) eqn:E; simpl.
    + apply Z.leb_le in E. constructor.
      * constructor; assumption.
      * constructor; [assumption |].
        eapply Forall_impl; [| exact Hh]. intros; lia.
    + apply Z.leb_gt in E. constructor; [now apply IH |].
      apply Forall_forall. intros d Hd.
      apply (Permutation_in _ (Permutation_sym (index_perm _ _ (insert_row_perm e t)))) in Hd.
      destruct Hd as [<- | Hd]; [lia |].
      rewrite Forall_forall in Hh. now apply Hh.
Qed.

(** [sort_index] yields ascending dates. *)
Lemma sort_index_sorted s : StronglySorted Z.le (index (sort_index s)).
Proof.
  induction s as [| h t IH]; simpl; [constructor | now apply insert_row_sorted].
Qed.

(** [sort_index] leaves an ascending series as it is. *)
Lemma sort_index_id s : StronglySorted Z.le (index s) -> sort_index s = s.
Proof.
  induction s as [| h t IH]; simpl; intros Hs; [reflexivity |].
  apply StronglySorted_inv in Hs as [Ht Hh].
  rewrite (IH Ht). destruct t as [| h' t']; [reflexivity |].
  simpl. inversion Hh as [| ? ? Hle _]; subst.
  apply Z.leb_le in Hle. now rewrite Hle.
Qed.

End Rows.

(** Ascending dates without repetition are strictly ascending. *)
Lemma sorted_nodup_lt (l : list Z) :
  StronglySorted Z.le l -> NoDup l -> StronglySorted Z.lt l.
Proof.
  induction 1 as [| d l Hs IH Hd]; intros Hn; [constructor |].
  inversion Hn as [| ? ? Hnin Hn']; subst.
  constructor; [now apply IH |].
  rewrite Forall_forall in *. intros x Hx.
  specialize (Hd x Hx). assert (x <> d) by (intros ->; contradiction). lia.
Qed.

Lemma sorted_lt_le (l : list Z) : StronglySorted Z.lt l -> StronglySorted Z.le l.
Proof.
  induction 1 as [| d l Hs IH Hd]; constructor; [assumption |].
  eapply Forall_impl; [| exact Hd]. intros; lia.
Qed.

Lemma sorted_lt_nodup (l : list Z) : StronglySorted Z.lt l -> NoDup l.
Proof.
  induction 1 as [| d l Hs IH Hd]; constructor; [| assumption].
  intros Hin. rewrite Forall_forall in Hd. specialize (Hd d Hin). lia.
Qed.

End PdFacts.

(** ** Facts about the monad and the data functions *)

Module MFacts.

Lemma oblivious_ret {A : Type} (a : A) : oblivious (ret a).
Proof. intros log. unfold run, ret. simpl. now rewrite app_nil_r. Qed.

Lemma oblivious_raise {A : Type} : oblivious (@raise A).
Proof. intros log. unfold run, raise. simpl. now rewrite app_nil_r. Qed.

Lemma oblivious_ask {A : Type} (r : request) (a : A) : oblivious (ask r a).
Proof. intros log. reflexivity. Qed.

Lemma oblivious_bind {A B : Type} (m : M A) (k : A -> M B) :
  oblivious m -> (forall a, oblivious (k a)) -> oblivious (bind m k).
Proof.
  intros Hm Hk log. unfold run, bind. rewrite (Hm log).
  destruct (run m) as [[a |] l0] eqn:E; unfold run in E; rewrite E; simpl.
  - rewrite (Hk a (log ++ l0)), (Hk a l0). simpl. now rewrite app_assoc.
  - reflexivity.
Qed.

Lemma oblivious_try_except {A : Type} (m h : M A) :
  oblivious m -> oblivious h -> oblivious (try_except m h).
Proof.
  intros Hm Hh log. unfold run, try_except. rewrite (Hm log).
  destruct (run m) as [[a |] l0] eqn:E; unfold run in E; rewrite E; simpl.
  - reflexivity.
  - rewrite (Hh (log ++ l0)), (Hh l0). simpl. now rewrite app_assoc.
Qed.

Lemma oblivious_attempt {A : Type} (m : M A) :
  oblivious m -> oblivious (attempt m).
Proof.
  intros Hm log. unfold run, attempt. rewrite (Hm log).
  destruct (run m) as [[a |] l0] eqn:E; unfold run in E; rewrite E; reflexivity.
Qed.

Ltac oblivious_step :=
  first
    [ apply oblivious_ret
    | apply oblivious_raise
    | apply oblivious_ask
    | apply oblivious_try_except
    | apply oblivious_attempt
    | apply oblivious_bind; [| intros ?]
    | match goal with
      | |- oblivious (match ?x with _ => _ end) => destruct x
      end ].

Ltac oblivious_auto := repeat oblivious_step.

Lemma download_close_run w t args log :
  download_close w t args log = (Ok (close_of w t args), log ++ [Download t args]).
Proof. reflexivity. Qed.

Lemma get_ticker_currency_run w t log :
  get_ticker_currency w t log = (Ok (asset_currency w t), log ++ [Info t]).
Proof.
  unfold get_ticker_currency, try_except, ticker_info_of, bind, ask, asset_currency.
  destruct (yf_info w t); reflexivity.
Qed.

Lemma get_fx_series_to_chf_run w ccy s e log :
  exists log',
    get_fx_series_to_chf w ccy s e log =
      (match fx_series w ccy s e with Some fx => Ok fx | None => Raised end, log').
Proof.
  unfold get_fx_series_to_chf, fx_series.
  destruct (String.eqb (_normalize_ccy (Some ccy)) "CHF").
  - eexists. reflexivity.
  - unfold bind. rewrite download_close_run.
    destruct (close_of w _ _); eexists; reflexivity.
Qed.

Lemma oblivious_download_close w t args : oblivious (download_close w t args).
Proof. unfold download_close. oblivious_auto. Qed.

Lemma oblivious_get_ticker_currency w t : oblivious (get_ticker_currency w t).
Proof. unfold get_ticker_currency, ticker_info_of. oblivious_auto. Qed.

Lemma oblivious_get_fx_rate_to_chf w c : oblivious (get_fx_rate_to_chf w c).
Proof.
  unfold get_fx_rate_to_chf. oblivious_auto.
Qed.

Lemma oblivious_get_fx_series_to_chf w c s e :
  oblivious (get_fx_series_to_chf w c s e).
Proof.
  unfold get_fx_series_to_chf. oblivious_auto.
Qed.

Lemma oblivious_get_current_price w t : oblivious (get_current_price w t).
Proof.
  unfold get_current_price, ticker_info_of. oblivious_auto.
  all: apply oblivious_get_fx_rate_to_chf.
Qed.

Lemma oblivious_get_first_price_date w t : oblivious (get_first_price_date w t).
Proof.
  unfold get_first_price_date. oblivious_auto.
Qed.

Lemma oblivious_get_ticker_name w t : oblivious (get_ticker_name w t).
Proof. unfold get_ticker_name, ticker_info_of. oblivious_auto. Qed.

Lemma oblivious_get_asset_type w t : oblivious (get_asset_type w t).
Proof. unfold get_asset_type, ticker_info_of. oblivious_auto. Qed.

End MFacts.

(** ** The per-holding value series *)

Module Valuation.
Import Pd PdFacts.

Lemma loc_set_In (s : Series) (d : Z) (v : float) : In (d, v) (loc_set s d v).
Proof.
  unfold loc_set. destruct (has_date d s) eqn:E.
  - unfold has_date in E. apply existsb_exists in E as [x [Hx Hd]].
    apply in_map_iff. exists x. split; [| assumption]. now rewrite Hd.
  - apply in_or_app. right. now left.
Qed.

Lemma loc_set_value (s : Series) (d : Z) (v x : float) :
  In (d, x) (loc_set s d v) -> x = v.
Proof.
  unfold loc_set. destruct (has_date d s) eqn:E.
  - intros H. apply in_map_iff in H as [y [Hy _]].
    destruct (fst y =? d) eqn:Ey.
    + congruence.
    + subst y. simpl in Ey. rewrite Z.eqb_refl in Ey. discriminate.
  - intros H. apply in_app_or in H as [H | [H | []]]; [| congruence].
    exfalso. assert (has_date d s = true) as E'; [| congruence].
    unfold has_date. apply existsb_exists. exists (d, x).
    split; [assumption | apply Z.eqb_refl].
Qed.

(** The rows of [loc_set s d v] at other dates are those of [s]. *)
Lemma loc_set_other (s : Series) (d : Z) (v : float) (e : Z * float) :
  fst e <> d -> (In e (loc_set s d v) <-> In e s).
Proof.
  intros Hne. unfold loc_set. destruct (has_date d s).
  - rewrite in_map_iff. split.
    + intros [y [Hy Hin]]. destruct (fst y =? d) eqn:Ey.
      * subst e. simpl in Hne. congruence.
      * now subst y.
    + intros Hin. exists e. split; [| assumption].
      apply Z.eqb_neq in Hne. now rewrite Hne.
  - rewrite in_app_iff. split; [| now left].
    intros [H | [H | []]]; [assumption |]. subst e. simpl in Hne. congruence.
Qed.

Lemma from_date_In (s : Series) (p : Z) (e : Z * float) :
  In e (from_date s p) <-> In e s /\ p <= fst e.
Proof. unfold from_date. rewrite filter_In, Z.leb_le. reflexivity. Qed.

(** With a purchase date and a positive purchase price, [anchor] is the
    trimmed series with the purchase cost set at the purchase date,
    sorted. *)
Lemma anchor_eq (a : asset) (sh : float) (value : Series) (p : Z) :
  purchase_date a = Some p -> (0 <? price a)%float = true ->
  anchor a sh value = sort_index (loc_set (from_date value p) p (sh * price a)%float).
Proof. intros Hp Hpr. unfold anchor, to_float. now rewrite Hp, Hpr. Qed.

Lemma sort_index_nonempty {A : Type} (s : list (Z * A)) : s <> [] -> sort_index s <> [].
Proof.
  intros Hs E. apply Hs.
  pose proof (sort_index_perm s) as P. rewrite E in P.
  apply Permutation_sym in P. now apply Permutation_nil in P.
Qed.

Lemma anchor_nonempty (a : asset) (sh : float) (value : Series) (p : Z) :
  purchase_date a = Some p -> (0 <? price a)%float = true ->
  anchor a sh value <> [].
Proof.
  intros Hp Hpr. rewrite (anchor_eq _ _ _ _ Hp Hpr).
  apply sort_index_nonempty. intros E.
  pose proof (loc_set_In (from_date value p) p (sh * price a)%float) as H.
  now rewrite E in H.
Qed.

(** The answer of the loop body for a holding quoted in CHF. *)
Lemma holding_series_chf w s e a close log :
  Py.nonempty (ticker a) = true -> (shares a <=? 0)%float = false ->
  close_of w (ticker a) (Window s e) = Some close ->
  asset_currency w (ticker a) = "CHF"%string ->
  exists log',
    holding_series w s e a log =
      (Ok (match anchor a (shares a) (scale close (shares a)) with
           | [] => None
           | v => Some v
           end), log').
Proof.
  intros Ht Hs Hc Hccy. unfold holding_series, to_float. rewrite Ht, Hs. simpl.
  unfold bind. rewrite MFacts.download_close_run, Hc.
  rewrite MFacts.get_ticker_currency_run, Hccy. simpl.
  destruct (anchor a (shares a) (scale close (shares a))); eexists; reflexivity.
Qed.

(** The answer of the loop body for a holding quoted in another currency
    whose FX series is available. *)
Lemma holding_series_fx w s e a close fx log :
  Py.nonempty (ticker a) = true -> (shares a <=? 0)%float = false ->
  close_of w (ticker a) (Window s e) = Some close ->
  String.eqb (asset_currency w (ticker a)) "CHF" = false ->
  fx_series w (asset_currency w (ticker a)) s e = Some fx ->
  exists log',
    holding_series w s e a log =
      (Ok (match anchor a (shares a) (scale (to_chf close fx) (shares a)) with
           | [] => None
           | v => Some v
           end), log').
Proof.
  intros Ht Hs Hc Hccy Hfx. unfold holding_series, to_float. rewrite Ht, Hs. simpl.
  unfold bind. rewrite MFacts.download_close_run, Hc.
  rewrite MFacts.get_ticker_currency_run, Hccy. simpl.
  destruct (MFacts.get_fx_series_to_chf_run w (asset_currency w (ticker a)) s e
              ((log ++ [Download (ticker a) (Window s e)]) ++ [Info (ticker a)]))
    as [log' E].
  rewrite E, Hfx. unfold ret.
  destruct (anchor a (shares a) (scale (to_chf close fx) (shares a)));
    eexists; reflexivity.
Qed.

(** Every series the loop body appends comes out of [anchor]. *)
Lemma holding_series_shape w s e a log value log' :
  holding_series w s e a log = (Ok (Some value), log') ->
  exists v0, value = anchor a (shares a) v0.
Proof.
  unfold holding_series, to_float.
  destruct (negb (Py.nonempty (ticker a))); [discriminate |].
  destruct (shares a <=? 0)%float; [discriminate |].
  unfold bind. rewrite MFacts.download_close_run.
  destruct (close_of w (ticker a) (Window s e)) as [close |]; [| discriminate].
  rewrite MFacts.get_ticker_currency_run.
  destruct (negb (String.eqb (asset_currency w (ticker a)) "CHF")).
  - destruct (MFacts.get_fx_series_to_chf_run w (asset_currency w (ticker a)) s e
                ((log ++ [Download (ticker a) (Window s e)]) ++ [Info (ticker a)]))
      as [log1 E].
    rewrite E.
    destruct (fx_series w (asset_currency w (ticker a)) s e) as [fx |];
      [| discriminate].
    unfold ret.
    destruct (anchor a (shares a) (scale (to_chf close fx) (shares a))) eqn:Ea;
      [discriminate |].
    intros [= <- _]. eexists. symmetry. exact Ea.
  - unfold ret.
    destruct (anchor a (shares a) (scale close (shares a))) eqn:Ea;
      [discriminate |].
    intros [= <- _]. eexists. symmetry. exact Ea.
Qed.

End Valuation.

(** C1. For every holding with a ticker, [shares > 0], [purchase_price > 0]
    and a purchase date [p]: every value series the loop body of
    [update_total_worth_graph] appends for it has a row at [p], all its rows
    at [p] have the value [shares * purchase_price] whatever the market data
    say for that date, and its dates are in ascending order; and the loop
    body does append a series whenever the price history is retrieved (and,
    for a holding not quoted in CHF, the FX series is). *)
Theorem purchase_date_anchored :
  forall (w : world) (s e : Z) (a : asset) (p : Z) (log : list request),
    Py.nonempty (ticker a) = true ->
    (0 <? shares a)%float = true ->
    (0 <? price a)%float = true ->
    purchase_date a = Some p ->
    (forall (value : Pd.Series) (log' : list request),
        holding_series w s e a log = (Ok (Some value), log') ->
        In (p, (shares a * price a)%float) value /\
        (forall v, In (p, v) value -> v = (shares a * price a)%float) /\
        StronglySorted Z.le (Pd.index value)) /\
    (forall close : Pd.Series,
        close_of w (ticker a) (Window s e) = Some close ->
        fx_fails w (ticker a) s e = false ->
        exists (value : Pd.Series) (log' : list request),
          holding_series w s e a log = (Ok (Some value), log')).
Proof.
  intros w s e a p log Ht Hsh Hpr Hp. split.
  - intros value log' Hrun.
    apply Valuation.holding_series_shape in Hrun as [v0 ->].
    rewrite (Valuation.anchor_eq a (shares a) v0 p Hp Hpr). split; [| split].
    + apply (proj2 (PdFacts.sort_index_In _ _)), Valuation.loc_set_In.
    + intros v Hv. apply (proj1 (PdFacts.sort_index_In _ _)) in Hv.
      now apply Valuation.loc_set_value in Hv.
    + apply PdFacts.sort_index_sorted.
  - intros close Hc Hfx.
    apply FloatFacts.ltb_0_leb in Hsh.
    unfold fx_fails in Hfx.
    destruct (String.eqb (asset_currency w (ticker a)) "CHF") eqn:Hccy.
    + apply String.eqb_eq in Hccy.
      destruct (Valuation.holding_series_chf w s e a close log Ht Hsh Hc Hccy)
        as [log' E].
      pose proof (Valuation.anchor_nonempty a (shares a) (Pd.scale close (shares a))
                    p Hp Hpr) as Hne.
      destruct (anchor a (shares a) (Pd.scale close (shares a))) eqn:Ea;
        [contradiction |].
      eexists. eexists. exact E.
    + simpl in Hfx.
      destruct (fx_series w (asset_currency w (ticker a)) s e) as [fx |] eqn:Efx;
        [| discriminate].
      destruct (Valuation.holding_series_fx w s e a close fx log Ht Hsh Hc Hccy Efx)
        as [log' E].
      pose proof (Valuation.anchor_nonempty a (shares a)
                    (Pd.scale (to_chf close fx) (shares a)) p Hp Hpr) as Hne.
      destruct (anchor a (shares a) (Pd.scale (to_chf close fx) (shares a))) eqn:Ea;
        [contradiction |].
      eexists. eexists. exact E.
Qed.

Lemma purchase_date_anchored_witness :
  exists (value : Pd.Series) (log' : list request),
    holding_series pence_world 9 13 vod [] = (Ok (Some value), log') /\
    In (9, (shares vod * price vod)%float) value /\
    (forall v, In (9, v) value -> v = (shares vod * price vod)%float) /\
    StronglySorted Z.le (Pd.index value).
Proof.
  destruct (purchase_date_anchored pence_world 9 13 vod 9 []) as [Hall Hex];
    try reflexivity.
  destruct (Hex [(10, 500%float); (11, 600%float)]) as [value [log' E]];
    try reflexivity.
  exists value, log'. split; [exact E | exact (Hall value log' E)].
Defined.

(** ** Holdings without shares, and deletion *)

Module HoldingsFacts.

Lemma bind_ret_r {A : Type} (m : M A) (log : list request) :
  bind m (fun x => ret x) log = m log.
Proof. unfold bind, ret. destruct (m log) as [[x |] log']; reflexivity. Qed.

Lemma holding_series_skips w s e a log :
  (shares a <=? 0)%float = true -> holding_series w s e a log = (Ok None, log).
Proof.
  intros H. unfold holding_series, to_float. rewrite H.
  destruct (negb (Py.nonempty (ticker a))); reflexivity.
Qed.

Lemma series_list_of_skips w s e a l1 l2 log :
  (shares a <=? 0)%float = true ->
  series_list_of w s e (l1 ++ a :: l2) log = series_list_of w s e (l1 ++ l2) log.
Proof.
  intros H. revert log. induction l1 as [| b l1 IH]; intros log; simpl.
  - unfold bind at 1. rewrite (holding_series_skips w s e a log H).
    apply bind_ret_r.
  - unfold bind.
    destruct (holding_series w s e b log) as [[v |] log1]; [| reflexivity].
    now rewrite IH.
Qed.

Lemma fold_left_skip {A B : Type} (f : B -> A -> B) (a : A) (l1 l2 : list A) (b : B) :
  (forall x, f x a = x) ->
  fold_left f (l1 ++ a :: l2) b = fold_left f (l1 ++ l2) b.
Proof. intros H. rewrite !fold_left_app. simpl. now rewrite H. Qed.

Lemma pop_first_no_match t assets :
  (forall a, In a assets -> ticker a <> t) -> pop_first t assets = assets.
Proof.
  induction assets as [| a rest IH]; intros H; simpl; [reflexivity |].
  destruct (String.eqb (ticker a) t) eqn:E.
  - apply String.eqb_eq in E. exfalso. apply (H a); [now left | assumption].
  - f_equal. apply IH. intros b Hb. apply H. now right.
Qed.

Lemma pop_first_match t l1 a l2 :
  ticker a = t -> (forall b, In b l1 -> ticker b <> t) ->
  pop_first t (l1 ++ a :: l2) = l1 ++ l2.
Proof.
  intros Ha. induction l1 as [| b l1 IH]; intros H; simpl.
  - apply String.eqb_eq in Ha. now rewrite Ha.
  - destruct (String.eqb (ticker b) t) eqn:E.
    + apply String.eqb_eq in E. exfalso. apply (H b); [now left | assumption].
    + f_equal. apply IH. intros c Hc. apply H. now right.
Qed.

End HoldingsFacts.

(** C9. A holding whose shares are [<= 0] is skipped by the loop that builds
    the value series (no request is made for it and the list of series is
    the same as without it, for the same window), and it adds nothing to
    [total_cost] and [total_current], hence nothing to the profit, the
    percentage gain and the value computed for today. *)
Theorem nonpositive_shares_excluded :
  forall (w : world) (today s e : Z) (a : asset) (l1 l2 : list asset),
    (shares a <=? 0)%float = true ->
    (forall log, holding_series w s e a log = (Ok None, log)) /\
    (forall log, series_list_of w s e (l1 ++ a :: l2) log =
                 series_list_of w s e (l1 ++ l2) log) /\
    summary_totals (l1 ++ a :: l2) = summary_totals (l1 ++ l2) /\
    profit_and_pct (summary_totals (l1 ++ a :: l2)) =
      profit_and_pct (summary_totals (l1 ++ l2)) /\
    latest_total_of today (l1 ++ a :: l2) = latest_total_of today (l1 ++ l2).
Proof.
  intros w today s e a l1 l2 H.
  assert (summary_totals (l1 ++ a :: l2) = summary_totals (l1 ++ l2)) as Hsum.
  { unfold summary_totals. apply HoldingsFacts.fold_left_skip.
    intros x. unfold to_float. now rewrite H. }
  repeat split.
  - intros log. now apply HoldingsFacts.holding_series_skips.
  - intros log. now apply HoldingsFacts.series_list_of_skips.
  - exact Hsum.
  - now rewrite Hsum.
  - unfold latest_total_of. apply HoldingsFacts.fold_left_skip.
    intros x. unfold to_float. now rewrite H.
Qed.

Lemma nonpositive_shares_excluded_witness :
  let ghost :=
    {| ticker := "VOD.L"; name := None; asset_type := "Stock";
       shares := 0%float; price := 4%float; current_price := 7.5%float;
       purchase_date := Some 3; percentage_gain := 0%float;
       profit_gain := 0%float |} in
  (forall log, holding_series pence_world 9 13 ghost log = (Ok None, log)) /\
  (forall log, series_list_of pence_world 9 13 ([vod] ++ ghost :: [nesn]) log =
               series_list_of pence_world 9 13 ([vod] ++ [nesn]) log) /\
  summary_totals ([vod] ++ ghost :: [nesn]) = summary_totals ([vod] ++ [nesn]) /\
  profit_and_pct (summary_totals ([vod] ++ ghost :: [nesn])) =
    profit_and_pct (summary_totals ([vod] ++ [nesn])) /\
  latest_total_of 12 ([vod] ++ ghost :: [nesn]) = latest_total_of 12 ([vod] ++ [nesn]).
Proof.
  intros ghost.
  apply (nonpositive_shares_excluded pence_world 12 9 13 ghost [vod] [nesn]).
  vm_compute. reflexivity.
Defined.

(** C10. [delete_asset(ticker)] removes from the holdings list the first
    holding with that ticker and nothing else: the holdings before it and
    all the holdings after it, those with the same ticker included, stay in
    place; when no holding has that ticker the list is unchanged. The chart
    is then refreshed from the new list. *)
Theorem delete_asset_removes_first_match :
  forall (w : world) (today : Z) (t : string) (assets : list asset) (page : chart),
    ((forall a, In a assets -> ticker a <> t) ->
     fst (delete_asset w today t assets page) = assets) /\
    (forall l1 a l2,
        assets = l1 ++ a :: l2 -> ticker a = t ->
        (forall b, In b l1 -> ticker b <> t) ->
        fst (delete_asset w today t assets page) = l1 ++ l2) /\
    snd (delete_asset w today t assets page) =
      refresh_assets w today (fst (delete_asset w today t assets page)) page.
Proof.
  intros w today t assets page. unfold delete_asset. simpl. repeat split.
  - apply HoldingsFacts.pop_first_no_match.
  - intros l1 a l2 -> Ha Hl1. now apply HoldingsFacts.pop_first_match.
Qed.

Lemma delete_asset_removes_first_match_witness :
  fst (delete_asset pence_world 12 "NESN.SW" [vod] initial_chart) = [vod] /\
  fst (delete_asset pence_world 12 "VOD.L" [nesn; vod; nesn; vod] initial_chart) =
    [nesn; nesn; vod].
Proof.
  destruct (delete_asset_removes_first_match pence_world 12 "NESN.SW" [vod] initial_chart)
    as [Hnone _].
  destruct (delete_asset_removes_first_match pence_world 12 "VOD.L"
              [nesn; vod; nesn; vod] initial_chart) as [_ [Hfirst _]].
  split.
  - apply Hnone. intros a [<- | []]. vm_compute. discriminate.
  - apply (Hfirst [nesn] vod [nesn; vod]).
    + reflexivity.
    + reflexivity.
    + intros b [<- | []]. vm_compute. discriminate.
Defined.

(** ** The total series *)

Module TotalFacts.
Import Pd PdFacts.

Lemma index_sum_rows (df : DataFrame) : index (sum_rows df) = index df.
Proof. unfold index, sum_rows. rewrite map_map. reflexivity. Qed.

Lemma index_fillna0 (df : DataFrame) : index (fillna0 df) = index df.
Proof. unfold index, fillna0. rewrite map_map. reflexivity. Qed.

Lemma index_df_ffill_from (last : list float) (df : DataFrame) :
  index (df_ffill_from last df) = index df.
Proof.
  revert last. induction df as [| [d row] t IH]; intros last; simpl;
    [reflexivity | now rewrite IH].
Qed.

Lemma index_df_ffill (df : DataFrame) : index (df_ffill df) = index df.
Proof.
  destruct df as [| [d row] t]; simpl; [reflexivity |].
  now rewrite index_df_ffill_from.
Qed.

Lemma index_concat_columns (ss : list Series) :
  index (concat_columns ss) = union_index ss.
Proof.
  unfold index, concat_columns. rewrite map_map. simpl. apply map_id.
Qed.

Lemma union_index_In (ss : list Series) (d : Z) :
  In d (union_index ss) <-> exists s, In s ss /\ In d (index s).
Proof.
  unfold union_index. rewrite nodup_In, in_concat. split.
  - intros [l [Hl Hd]]. apply in_map_iff in Hl as [s [<- Hs]]. now exists s.
  - intros [s [Hs Hd]]. exists (index s). split; [| assumption].
    now apply in_map.
Qed.

(** The dates of the combined series: the union of the dates, ascending. *)
Lemma index_combine_series (ss : list Series) :
  index (combine_series ss) = index (sort_index (concat_columns ss)).
Proof.
  unfold combine_series.
  now rewrite index_sum_rows, index_fillna0, index_df_ffill.
Qed.

Lemma combine_series_perm (ss : list Series) :
  Permutation (union_index ss) (index (combine_series ss)).
Proof.
  rewrite index_combine_series, <- index_concat_columns.
  apply index_perm, sort_index_perm.
Qed.

Lemma combine_series_strict (ss : list Series) :
  StronglySorted Z.lt (index (combine_series ss)).
Proof.
  apply sorted_nodup_lt.
  - rewrite index_combine_series. apply sort_index_sorted.
  - apply (Permutation_NoDup (combine_series_perm ss)).
    apply NoDup_nodup.
Qed.

Lemma combine_series_In (ss : list Series) (d : Z) :
  In d (index (combine_series ss)) <-> exists s, In s ss /\ In d (index s).
Proof.
  rewrite <- union_index_In. split; apply Permutation_in;
    [symmetry |]; apply combine_series_perm.
Qed.

Lemma fold_left_max_le (ds : list Z) (d : Z) :
  d <= fold_left Z.max ds d /\ Forall (fun x => x <= fold_left Z.max ds d) ds.
Proof.
  revert d. induction ds as [| x ds IH]; intros d; simpl.
  - split; [lia | constructor].
  - destruct (IH (Z.max d x)) as [H1 H2]. split; [lia |].
    constructor; [lia | assumption].
Qed.

(** [index.max()] bounds every date of the series. *)
Lemma index_max_bound (s : Series) (m : Z) :
  index_max s = Some m -> Forall (fun d => d <= m) (index s).
Proof.
  unfold index_max. destruct (index s) as [| d ds]; [discriminate |].
  intros [= <-]. destruct (fold_left_max_le ds d) as [H1 H2].
  constructor; assumption.
Qed.

Lemma index_max_some (s : Series) : s <> [] -> exists m, index_max s = Some m.
Proof.
  destruct s as [| e t]; [congruence |]. intros _. unfold index_max. simpl.
  eexists. reflexivity.
Qed.

Lemma has_date_false (s : Series) (d : Z) :
  ~ In d (index s) -> has_date d s = false.
Proof.
  intros H. unfold has_date. destruct (existsb _ s) eqn:E; [| reflexivity].
  apply existsb_exists in E as [x [Hx Hd]]. apply Z.eqb_eq in Hd.
  exfalso. apply H. subst d. now apply in_map.
Qed.

Lemma sorted_app_last (l : list Z) (d : Z) :
  StronglySorted Z.lt l -> Forall (fun x => x < d) l ->
  StronglySorted Z.lt (l ++ [d]).
Proof.
  induction 1 as [| x l Hs IH Hx]; intros Hd; simpl.
  - repeat constructor.
  - inversion Hd as [| ? ? Hxd Hd']; subst.
    constructor; [now apply IH |].
    apply Forall_app. split; [assumption | now constructor].
Qed.

(** When an ascending series stops before today, the point for today is
    one new row at its end. *)
Lemma with_today_appends today assets (total : Series) (latest : Z) :
  StronglySorted Z.lt (index total) ->
  index_max total = Some latest -> latest < today ->
  with_today today assets total = total ++ [(today, latest_total_of today assets)].
Proof.
  intros Hs Hm Hlt. unfold with_today. rewrite Hm.
  apply Z.ltb_lt in Hlt as Hb. rewrite Hb.
  pose proof (index_max_bound total latest Hm) as Hbound.
  assert (Forall (fun x => x < today) (index total)) as Hall.
  { eapply Forall_impl; [| exact Hbound]. intros; simpl in *; lia. }
  assert (~ In today (index total)) as Hnin.
  { intros Hin. rewrite Forall_forall in Hall. specialize (Hall _ Hin). lia. }
  unfold loc_set. rewrite (has_date_false _ _ Hnin).
  apply sort_index_id. unfold index. rewrite map_app. simpl.
  apply sorted_lt_le. now apply sorted_app_last.
Qed.

Lemma with_today_strict today assets (total : Series) :
  StronglySorted Z.lt (index total) ->
  StronglySorted Z.lt (index (with_today today assets total)).
Proof.
  intros Hs. destruct (index_max total) as [latest |] eqn:Hm.
  - destruct (latest <? today) eqn:Hb.
    + apply Z.ltb_lt in Hb.
      rewrite (with_today_appends today assets total latest Hs Hm Hb).
      unfold index. rewrite map_app. simpl. apply sorted_app_last; [assumption |].
      eapply Forall_impl; [| exact (index_max_bound total latest Hm)].
      intros; simpl in *; lia.
    + unfold with_today. now rewrite Hm, Hb.
  - unfold with_today. now rewrite Hm.
Qed.

Lemma with_today_index today assets (total : Series) :
  StronglySorted Z.lt (index total) ->
  index (with_today today assets total) = index total \/
  index (with_today today assets total) = index total ++ [today].
Proof.
  intros Hs. destruct (index_max total) as [latest |] eqn:Hm.
  - destruct (latest <? today) eqn:Hb.
    + apply Z.ltb_lt in Hb. right.
      rewrite (with_today_appends today assets total latest Hs Hm Hb).
      unfold index. now rewrite map_app.
    + left. unfold with_today. now rewrite Hm, Hb.
  - left. unfold with_today. now rewrite Hm.
Qed.

(** *** Series built from price data with distinct dates have distinct
    dates *)

Lemma index_scale (s : Series) (k : float) : index (scale s k) = index s.
Proof. unfold index, scale. rewrite map_map. reflexivity. Qed.

Lemma length_ffill_from (last : float) (s : Series) :
  List.length (ffill_from last s) = List.length s.
Proof.
  revert last. induction s as [| [d v] t IH]; intros last; simpl;
    [reflexivity | now rewrite IH].
Qed.

Lemma index_mul (a b : Series) :
  List.length a = List.length b -> index (mul a b) = index a.
Proof.
  revert b. induction a as [| [d x] t IH]; intros [| [d' y] t'] H; simpl in *;
    try discriminate; [reflexivity |].
  unfold mul, index in *. simpl. f_equal. apply IH. now injection H.
Qed.

Lemma index_to_chf (close fx : Series) : index (to_chf close fx) = index close.
Proof.
  unfold to_chf. apply index_mul. unfold ffill.
  rewrite length_ffill_from. unfold reindex, index. now rewrite !length_map.
Qed.

Lemma NoDup_index_filter (f : Z * float -> bool) (s : Series) :
  NoDup (index s) -> NoDup (index (filter f s)).
Proof.
  induction s as [| e t IH]; simpl; intros H; [constructor |].
  inversion H as [| ? ? Hnin Ht]; subst.
  destruct (f e); simpl; [| now apply IH].
  constructor; [| now apply IH].
  intros Hin. apply Hnin. unfold index in *.
  apply in_map_iff in Hin as [x [Hx Hin]]. apply filter_In in Hin as [Hin _].
  rewrite <- Hx. now apply in_map.
Qed.

Lemma NoDup_index_loc_set (s : Series) (d : Z) (v : float) :
  NoDup (index s) -> NoDup (index (loc_set s d v)).
Proof.
  intros H. unfold loc_set. destruct (has_date d s) eqn:E.
  - assert (index (map (fun e => if fst e =? d then (d, v) else e) s) = index s)
      as ->; [| assumption].
    unfold index. rewrite map_map. apply map_ext. intros e.
    destruct (fst e =? d) eqn:Ee; [| reflexivity].
    apply Z.eqb_eq in Ee. now rewrite Ee.
  - unfold index. rewrite map_app. simpl.
    apply (Permutation_NoDup (l := d :: map fst s)).
    + apply Permutation_cons_append.
    + constructor; [| assumption].
      intros Hin. unfold has_date in E.
      apply in_map_iff in Hin as [x [Hx Hin]].
      assert (existsb (fun e => fst e =? d) s = true) as E'; [| congruence].
      apply existsb_exists. exists x. split; [assumption | now apply Z.eqb_eq].
Qed.

Lemma NoDup_index_sort (s : Series) : NoDup (index s) -> NoDup (index (sort_index s)).
Proof. apply Permutation_NoDup, index_perm, sort_index_perm. Qed.

Lemma NoDup_index_anchor (a : asset) (sh : float) (value : Series) :
  NoDup (index value) -> NoDup (index (anchor a sh value)).
Proof.
  intros H. unfold anchor. destruct (purchase_date a) as [p |]; [| assumption].
  destruct (0 <? to_float (Some (price a)) 0)%float.
  - apply NoDup_index_sort, NoDup_index_loc_set. now apply NoDup_index_filter.
  - now apply NoDup_index_filter.
Qed.

(** When the data source never repeats a date in a price series, no series
    appended by the loop body repeats one. *)
Lemma holding_series_nodup w s e a log value log' :
  (forall t args c, yf_download w t args = Some c -> NoDup (index c)) ->
  holding_series w s e a log = (Ok (Some value), log') ->
  NoDup (index value).
Proof.
  intros Hw. unfold holding_series, to_float.
  destruct (negb (Py.nonempty (ticker a))); [discriminate |].
  destruct (shares a <=? 0)%float; [discriminate |].
  unfold bind. rewrite MFacts.download_close_run.
  destruct (close_of w (ticker a) (Window s e)) as [close |] eqn:Hc; [| discriminate].
  assert (NoDup (index close)) as Hclose.
  { unfold close_of, clean_close in Hc.
    destruct (yf_download w (ticker a) (Window s e)) as [c |] eqn:Hd; [| discriminate].
    destruct (dropna c) eqn:Edrop; [discriminate |].
    injection Hc as <-. rewrite <- Edrop. unfold dropna.
    apply NoDup_index_filter. exact (Hw _ _ _ Hd). }
  rewrite MFacts.get_ticker_currency_run.
  destruct (negb (String.eqb (asset_currency w (ticker a)) "CHF")).
  - destruct (MFacts.get_fx_series_to_chf_run w (asset_currency w (ticker a)) s e
                ((log ++ [Download (ticker a) (Window s e)]) ++ [Info (ticker a)]))
      as [log1 E].
    rewrite E.
    destruct (fx_series w (asset_currency w (ticker a)) s e) as [fx |];
      [| discriminate].
    unfold ret.
    destruct (anchor a (shares a) (scale (to_chf close fx) (shares a))) eqn:Ea;
      [discriminate |].
    intros [= <- _]. rewrite <- Ea.
    apply NoDup_index_anchor. now rewrite index_scale, index_to_chf.
  - unfold ret.
    destruct (anchor a (shares a) (scale close (shares a))) eqn:Ea;
      [discriminate |].
    intros [= <- _]. rewrite <- Ea.
    apply NoDup_index_anchor. now rewrite index_scale.
Qed.

Lemma series_list_of_nodup w s e assets log ss log' :
  (forall t args c, yf_download w t args = Some c -> NoDup (index c)) ->
  series_list_of w s e assets log = (Ok ss, log') ->
  Forall (fun v => NoDup (index v)) ss.
Proof.
  intros Hw. revert log ss log'.
  induction assets as [| a rest IH]; intros log ss log'; simpl.
  - intros [= <- _]. constructor.
  - unfold bind.
    destruct (holding_series w s e a log) as [[v |] log1] eqn:Ha; [| discriminate].
    destruct (series_list_of w s e rest log1) as [[l |] log2] eqn:Hrest;
      [| discriminate].
    unfold ret. intros [= <- _].
    specialize (IH _ _ _ Hrest). destruct v as [v |]; [| assumption].
    constructor; [| assumption]. eapply holding_series_nodup; eassumption.
Qed.

(** The total series of a run of [update_total_worth_graph] has strictly
    ascending dates. *)
Lemma total_series_strict w today assets log total log' :
  total_series w today assets log = (Ok (Some total), log') ->
  StronglySorted Z.lt (index total).
Proof.
  unfold total_series, bind.
  destruct (series_list_of w (start_date_of today assets) (end_date_of today) assets log)
    as [[ss |] log1]; [| discriminate].
  destruct ss as [| s0 ss']; [discriminate |].
  destruct (with_today today assets (combine_series (s0 :: ss'))) eqn:E;
    [discriminate |].
  unfold ret. intros [= <- _]. rewrite <- E.
  apply with_today_strict, combine_series_strict.
Qed.

End TotalFacts.

(** C8. For any list of per-holding value series (each a mapping: no date
    twice), the dates of the total series (the union of their dates and,
    when that union stops before today, today) are strictly ascending, so
    no date occurs twice. *)
Theorem total_dates_strictly_ascending :
  forall (today : Z) (assets : list asset) (series_list : list Pd.Series),
    Forall (fun s => NoDup (Pd.index s)) series_list ->
    let dates := Pd.index (with_today today assets (combine_series series_list)) in
    StronglySorted Z.lt dates /\ NoDup dates /\
    (forall d, (exists s, In s series_list /\ In d (Pd.index s)) -> In d dates) /\
    (forall d, In d dates ->
               (exists s, In s series_list /\ In d (Pd.index s)) \/ d = today).
Proof.
  intros today assets ss _ dates.
  assert (StronglySorted Z.lt dates) as Hs.
  { apply TotalFacts.with_today_strict, TotalFacts.combine_series_strict. }
  split; [exact Hs |]. split; [now apply PdFacts.sorted_lt_nodup |].
  pose proof (TotalFacts.with_today_index today assets (combine_series ss)
                (TotalFacts.combine_series_strict ss)) as Hidx.
  fold dates in Hidx. clearbody dates.
  split; intros d Hd.
  - apply (proj2 (TotalFacts.combine_series_In ss d)) in Hd.
    destruct Hidx as [-> | ->]; [assumption |].
    apply in_or_app. now left.
  - destruct Hidx as [-> | ->].
    + left. now apply (proj1 (TotalFacts.combine_series_In ss d)).
    + apply in_app_or in Hd as [Hd | [<- | []]]; [left | now right].
      now apply (proj1 (TotalFacts.combine_series_In ss d)).
Qed.

Lemma total_dates_strictly_ascending_witness :
  let dates :=
    Pd.index (with_today 14 [vod; nesn]
                (combine_series [[(9, 8%float); (11, 1500%float)];
                                  [(10, 270%float); (11, 330%float); (12, 360%float)]])) in
  StronglySorted Z.lt dates /\ NoDup dates /\
  (forall d, (exists s, In s [[(9, 8%float); (11, 1500%float)];
                              [(10, 270%float); (11, 330%float); (12, 360%float)]] /\
                        In d (Pd.index s)) -> In d dates) /\
  (forall d, In d dates ->
             (exists s, In s [[(9, 8%float); (11, 1500%float)];
                              [(10, 270%float); (11, 330%float); (12, 360%float)]] /\
                        In d (Pd.index s)) \/ d = 14).
Proof.
  apply (total_dates_strictly_ascending 14 [vod; nesn]
           [[(9, 8%float); (11, 1500%float)];
            [(10, 270%float); (11, 330%float); (12, 360%float)]]).
  repeat constructor; simpl; intuition discriminate.
Defined.

(** ** The point for today *)

Module TodayFacts.

Lemma latest_total_fold today (assets : list asset) (acc : float) :
  Forall (fun a => PrimFloat.is_nan (shares a) = false) assets ->
  fold_left
    (fun latest_total a =>
       let shares := to_float (Some (shares a)) 0 in
       if (shares <=? 0)%float then latest_total
       else if match purchase_date a with
               | Some pdate => today <? pdate
               | None => false
               end then latest_total
       else
         let current_price := to_float (Some (current_price a)) 0 in
         (latest_total + shares * current_price)%float)
    assets acc =
  fold_left (fun total a => (total + shares a * current_price a)%float)
            (filter (held_today today) assets) acc.
Proof.
  intros H. revert acc. induction H as [| a l Ha Hl IH]; intros acc; simpl;
    [reflexivity |].
  unfold held_today at 1. cbn [to_float].
  rewrite (FloatFacts.leb_0_ltb _ Ha).
  destruct (0 <? shares a)%float; simpl.
  - destruct (purchase_date a) as [pdate |].
    + rewrite (Z.leb_antisym today pdate).
      destruct (today <? pdate); simpl; apply IH.
    + simpl. apply IH.
  - apply IH.
Qed.

(** The value the code computes for today is the sum of the rule. *)
Lemma latest_total_is_snapshot today (assets : list asset) :
  Forall (fun a => PrimFloat.is_nan (shares a) = false) assets ->
  latest_total_of today assets = snapshot_value today assets.
Proof. apply latest_total_fold. Qed.

Lemma total_series_run w today assets log ss log' :
  series_list_of w (start_date_of today assets) (end_date_of today) assets log =
    (Ok ss, log') ->
  total_series w today assets log =
    (Ok match ss with
        | [] => None
        | _ => match with_today today assets (combine_series ss) with
               | [] => None
               | total => Some total
               end
        end, log').
Proof.
  intros H. unfold total_series, bind. rewrite H.
  destruct ss as [| s0 ss']; [reflexivity |].
  destruct (with_today today assets (combine_series (s0 :: ss'))); reflexivity.
Qed.

End TodayFacts.

(** C5. Whenever the series built for the holdings have [series_list] as
    their list and the latest date of its combined series is strictly before
    today, the total series of [update_total_worth_graph] is the combined
    series followed by exactly one new row, dated today (a date the combined
    series does not have), whose value is the sum of
    [shares * current_price] over the holdings with [shares > 0] and
    [purchase_date <= today], from the current price stored on each holding;
    the result is in ascending date order. *)
Theorem today_point_appended :
  forall (w : world) (today : Z) (assets : list asset)
         (series_list : list Pd.Series) (latest : Z) (log log' : list request),
    Forall (fun a => PrimFloat.is_nan (shares a) = false) assets ->
    series_list_of w (start_date_of today assets) (end_date_of today) assets log =
      (Ok series_list, log') ->
    Pd.index_max (combine_series series_list) = Some latest ->
    latest < today ->
    total_series w today assets log =
      (Ok (Some (combine_series series_list ++ [(today, snapshot_value today assets)])),
       log') /\
    ~ In today (Pd.index (combine_series series_list)) /\
    StronglySorted Z.lt
      (Pd.index (combine_series series_list ++ [(today, snapshot_value today assets)])).
Proof.
  intros w today assets ss latest log log' Hnan Hrun Hm Hlt.
  pose proof (TotalFacts.combine_series_strict ss) as Hs.
  pose proof (TotalFacts.with_today_appends today assets _ latest Hs Hm Hlt) as E.
  rewrite (TodayFacts.latest_total_is_snapshot today assets Hnan) in E.
  split; [| split].
  - rewrite (TodayFacts.total_series_run w today assets log ss log' Hrun).
    destruct ss as [| s0 ss']; [discriminate Hm |].
    rewrite E. destruct (combine_series (s0 :: ss')); reflexivity.
  - intros Hin.
    pose proof (TotalFacts.index_max_bound _ _ Hm) as Hb.
    rewrite Forall_forall in Hb. specialize (Hb _ Hin). simpl in Hb. lia.
  - rewrite <- E. now apply TotalFacts.with_today_strict.
Qed.

Lemma today_point_appended_witness :
  let ss := [[(10, 270%float); (11, 330%float); (12, 360%float)]] in
  total_series swiss_world 14 [nesn] [] =
    (Ok (Some (combine_series ss ++ [(14, snapshot_value 14 [nesn])])),
     [Download "NESN.SW" (Window 10 15); Info "NESN.SW"]) /\
  ~ In 14 (Pd.index (combine_series ss)) /\
  StronglySorted Z.lt
    (Pd.index (combine_series ss ++ [(14, snapshot_value 14 [nesn])])).
Proof.
  intros ss.
  apply (today_point_appended swiss_world 14 [nesn] ss 12 []
           [Download "NESN.SW" (Window 10 15); Info "NESN.SW"]).
  - repeat constructor.
  - vm_compute. reflexivity.
  - vm_compute. reflexivity.
  - lia.
Defined.

(** ** The y-range *)

Module RangeFacts.
Import Pd FloatFacts.

Lemma np_minimum_cases (a b : float) : np_minimum a b = a \/ np_minimum a b = b.
Proof.
  unfold np_minimum.
  destruct (PrimFloat.is_nan a), (PrimFloat.is_nan b), (b <? a)%float; auto.
Qed.

Lemma np_maximum_cases (a b : float) : np_maximum a b = a \/ np_maximum a b = b.
Proof.
  unfold np_maximum.
  destruct (PrimFloat.is_nan a), (PrimFloat.is_nan b), (a <? b)%float; auto.
Qed.

Lemma np_minimum_le (a b : float) :
  PrimFloat.is_nan a = false -> PrimFloat.is_nan b = false ->
  (np_minimum a b <=? a)%float = true /\ (np_minimum a b <=? b)%float = true.
Proof.
  intros Ha Hb. unfold np_minimum. rewrite Ha, Hb.
  destruct (b <? a)%float eqn:E.
  - split; [now apply ltb_leb | now apply leb_refl].
  - split; [now apply leb_refl | now apply not_ltb_leb].
Qed.

Lemma np_maximum_ge (a b : float) :
  PrimFloat.is_nan a = false -> PrimFloat.is_nan b = false ->
  (a <=? np_maximum a b)%float = true /\ (b <=? np_maximum a b)%float = true.
Proof.
  intros Ha Hb. unfold np_maximum. rewrite Ha, Hb.
  destruct (a <? b)%float eqn:E.
  - split; [now apply ltb_leb | now apply leb_refl].
  - split; [now apply leb_refl | now apply not_ltb_leb].
Qed.

Lemma fold_minimum_In (vs : list float) (v0 : float) :
  In (fold_left np_minimum vs v0) (v0 :: vs).
Proof.
  revert v0. induction vs as [| x vs IH]; intros v0; simpl; [now left |].
  destruct (IH (np_minimum v0 x)) as [H | H].
  - destruct (np_minimum_cases v0 x) as [E | E]; rewrite E in H |- *; auto.
  - auto.
Qed.

Lemma fold_maximum_In (vs : list float) (v0 : float) :
  In (fold_left np_maximum vs v0) (v0 :: vs).
Proof.
  revert v0. induction vs as [| x vs IH]; intros v0; simpl; [now left |].
  destruct (IH (np_maximum v0 x)) as [H | H].
  - destruct (np_maximum_cases v0 x) as [E | E]; rewrite E in H |- *; auto.
  - auto.
Qed.

(** Without NaN, the fold of [np_minimum] is a lower bound of the array. *)
Lemma fold_minimum_le (vs : list float) (v0 : float) :
  no_nan (v0 :: vs) ->
  Forall (fun v => (fold_left np_minimum vs v0 <=? v)%float = true) (v0 :: vs).
Proof.
  revert v0. induction vs as [| x vs IH]; intros v0 Hn.
  - simpl. constructor; [| constructor]. apply leb_refl. now inversion Hn.
  - inversion Hn as [| ? ? H0 Hn']; subst. inversion Hn' as [| ? ? Hx Hvs]; subst.
    destruct (np_minimum_le v0 x H0 Hx) as [L0 Lx].
    assert (PrimFloat.is_nan (np_minimum v0 x) = false) as Hm.
    { destruct (np_minimum_cases v0 x) as [E | E]; now rewrite E. }
    specialize (IH (np_minimum v0 x) (Forall_cons _ Hm Hvs)).
    simpl. inversion IH as [| ? ? Hr Hrest]; subst.
    constructor; [eapply leb_trans; eassumption |].
    constructor; [eapply leb_trans; eassumption | assumption].
Qed.

(** Without NaN, the fold of [np_maximum] is an upper bound of the array. *)
Lemma fold_maximum_ge (vs : list float) (v0 : float) :
  no_nan (v0 :: vs) ->
  Forall (fun v => (v <=? fold_left np_maximum vs v0)%float = true) (v0 :: vs).
Proof.
  revert v0. induction vs as [| x vs IH]; intros v0 Hn.
  - simpl. constructor; [| constructor]. apply leb_refl. now inversion Hn.
  - inversion Hn as [| ? ? H0 Hn']; subst. inversion Hn' as [| ? ? Hx Hvs]; subst.
    destruct (np_maximum_ge v0 x H0 Hx) as [L0 Lx].
    assert (PrimFloat.is_nan (np_maximum v0 x) = false) as Hm.
    { destruct (np_maximum_cases v0 x) as [E | E]; now rewrite E. }
    specialize (IH (np_maximum v0 x) (Forall_cons _ Hm Hvs)).
    simpl. inversion IH as [| ? ? Hr Hrest]; subst.
    constructor; [eapply leb_trans; eassumption |].
    constructor; [eapply leb_trans; eassumption | assumption].
Qed.

End RangeFacts.

(** C7. For every non-empty total series the chart's y-range is
    [[min_val - pad, max_val + pad]], where [min_val] and [max_val] are the
    least and the greatest of its values (values of the series that bound
    all the others when none is NaN) and [pad] is [0.05 * (max_val - min_val)],
    or [1] when [|max_val - min_val| < 1e-9]. The values [100, 100, 100] give
    [min_y = 99] and [max_y = 101]; the values [100, 200] give [min_y = 95]
    and [max_y = 205]. *)
Theorem y_range_padded :
  (forall (assets : list asset) (total : Pd.Series),
      total <> [] ->
      exists min_val max_val : float,
        In min_val (Pd.values total) /\ In max_val (Pd.values total) /\
        (no_nan (Pd.values total) ->
         Forall (fun v => (min_val <=? v)%float = true) (Pd.values total) /\
         Forall (fun v => (v <=? max_val)%float = true) (Pd.values total)) /\
        let rng_val := (max_val - min_val)%float in
        let pad := if (PrimFloat.abs rng_val <? 1e-9)%float
                   then 1%float else (0.05 * rng_val)%float in
        min_y (draw assets total) = (min_val - pad)%float /\
        max_y (draw assets total) = (max_val + pad)%float) /\
  (forall (assets : list asset) (d1 d2 d3 : Z),
      let c := draw assets [(d1, 100%float); (d2, 100%float); (d3, 100%float)] in
      min_y c = 99%float /\ max_y c = 101%float) /\
  (forall (assets : list asset) (d1 d2 : Z),
      let c := draw assets [(d1, 100%float); (d2, 200%float)] in
      min_y c = 95%float /\ max_y c = 205%float).
Proof.
  split; [| split].
  - intros assets total Hne.
    destruct total as [| [d0 v0] rest]; [congruence |].
    exists (fold_left Pd.np_minimum (Pd.values rest) v0),
           (fold_left Pd.np_maximum (Pd.values rest) v0).
    split; [apply RangeFacts.fold_minimum_In |].
    split; [apply RangeFacts.fold_maximum_In |].
    split.
    + intros Hn. split.
      * now apply RangeFacts.fold_minimum_le.
      * now apply RangeFacts.fold_maximum_ge.
    + cbv zeta. unfold draw. cbn [min_y max_y].
      unfold y_range. cbn [Pd.values map snd Pd.np_min Pd.np_max].
      fold (Pd.values rest).
      destruct (PrimFloat.abs _ <? 1e-9)%float; split; reflexivity.
  - intros assets d1 d2 d3 c. subst c. split; reflexivity.
  - intros assets d1 d2 c. subst c. split; reflexivity.
Qed.

Lemma y_range_padded_witness :
  exists min_val max_val : float,
    In min_val [100%float; 200%float] /\ In max_val [100%float; 200%float] /\
    (no_nan [100%float; 200%float] ->
     Forall (fun v => (min_val <=? v)%float = true) [100%float; 200%float] /\
     Forall (fun v => (v <=? max_val)%float = true) [100%float; 200%float]) /\
    let rng_val := (max_val - min_val)%float in
    let pad := if (PrimFloat.abs rng_val <? 1e-9)%float
               then 1%float else (0.05 * rng_val)%float in
    min_y (draw [] [(1, 100%float); (2, 200%float)]) = (min_val - pad)%float /\
    max_y (draw [] [(1, 100%float); (2, 200%float)]) = (max_val + pad)%float.
Proof.
  destruct y_range_padded as [H _].
  apply (H [] [(1, 100%float); (2, 200%float)]). discriminate.
Defined.

(** ** The y-axis labels *)

(** C3, as stated, fails: the label column drawn for the values [100, 200]
    does not have 8 labels. *)
Lemma y_labels_not_eight :
  List.length (y_axis_labels (draw [] [(1, 100%float); (2, 200%float)])) <> 8%nat.
Proof. vm_compute. discriminate. Qed.

(** C3, amended. For every total series drawn, the y-axis column has exactly
    9 labels: one per tick of rank 8 down to 0, top to bottom, the tick of
    rank [i] being [min_y + i * step] with [step] an eighth of
    [max_y - min_y] (or [1] when that range is not positive), each written as
    "CHF " followed by the value with thousands separators and two decimals.
    For the values [100, 200] they run from "CHF 205.00" down to "CHF 95.00". *)
Theorem y_labels_nine_ticks :
  (forall (assets : list asset) (total : Pd.Series),
      let c := draw assets total in
      let rng := (max_y c - min_y c)%float in
      let step := if (0 <? rng)%float then (rng / 8)%float else 1%float in
      List.length (y_axis_labels c) = 9%nat /\
      y_axis_labels c =
        map (fun i => ("CHF " ++ Fmt.fixed2 true (min_y c + i * step)%float)%string)
            [8; 7; 6; 5; 4; 3; 2; 1; 0]%float) /\
  y_axis_labels (draw [] [(1, 100%float); (2, 200%float)]) =
    ["CHF 205.00"; "CHF 191.25"; "CHF 177.50"; "CHF 163.75"; "CHF 150.00";
     "CHF 136.25"; "CHF 122.50"; "CHF 108.75"; "CHF 95.00"]%string /\
  y_axis_labels (draw [] [(1, 1000000%float); (2, 2500000%float)]) =
    ["CHF 2,575,000.00"; "CHF 2,368,750.00"; "CHF 2,162,500.00";
     "CHF 1,956,250.00"; "CHF 1,750,000.00"; "CHF 1,543,750.00";
     "CHF 1,337,500.00"; "CHF 1,131,250.00"; "CHF 925,000.00"]%string.
Proof.
  split; [| split].
  - intros assets total c rng step. split; reflexivity.
  - vm_compute. reflexivity.
  - vm_compute. reflexivity.
Qed.

(** ** Prices quoted in pence *)

(** C2, on the sample share quoted in "GBp" at 600 with GBP/CHF at 1.25:
    [get_current_price] divides by 100 before converting
    ([600 / 100 * 1.25 = 7.5]), but the value series built by
    [update_total_worth_graph] for two shares multiplies the close of day 11
    by the FX rate and the shares without dividing
    ([600 * 1.25 * 2 = 1500], where dividing first would give [15]). *)
Theorem pence_history_not_divided :
  run (get_current_price pence_world "VOD.L") =
    (Ok (600 / 100 * 1.25)%float,
     [Info "VOD.L"; Download "GBPCHF=X" (Period "5d")]) /\
  run (holding_series pence_world 9 13 vod) =
    (Ok (Some [(9, (2 * 4)%float); (10, Py.nan); (11, (600 * 1.25 * 2)%float)]),
     [Download "VOD.L" (Window 9 13); Info "VOD.L";
      Download "GBPCHF=X" (Window 9 13)]) /\
  (600 * 1.25 * 2)%float = 1500%float /\
  (600 / 100 * 1.25 * 2)%float = 15%float.
Proof. vm_compute. repeat split. Qed.

(** For any ticker whose metadata carry the currency "GBp" and a usable
    quote [p], [get_current_price] returns [p / 100] times the GBP rate. *)
Lemma get_current_price_pence (w : world) (t : string) (info : ticker_info)
    (p rate : float) (fx : Pd.Series) :
  yf_info w t = Some info ->
  currency info = Some "GBp"%string ->
  Py.or_else (Py.or_else (regularMarketPrice info) (currentPrice info))
             (previousClose info) = Some p ->
  close_of w "GBPCHF=X" (Period "5d") = Some fx ->
  last (map Some (Pd.values fx)) None = Some rate ->
  fst (run (get_current_price w t)) = Ok (p / 100 * rate)%float.
Proof.
  intros Hi Hc Hp Hfx Hl.
  unfold run, get_current_price, ticker_info_of, bind, ask. simpl.
  rewrite Hi. unfold ret at 1. rewrite Hp. unfold ret at 1. rewrite Hc. simpl.
  unfold get_fx_rate_to_chf. simpl. unfold bind.
  rewrite MFacts.download_close_run.
  change (fx_ticker_of (Py.strip "GBP")) with "GBPCHF=X"%string.
  rewrite Hfx, Hl. reflexivity.
Qed.

(** ** Dates before the first FX value *)

Module FxFacts.
Import Pd PdFacts.

Lemma is_nan_nan : PrimFloat.is_nan Py.nan = true.
Proof. reflexivity. Qed.

Lemma lookup_None (d : Z) (s : Series) : ~ In d (index s) -> lookup d s = None.
Proof.
  induction s as [| [d' v] t IH]; simpl; intros H; [reflexivity |].
  destruct (d' =? d) eqn:E.
  - apply Z.eqb_eq in E. exfalso. apply H. now left.
  - apply IH. intros Hin. apply H. now right.
Qed.

(** A price row at a date with no FX value at or before it gets a NaN from
    the aligned, forward-filled FX series, whatever was carried so far being
    NaN as well. *)
Lemma nan_row_before_fx (fx close : Series) (last : float) (d : Z) (x : float) :
  StronglySorted Z.lt (index close) ->
  PrimFloat.is_nan last = true ->
  In (d, x) close ->
  (forall d', d' <= d -> lookup d' fx = None) ->
  exists v, In (d, v) (mul close (ffill_from last (reindex fx (index close)))) /\
            PrimFloat.is_nan v = true.
Proof.
  intros Hs Hlast Hin Hfx. revert Hs Hin.
  induction close as [| [d0 x0] rest IH]; intros Hs Hin; [destruct Hin |].
  simpl in Hs. apply StronglySorted_inv in Hs as [Hrest Hd0].
  assert (d0 <= d) as Hle.
  { destruct Hin as [E | Hin]; [injection E; lia |].
    rewrite Forall_forall in Hd0.
    assert (In d (index rest)) as Hd by (apply (in_map fst _ _ Hin)).
    specialize (Hd0 d Hd). lia. }
  unfold mul, reindex. simpl. rewrite (Hfx d0 Hle), is_nan_nan.
  destruct Hin as [E | Hin].
  - injection E as -> ->. exists (x * last)%float. split; [now left |].
    now apply FloatFacts.is_nan_mul_r.
  - destruct (IH Hrest Hin) as [v [Hv Hn]]. exists v. split; [| assumption].
    right. exact Hv.
Qed.

Lemma scale_In (s : Series) (k : float) (d : Z) (v : float) :
  In (d, v) s -> In (d, (v * k)%float) (scale s k).
Proof. intros H. unfold scale. apply (in_map (fun e => (fst e, (snd e * k)%float)) _ _ H). Qed.

(** [anchor] keeps the rows after the purchase date. *)
Lemma anchor_keeps (a : asset) (sh : float) (value : Series) (p d : Z) (v : float) :
  purchase_date a = Some p -> p < d -> In (d, v) value ->
  In (d, v) (anchor a sh value).
Proof.
  intros Hp Hlt Hin. unfold anchor. rewrite Hp.
  assert (In (d, v) (from_date value p)) as Hf.
  { apply Valuation.from_date_In. split; [assumption | simpl; lia]. }
  destruct (0 <? to_float (Some (price a)) 0)%float; [| assumption].
  apply (proj2 (sort_index_In _ _)).
  apply Valuation.loc_set_other; [simpl; lia | assumption].
Qed.

End FxFacts.

(** C4, as stated, fails: the sample share is quoted in pence, its price
    series has day 10, the FX series starts on day 11; day 10 is kept in the
    holding's value series, with a NaN, and it is a date of the total
    series, where it carries the value forward-filled from the purchase
    anchor of day 9. *)
Lemma fx_gap_date_not_dropped :
  close_of pence_world "VOD.L" (Window 9 13) = Some [(10, 500%float); (11, 600%float)] /\
  fx_series pence_world (asset_currency pence_world "VOD.L") 9 13 =
    Some [(11, 1.25%float)] /\
  (exists value log,
      run (holding_series pence_world 9 13 vod) = (Ok (Some value), log) /\
      In 10 (Pd.index value)) /\
  fst (run (total_series pence_world 12 [vod])) =
    Ok (Some [(9, 8%float); (10, 8%float); (11, 1500%float); (12, 15%float)]).
Proof.
  split; [vm_compute; reflexivity |].
  split; [vm_compute; reflexivity |].
  split; [| vm_compute; reflexivity].
  eexists. eexists. split; [vm_compute; reflexivity |].
  simpl. auto.
Qed.

(** C4, amended. For every holding not quoted in CHF, a date after its
    purchase date that is present in its price series (dates ascending) and
    precedes every date of the FX series is kept in the holding's value
    series, with a NaN value; it is therefore one of the dates of the total
    series built from any list of series that contains this one. *)
Theorem fx_gap_date_kept :
  forall (w : world) (s e : Z) (a : asset) (p : Z) (close fx : Pd.Series)
         (d : Z) (x : float) (log : list request),
    Py.nonempty (ticker a) = true ->
    (0 <? shares a)%float = true ->
    purchase_date a = Some p -> p < d ->
    String.eqb (asset_currency w (ticker a)) "CHF" = false ->
    close_of w (ticker a) (Window s e) = Some close ->
    StronglySorted Z.lt (Pd.index close) ->
    fx_series w (asset_currency w (ticker a)) s e = Some fx ->
    In (d, x) close ->
    (forall d', In d' (Pd.index fx) -> d < d') ->
    exists (value : Pd.Series) (v : float) (log' : list request),
      holding_series w s e a log = (Ok (Some value), log') /\
      In (d, v) value /\ PrimFloat.is_nan v = true /\
      forall (today : Z) (assets : list asset) (series_list : list Pd.Series),
        In value series_list ->
        In d (Pd.index (with_today today assets (combine_series series_list))).
Proof.
  intros w s e a p close fx d x log Ht Hsh Hp Hlt Hccy Hc Hs Hfx Hin Hgap.
  apply FloatFacts.ltb_0_leb in Hsh.
  destruct (Valuation.holding_series_fx w s e a close fx log Ht Hsh Hc Hccy Hfx)
    as [log' Hrun].
  assert (forall d', d' <= d -> Pd.lookup d' fx = None) as Hnone.
  { intros d' Hle. apply FxFacts.lookup_None. intros Hd'.
    specialize (Hgap d' Hd'). lia. }
  destruct (FxFacts.nan_row_before_fx fx close Py.nan d x Hs FxFacts.is_nan_nan Hin Hnone)
    as [v0 [Hv0 Hn0]].
  fold (Pd.ffill (Pd.reindex fx (Pd.index close))) in Hv0.
  fold (to_chf close fx) in Hv0.
  pose proof (FxFacts.scale_In _ (shares a) _ _ Hv0) as Hsc.
  pose proof (FxFacts.anchor_keeps a (shares a) _ p d _ Hp Hlt Hsc) as Hanch.
  exists (anchor a (shares a) (Pd.scale (to_chf close fx) (shares a))),
         (v0 * shares a)%float, log'.
  split; [| split; [exact Hanch | split]].
  - rewrite Hrun.
    destruct (anchor a (shares a) (Pd.scale (to_chf close fx) (shares a)));
      [destruct Hanch | reflexivity].
  - now apply FloatFacts.is_nan_mul_l.
  - intros today assets ss Hss.
    assert (In d (Pd.index (combine_series ss))) as Hd.
    { apply TotalFacts.combine_series_In.
      exists (anchor a (shares a) (Pd.scale (to_chf close fx) (shares a))).
      split; [assumption |]. apply (in_map fst _ _ Hanch). }
    destruct (TotalFacts.with_today_index today assets (combine_series ss)
                (TotalFacts.combine_series_strict ss)) as [-> | ->];
      [assumption | apply in_or_app; now left].
Qed.

Lemma fx_gap_date_kept_witness :
  exists (value : Pd.Series) (v : float) (log' : list request),
    holding_series pence_world 9 13 vod [] = (Ok (Some value), log') /\
    In (10, v) value /\ PrimFloat.is_nan v = true /\
    forall (today : Z) (assets : list asset) (series_list : list Pd.Series),
      In value series_list ->
      In 10 (Pd.index (with_today today assets (combine_series series_list))).
Proof.
  apply (fx_gap_date_kept pence_world 9 13 vod 9
           [(10, 500%float); (11, 600%float)] [(11, 1.25%float)] 10 500%float []).
  all: try reflexivity.
  - repeat constructor.
  - now left.
  - intros d' [<- | []]. reflexivity.
Defined.

(** ** What the add-asset flow stores *)

Module AddFacts.

Lemma append_asset_result w today t sh pr cp p assets page log assets' out log' :
  append_asset w today t sh pr cp p assets page log = (Ok (assets', out), log') ->
  exists a, assets' = assets ++ [a] /\ ticker a = t /\ shares a = sh /\
            price a = pr /\ current_price a = cp /\ purchase_date a = Some p.
Proof.
  unfold append_asset, bind.
  destruct (get_ticker_name w t log) as [[n |] log1]; [| discriminate].
  destruct (get_asset_type w t log1) as [[ty |] log2]; [| discriminate].
  unfold after_append.
  destruct (refresh_assets _ _ _ _ log2) as [[pg |] log3];
    intros [= <- _ _]; eexists; repeat split.
Qed.

Lemma nonempty_upper (s : string) : Py.nonempty (Py.upper s) = Py.nonempty s.
Proof. destruct s; reflexivity. Qed.

(** A click either leaves the holdings as they were or appends one holding
    with a ticker, [shares > 0], [purchase_price > 0] and a purchase date
    not after today. *)
Lemma on_add_click_invariant w today f assets page log assets' out log' :
  on_add_click w today f assets page log = (Ok (assets', out), log') ->
  assets' = assets \/
  exists a p, assets' = assets ++ [a] /\
              Py.nonempty (ticker a) = true /\
              (0 <? shares a)%float = true /\
              (0 <? price a)%float = true /\
              purchase_date a = Some p /\ p <= today.
Proof.
  unfold on_add_click.
  destruct (validate_fields f) eqn:V; simpl; [| intros [= <- _ _]; now left].
  unfold validate_fields in V.
  apply andb_prop in V as [V _]. apply andb_prop in V as [V Hprice].
  apply andb_prop in V as [Hticker Hshares].
  destruct (selected_purchase_date f) as [p |]; [| intros [= <- _ _]; now left].
  destruct (today <? p) eqn:Hfuture; [intros [= <- _ _]; now left |].
  apply Z.ltb_ge in Hfuture.
  destruct ((to_float (shares_field f) 0 <=? 0)%float ||
            (to_float (price_field f) 0 <=? 0)%float);
    [intros [= <- _ _]; now left |].
  unfold bind at 1.
  destruct (attempt _ log) as [[[cp |] |] log1];
    [| intros [= <- _ _]; now left | discriminate].
  unfold bind.
  destruct (get_first_price_date _ _ log1) as [[first_dt |] log2]; [| discriminate].
  assert (forall H : append_asset w today (Py.upper (Py.strip (ticker_field f)))
                       (to_float (shares_field f) 0) (to_float (price_field f) 0)
                       cp p assets page log2 = (Ok (assets', out), log'),
             assets' = assets \/
             exists a p0, assets' = assets ++ [a] /\
                          Py.nonempty (ticker a) = true /\
                          (0 <? shares a)%float = true /\
                          (0 <? price a)%float = true /\
                          purchase_date a = Some p0 /\ p0 <= today) as Happ.
  { intros H. apply append_asset_result in H
      as [a [-> [Ht [Hs [Hp [_ Hd]]]]]].
    right. exists a, p. rewrite Ht, Hs, Hp, nonempty_upper. repeat split; assumption. }
  destruct first_dt as [d |]; [| exact Happ].
  destruct (p <? d); [intros [= <- _ _]; now left | exact Happ].
Qed.

End AddFacts.

(** ** The add-asset flow, case by case *)

Module ClickFacts.

Lemma first_price_date_ok w t log :
  exists r log', get_first_price_date w t log = (Ok r, log').
Proof.
  unfold get_first_price_date, try_except, bind, ask.
  destruct (yf_info w t) as [info |]; simpl.
  - destruct (Py.or_else_int _ _) as [e |]; simpl.
    + destruct (e =? 0); simpl.
      * destruct (clean_close _) as [c |]; [destruct (Pd.index c) |];
          do 2 eexists; reflexivity.
      * destruct (date_fromtimestamp w e); simpl; [do 2 eexists; reflexivity |].
        destruct (clean_close _) as [c |]; [destruct (Pd.index c) |];
          do 2 eexists; reflexivity.
    + destruct (clean_close _) as [c |]; [destruct (Pd.index c) |];
        do 2 eexists; reflexivity.
  - destruct (clean_close _) as [c |]; [destruct (Pd.index c) |];
      do 2 eexists; reflexivity.
Qed.

(** [append_asset] always appends one holding built from its arguments; its
    outcome is the way the refresh ended, an exception included. *)
Lemma append_asset_ok w today t sh pr cp p assets page log :
  exists a pg log',
    append_asset w today t sh pr cp p assets page log =
      (Ok (assets ++ [a], Added pg), log') /\
    ticker a = t /\ shares a = sh /\ price a = pr /\ current_price a = cp /\
    purchase_date a = Some p /\
    profit_gain a = (sh * (cp - pr))%float /\
    percentage_gain a = ((cp - pr) / pr)%float /\
    (exists log0, refresh_assets w today (assets ++ [a]) page log0 = (pg, log')).
Proof.
  unfold append_asset, bind, after_append.
  assert (exists n log1, get_ticker_name w t log = (Ok n, log1)) as [n [log1 ->]].
  { unfold get_ticker_name, try_except, ticker_info_of, bind, ask.
    destruct (yf_info w t); do 2 eexists; reflexivity. }
  assert (exists ty log2, get_asset_type w t log1 = (Ok ty, log2)) as [ty [log2 ->]].
  { unfold get_asset_type, try_except, ticker_info_of, bind, ask.
    destruct (yf_info w t); do 2 eexists; reflexivity. }
  set (a := {| ticker := t; name := n; asset_type := ty; shares := sh; price := pr;
               current_price := cp; purchase_date := Some p;
               percentage_gain := ((cp - pr) / pr)%float;
               profit_gain := (sh * (cp - pr))%float |}).
  destruct (refresh_assets w today (assets ++ [a]) page log2) as [[pg |] log3] eqn:E.
  - exists a, (Ok pg), log3. repeat split. now exists log2.
  - exists a, Raised, log3. repeat split. now exists log2.
Qed.

(** The five ways a click can end. *)
Lemma on_add_click_cases w today f assets page log :
  let t := Py.upper (Py.strip (ticker_field f)) in
  let sh := to_float (shares_field f) 0 in
  let pr := to_float (price_field f) 0 in
  (validate_fields f = false /\
   on_add_click w today f assets page log = (Ok (assets, Rejected FieldsRequired), log)) \/
  (validate_fields f = true /\
   exists p, selected_purchase_date f = Some p /\
     Py.nonempty t = true /\ (0 <? sh)%float = true /\ (0 <? pr)%float = true /\
     ((today < p /\
       on_add_click w today f assets page log = (Ok (assets, Rejected FutureDate), log)) \/
      (p <= today /\
       ((exists log1,
            get_current_price w t log = (Raised, log1) /\
            on_add_click w today f assets page log =
              (Ok (assets, Rejected InvalidTicker), log1)) \/
        (exists cp log1 first_dt log2,
            get_current_price w t log = (Ok cp, log1) /\
            get_first_price_date w t log1 = (Ok first_dt, log2) /\
            match first_dt with
            | Some d =>
                (p < d /\
                 on_add_click w today f assets page log =
                   (Ok (assets, Rejected (BeforeFirstPrice d)), log2)) \/
                (d <= p /\
                 on_add_click w today f assets page log =
                   append_asset w today t sh pr cp p assets page log2)
            | None =>
                on_add_click w today f assets page log =
                  append_asset w today t sh pr cp p assets page log2
            end))))).
Proof.
  intros t sh pr.
  remember (on_add_click w today f assets page log) as R eqn:HR.
  unfold on_add_click in HR. fold t sh pr in HR.
  destruct (validate_fields f) eqn:V; simpl in HR; [| left; now split].
  right. split; [reflexivity |].
  unfold validate_fields in V.
  apply andb_prop in V as [V Hdate]. apply andb_prop in V as [V Hprice].
  apply andb_prop in V as [Hticker Hshares].
  destruct (selected_purchase_date f) as [p |]; [| discriminate].
  exists p. split; [reflexivity |].
  split; [subst t; now rewrite AddFacts.nonempty_upper |].
  fold sh in Hshares. fold pr in Hprice.
  split; [exact Hshares |]. split; [exact Hprice |].
  destruct (today <? p) eqn:Hfuture.
  - left. apply Z.ltb_lt in Hfuture. now split.
  - right. apply Z.ltb_ge in Hfuture. split; [assumption |].
    rewrite (FloatFacts.ltb_0_leb _ Hshares), (FloatFacts.ltb_0_leb _ Hprice) in HR.
    simpl in HR. unfold bind at 1 in HR. unfold attempt in HR.
    destruct (get_current_price w t log) as [[cp |] log1]; [| left; now exists log1].
    right. unfold bind in HR.
    destruct (first_price_date_ok w t log1) as [first_dt [log2 E]]. rewrite E in HR.
    exists cp, log1, first_dt, log2. split; [reflexivity |]. split; [exact E |].
    destruct first_dt as [d |]; [| exact HR].
    destruct (p <? d) eqn:Hd.
    + left. apply Z.ltb_lt in Hd. now split.
    + right. apply Z.ltb_ge in Hd. now split.
Qed.

(** Both lookups of the click begin with a metadata request for the ticker. *)
Lemma current_price_asks_info w t :
  exists rest, snd (run (get_current_price w t)) = Info t :: rest.
Proof.
  pose proof (MFacts.oblivious_get_fx_rate_to_chf w) as Ofx.
  unfold run, get_current_price, ticker_info_of, bind, ask, ret, raise. simpl.
  destruct (yf_info w t) as [info |]; [| eexists; reflexivity].
  destruct (Py.or_else _ _) as [pr |].
  - rewrite (Ofx _ [Info t]).
    destruct (fst (run (get_fx_rate_to_chf w _))); eexists; reflexivity.
  - destruct (yf_history w t) as [close |]; [| eexists; reflexivity].
    destruct (last _ None) as [pr |]; [| eexists; reflexivity].
    rewrite (Ofx _ ([Info t] ++ [History t])).
    destruct (fst (run (get_fx_rate_to_chf w _))); eexists; reflexivity.
Qed.

Lemma first_price_date_asks_info w t :
  exists rest, snd (run (get_first_price_date w t)) = Info t :: rest.
Proof.
  unfold run, get_first_price_date, try_except, bind, ask.
  destruct (yf_info w t) as [info |]; simpl.
  - destruct (Py.or_else_int _ _) as [e |]; simpl.
    + destruct (e =? 0); simpl.
      * destruct (clean_close _) as [c |]; [destruct (Pd.index c) |];
          eexists; reflexivity.
      * destruct (date_fromtimestamp w e); simpl; [eexists; reflexivity |].
        destruct (clean_close _) as [c |]; [destruct (Pd.index c) |];
          eexists; reflexivity.
    + destruct (clean_close _) as [c |]; [destruct (Pd.index c) |];
        eexists; reflexivity.
  - destruct (clean_close _) as [c |]; [destruct (Pd.index c) |];
      eexists; reflexivity.
Qed.

End ClickFacts.

(** ** The add-asset flow *)

(** C6, as stated, fails: with a purchase date (day 5) before the first
    available price date (day 10), the click is rejected and nothing is
    appended, but only after four requests: the current price was fetched
    and converted, then the first price date was looked up. *)
Lemma prelisting_rejected_after_retrieval :
  run (on_add_click pence_world 12 (vod_form 5) [] initial_chart) =
    (Ok ([], Rejected (BeforeFirstPrice 10)),
     [Info "VOD.L"; Download "GBPCHF=X" (Period "5d");
      Info "VOD.L"; Download "VOD.L" (Period "max")]) /\
  snd (run (on_add_click pence_world 12 (vod_form 5) [] initial_chart)) <> [].
Proof. vm_compute. split; [reflexivity | discriminate]. Qed.

(** C6, amended. In [on_add_click], shares or a price that are not positive
    and a purchase date in the future are rejected without any request to
    the data source, the holdings list being left as it was. A purchase date
    before the ticker's first available price date never lets the holding
    be appended either; but the rejection for that reason comes only after
    the current price and then the first price date have been retrieved:
    when the fields are valid, the date is not after today and a current
    price is obtained, the click is rejected with the requests of
    [get_current_price] followed by those of [get_first_price_date], and
    whenever a click ends in that rejection, these are the requests it has
    made, the price having been obtained. Each of the two lookups begins
    with a metadata request for the ticker, so requests have been made. *)
Theorem invalid_input_rejected :
  forall (w : world) (today : Z) (f : form) (assets : list asset) (page : chart),
    let t := Py.upper (Py.strip (ticker_field f)) in
    (invalid_without_data today f = true ->
     exists why,
       run (on_add_click w today f assets page) = (Ok (assets, Rejected why), [])) /\
    (forall p d,
        selected_purchase_date f = Some p ->
        fst (run (get_first_price_date w t)) = Ok (Some d) ->
        p < d ->
        exists why log,
          run (on_add_click w today f assets page) = (Ok (assets, Rejected why), log)) /\
    (forall p d cp,
        validate_fields f = true ->
        selected_purchase_date f = Some p ->
        p <= today ->
        fst (run (get_current_price w t)) = Ok cp ->
        fst (run (get_first_price_date w t)) = Ok (Some d) ->
        p < d ->
        run (on_add_click w today f assets page) =
          (Ok (assets, Rejected (BeforeFirstPrice d)),
           snd (run (get_current_price w t)) ++
           snd (run (get_first_price_date w t)))) /\
    (forall assets' d log,
        run (on_add_click w today f assets page) =
          (Ok (assets', Rejected (BeforeFirstPrice d)), log) ->
        assets' = assets /\
        (exists cp, fst (run (get_current_price w t)) = Ok cp) /\
        fst (run (get_first_price_date w t)) = Ok (Some d) /\
        log = snd (run (get_current_price w t)) ++
              snd (run (get_first_price_date w t))) /\
    (exists rest, snd (run (get_current_price w t)) = Info t :: rest) /\
    (exists rest, snd (run (get_first_price_date w t)) = Info t :: rest).
Proof.
  intros w today f assets page t.
  pose proof (MFacts.oblivious_get_first_price_date w t) as Odate.
  pose proof (ClickFacts.on_add_click_cases w today f assets page []) as Hcases.
  cbv zeta in Hcases. fold t in Hcases.
  split; [| split; [| split; [| split; [| split]]]].
  - intros Hinv. unfold run, on_add_click, invalid_without_data in *.
    destruct (validate_fields f); simpl; [| eexists; reflexivity].
    destruct (selected_purchase_date f) as [p |]; [| eexists; reflexivity].
    destruct (today <? p); [eexists; reflexivity |].
    destruct ((to_float (shares_field f) 0 <=? 0)%float ||
              (to_float (price_field f) 0 <=? 0)%float);
      [eexists; reflexivity | discriminate].
  - intros p d Hp Hd Hlt. unfold run, on_add_click. fold t.
    destruct (validate_fields f); simpl; [| do 2 eexists; reflexivity].
    rewrite Hp.
    destruct (today <? p); [do 2 eexists; reflexivity |].
    destruct ((to_float (shares_field f) 0 <=? 0)%float ||
              (to_float (price_field f) 0 <=? 0)%float);
      [do 2 eexists; reflexivity |].
    unfold bind, attempt.
    destruct (get_current_price w t []) as [[cp |] log1];
      [| do 2 eexists; reflexivity].
    rewrite (Odate log1), Hd.
    apply Z.ltb_lt in Hlt. rewrite Hlt.
    do 2 eexists; reflexivity.
  - intros p d cp V Hp Hle Hcp Hd Hlt.
    destruct Hcases
      as [[V' _] | [_ [p' [Hp' [_ [_ [_ [[Hf _] | [_ [[log1 [Hr _]] | H]]]]]]]]]].
    + congruence.
    + rewrite Hp in Hp'. injection Hp' as <-. lia.
    + unfold run in Hcp. rewrite Hr in Hcp. discriminate.
    + destruct H as [cp' [log1 [fd [log2 [Hr [Hfd H]]]]]].
      rewrite Hp in Hp'. injection Hp' as <-.
      rewrite (Odate log1), Hd in Hfd. injection Hfd as <- <-.
      assert (log1 = snd (run (get_current_price w t))) as ->
          by (unfold run; now rewrite Hr).
      destruct H as [[_ E] | [Hge _]]; [exact E | lia].
  - intros assets' d log Hrun. unfold run in Hrun.
    destruct Hcases
      as [[_ E] | [_ [p [Hp [_ [_ [_ [[_ E] | [_ [[log1 [_ E]] | H]]]]]]]]]];
      try (rewrite E in Hrun; discriminate).
    destruct H as [cp [log1 [fd [log2 [Hr [Hfd H]]]]]].
    assert (forall E : on_add_click w today f assets page [] =
                         append_asset w today t (to_float (shares_field f) 0)
                           (to_float (price_field f) 0) cp p assets page log2,
               False) as Happ.
    { intros E. rewrite E in Hrun.
      destruct (ClickFacts.append_asset_ok w today t (to_float (shares_field f) 0)
                  (to_float (price_field f) 0) cp p assets page log2)
        as [a [pg [log3 [Hr' _]]]].
      rewrite Hr' in Hrun. discriminate. }
    destruct fd as [d0 |]; [| now destruct (Happ H)].
    destruct H as [[_ E] | [_ E]]; [| now destruct (Happ E)].
    rewrite E in Hrun. injection Hrun as <- <- <-.
    rewrite (Odate log1) in Hfd. injection Hfd as Hfd1 Hfd2.
    split; [reflexivity |].
    split; [exists cp; unfold run; now rewrite Hr |].
    split; [exact Hfd1 |].
    rewrite <- Hfd2. f_equal. unfold run. now rewrite Hr.
  - apply ClickFacts.current_price_asks_info.
  - apply ClickFacts.first_price_date_asks_info.
Qed.

Lemma invalid_input_rejected_witness :
  (exists why,
      run (on_add_click pence_world 12 (vod_form 13) [vod] initial_chart) =
        (Ok ([vod], Rejected why), [])) /\
  (exists why log,
      run (on_add_click pence_world 12 (vod_form 5) [vod] initial_chart) =
        (Ok ([vod], Rejected why), log)) /\
  run (on_add_click pence_world 12 (vod_form 5) [vod] initial_chart) =
    (Ok ([vod], Rejected (BeforeFirstPrice 10)),
     [Info "VOD.L"; Download "GBPCHF=X" (Period "5d")] ++
     [Info "VOD.L"; Download "VOD.L" (Period "max")]) /\
  ([vod] = [vod] /\
   (exists cp, fst (run (get_current_price pence_world "VOD.L")) = Ok cp) /\
   fst (run (get_first_price_date pence_world "VOD.L")) = Ok (Some 10) /\
   [Info "VOD.L"; Download "GBPCHF=X" (Period "5d");
    Info "VOD.L"; Download "VOD.L" (Period "max")] =
     snd (run (get_current_price pence_world "VOD.L")) ++
     snd (run (get_first_price_date pence_world "VOD.L"))).
Proof.
  assert (5 <= 12) as Hle by lia.
  assert (5 < 10) as Hlt by lia.
  split; [| split; [| split]].
  - apply (invalid_input_rejected pence_world 12 (vod_form 13) [vod] initial_chart).
    vm_compute. reflexivity.
  - exact (proj1 (proj2 (invalid_input_rejected pence_world 12 (vod_form 5) [vod]
                           initial_chart))
             5 10 eq_refl eq_refl Hlt).
  - exact (proj1 (proj2 (proj2 (invalid_input_rejected pence_world 12 (vod_form 5)
                                  [vod] initial_chart)))
             5 10 7.5%float eq_refl eq_refl Hle eq_refl eq_refl Hlt).
  - exact (proj1 (proj2 (proj2 (proj2 (invalid_input_rejected pence_world 12
                                         (vod_form 5) [vod] initial_chart))))
             [vod] 10
             [Info "VOD.L"; Download "GBPCHF=X" (Period "5d");
              Info "VOD.L"; Download "VOD.L" (Period "max")]
             eq_refl).
Defined.

(** ** The formatter on sample values *)

Example fixed2_samples :
  Fmt.fixed2 true 1234567.891%float = "1,234,567.89"%string /\
  Fmt.fixed2 true 0.125%float = "0.12"%string /\
  Fmt.fixed2 false 2.675%float = "2.67"%string /\
  Fmt.fixed2 true (-1000.5)%float = "-1,000.50"%string /\
  Fmt.fixed2 true 999.999%float = "1,000.00"%string /\
  Fmt.fixed2 true 0%float = "0.00"%string /\
  Fmt.fixed2 false Py.nan = "nan"%string /\
  Fmt.py_round 2.5%float = Some 2 /\ Fmt.py_round 3.5%float = Some 4 /\
  x_label_dates [0; 5; 70] = [0; 10; 20; 30; 40; 50; 60; 70].
Proof. vm_compute. repeat split. Qed.

(** The loop of [update_total_worth_graph] only sees the normalised currency
    code: for metadata with currency "GBp" it is "GBP", as for a share
    quoted in pounds. *)
Lemma asset_currency_forgets_pence (w : world) (t : string) (info : ticker_info) :
  yf_info w t = Some info -> currency info = Some "GBp"%string ->
  asset_currency w t = "GBP"%string.
Proof. intros Hi Hc. unfold asset_currency. rewrite Hi, Hc. reflexivity. Qed.

(** * Further properties *)

(** ** The data functions *)

Module DataFacts.
Import Pd.

Lemma dropna_no_nan (s : Series) : no_nan (values (dropna s)).
Proof.
  unfold no_nan, values, dropna. apply Forall_forall. intros v Hv.
  apply in_map_iff in Hv as [e [<- He]]. apply filter_In in He as [_ He].
  now apply negb_true_iff in He.
Qed.

(** What [download_close] answers is never empty and holds no NaN. *)
Lemma close_of_clean w t args c :
  close_of w t args = Some c ->
  c <> [] /\ no_nan (values c) /\
  exists raw, yf_download w t args = Some raw /\ c = dropna raw.
Proof.
  unfold close_of, clean_close.
  destruct (yf_download w t args) as [raw |]; [| discriminate].
  destruct (dropna raw) as [| e r] eqn:E; [discriminate |].
  intros [= <-]. split; [discriminate |]. split.
  - rewrite <- E. apply dropna_no_nan.
  - exists raw. split; [reflexivity | now symmetry].
Qed.

Lemma dropna_nil_all_nan (s : Series) :
  dropna s = [] <-> Forall (fun e => PrimFloat.is_nan (snd e) = true) s.
Proof.
  unfold dropna. induction s as [| e t IH]; simpl.
  - split; [constructor | reflexivity].
  - destruct (PrimFloat.is_nan (snd e)) eqn:E; simpl.
    + rewrite IH. split; [now constructor | now inversion 1].
    + split; [discriminate | inversion 1; congruence].
Qed.

Lemma last_map_Some {A : Type} (l : list A) (d : A) :
  l <> [] -> last (map Some l) None = Some (last l d).
Proof.
  induction l as [| a [| b t] IH]; intros H; [congruence | reflexivity |].
  change (last (map Some (a :: b :: t)) None) with (last (map Some (b :: t)) None).
  change (last (a :: b :: t) d) with (last (b :: t) d).
  apply IH. discriminate.
Qed.

Lemma last_In {A : Type} (l : list A) (d : A) : l <> [] -> In (last l d) l.
Proof.
  induction l as [| a [| b t] IH]; intros H; [congruence | now left |].
  right. apply IH. discriminate.
Qed.

Lemma values_nonempty (s : Series) : s <> [] -> values s <> [].
Proof. destruct s; [congruence | discriminate]. Qed.

Lemma date_range_In (s e d : Z) : In d (date_range s e) <-> s <= d <= e.
Proof.
  unfold date_range. rewrite in_map_iff. split.
  - intros [i [<- Hi]]. apply in_seq in Hi. lia.
  - intros H. exists (Z.to_nat (d - s)). split; [lia |].
    apply in_seq. lia.
Qed.

Lemma seq_shift_sorted (s : Z) (n k : nat) :
  StronglySorted Z.lt (map (fun i => s + Z.of_nat i) (seq k n)).
Proof.
  revert k. induction n as [| n IH]; intros k; simpl; constructor.
  - apply IH.
  - apply Forall_forall. intros x Hx.
    apply in_map_iff in Hx as [i [<- Hi]]. apply in_seq in Hi. lia.
Qed.

Lemma date_range_sorted (s e : Z) : StronglySorted Z.lt (date_range s e).
Proof. apply seq_shift_sorted. Qed.

Lemma fold_left_min_le (ds : list Z) (d : Z) :
  fold_left Z.min ds d <= d /\ Forall (fun x => fold_left Z.min ds d <= x) ds.
Proof.
  revert d. induction ds as [| x ds IH]; intros d; simpl.
  - split; [lia | constructor].
  - destruct (IH (Z.min d x)) as [H1 H2]. split; [lia |].
    constructor; [lia | assumption].
Qed.

Lemma fold_left_min_In (ds : list Z) (d : Z) : In (fold_left Z.min ds d) (d :: ds).
Proof.
  revert d. induction ds as [| x ds IH]; intros d; simpl; [now left |].
  destruct (IH (Z.min d x)) as [H | H]; [| auto].
  destruct (Z.min_spec d x) as [[_ E] | [_ E]]; rewrite E in H |- *; auto.
Qed.

End DataFacts.

(** X1. [download_close] sends exactly one request and never raises. It
    answers [None] exactly when nothing came back or every price that came
    back is missing; otherwise it answers the rows that have a price, in
    their order: a series that is not empty and holds no NaN. *)
Theorem download_close_clean :
  forall (w : world) (t : string) (args : dl_args) (log : list request),
    exists r,
      download_close w t args log = (Ok r, log ++ [Download t args]) /\
      match r with
      | Some c =>
          c <> [] /\ no_nan (Pd.values c) /\
          exists raw, yf_download w t args = Some raw /\ c = Pd.dropna raw
      | None =>
          yf_download w t args = None \/
          exists raw, yf_download w t args = Some raw /\
                      Forall (fun e => PrimFloat.is_nan (snd e) = true) raw
      end.
Proof.
  intros w t args log. exists (close_of w t args).
  split; [apply MFacts.download_close_run |].
  destruct (close_of w t args) as [c |] eqn:E.
  - now apply DataFacts.close_of_clean.
  - unfold close_of, clean_close in E.
    destruct (yf_download w t args) as [raw |]; [| now left].
    right. exists raw. split; [reflexivity |].
    apply DataFacts.dropna_nil_all_nan.
    destruct (Pd.dropna raw); [reflexivity | discriminate].
Qed.

(** ** Currency codes *)

Module CcyFacts.

Lemma rstrip_cons (c : ascii) (r : string) :
  Py.is_space c = false -> Py.rstrip (String c r) = String c (Py.rstrip r).
Proof. intros H. simpl. rewrite H. now destruct (Py.rstrip r). Qed.

Lemma rstrip_idem (s : string) : Py.rstrip (Py.rstrip s) = Py.rstrip s.
Proof.
  induction s as [| c r IH]; [reflexivity |]. simpl.
  destruct (Py.rstrip r) as [| c' r'] eqn:E.
  - destruct (Py.is_space c) eqn:Ec; [reflexivity |]. simpl. now rewrite Ec.
  - simpl in IH |- *. now rewrite IH.
Qed.

(** [lstrip] yields the empty string or a string that starts with a
    character that is not white space. *)
Lemma lstrip_head (s : string) :
  Py.lstrip s = EmptyString \/
  exists c r, Py.lstrip s = String c r /\ Py.is_space c = false.
Proof.
  induction s as [| c r IH]; [now left |]. simpl.
  destruct (Py.is_space c) eqn:E; [exact IH |]. right. now exists c, r.
Qed.

Lemma strip_idem (s : string) : Py.strip (Py.strip s) = Py.strip s.
Proof.
  unfold Py.strip. destruct (lstrip_head s) as [-> | [c [r [-> Hc]]]]; [reflexivity |].
  rewrite (rstrip_cons c r Hc). simpl Py.lstrip. rewrite Hc.
  rewrite (rstrip_cons c _ Hc). now rewrite rstrip_idem.
Qed.

(** Normalising a normalised code again. *)
Lemma normalize_again (ccy : option string) :
  _normalize_ccy (Some (_normalize_ccy ccy)) =
    (if Py.nonempty (_normalize_ccy ccy) then _normalize_ccy ccy else "CHF"%string).
Proof.
  destruct ccy as [c |]; [| reflexivity].
  unfold _normalize_ccy at 2 3 4.
  destruct (Py.nonempty c); [| reflexivity].
  destruct (String.eqb (Py.strip c) "GBp") eqn:E; [reflexivity |].
  unfold _normalize_ccy.
  destruct (Py.nonempty (Py.strip c)); [| reflexivity].
  now rewrite strip_idem, E.
Qed.

(** The answer and the requests of [get_fx_rate_to_chf]. *)
Lemma fx_rate_run w ccy log :
  get_fx_rate_to_chf w ccy log =
    (if String.eqb (_normalize_ccy (Some ccy)) "CHF" then (Ok 1%float, log)
     else
       (match close_of w (fx_ticker_of (_normalize_ccy (Some ccy))) (Period "5d") with
        | Some close => Ok (last (Pd.values close) Py.nan)
        | None => Raised
        end,
        log ++ [Download (fx_ticker_of (_normalize_ccy (Some ccy))) (Period "5d")])).
Proof.
  unfold get_fx_rate_to_chf.
  destruct (String.eqb (_normalize_ccy (Some ccy)) "CHF"); [reflexivity |].
  unfold bind. rewrite MFacts.download_close_run.
  destruct (close_of w _ (Period "5d")) as [close |] eqn:E; [| reflexivity].
  destruct (DataFacts.close_of_clean _ _ _ _ E) as [Hne _].
  now rewrite (DataFacts.last_map_Some _ Py.nan (DataFacts.values_nonempty _ Hne)).
Qed.

(** The price to convert: divided by 100 for the raw code "GBp" only. *)
Lemma pence_scaling (info : ticker_info) (p : float) :
  (if String.eqb (_normalize_ccy (currency info)) "GBP" &&
      match currency info with
      | Some c0 => String.eqb c0 "GBp"
      | None => false
      end
   then (p / 100)%float else p) =
  match currency info with
  | Some raw => if String.eqb raw "GBp" then (p / 100)%float else p
  | None => p
  end.
Proof.
  destruct (currency info) as [raw |]; [| now rewrite andb_false_r].
  destruct (String.eqb raw "GBp") eqn:E; [| now rewrite andb_false_r].
  apply String.eqb_eq in E. subst raw. reflexivity.
Qed.

(** The last two lines of [get_current_price] on a normalised code. *)
Lemma conversion_run w (ccy : option string) (price : float) log :
  let c := _normalize_ccy ccy in
  bind (get_fx_rate_to_chf w c) (fun fx => ret (price * fx)%float) log =
    (if String.eqb c "CHF" || negb (Py.nonempty c)
     then (Ok (price * 1)%float, log)
     else
       (match close_of w (c ++ "CHF=X")%string (Period "5d") with
        | Some close => Ok (price * last (Pd.values close) Py.nan)%float
        | None => Raised
        end, log ++ [Download (c ++ "CHF=X")%string (Period "5d")])).
Proof.
  intros c. unfold bind. rewrite fx_rate_run. subst c. rewrite normalize_again.
  set (c := _normalize_ccy ccy).
  destruct (Py.nonempty c) eqn:Hn; simpl.
  - rewrite orb_false_r. destruct (String.eqb c "CHF"); [reflexivity |].
    unfold fx_ticker_of.
    destruct (close_of w (c ++ "CHF=X")%string (Period "5d")); reflexivity.
  - rewrite orb_true_r. reflexivity.
Qed.

End CcyFacts.

(** X2. [_normalize_ccy] answers "CHF" for a missing or empty code, never
    answers "GBp", and normalising its answer again changes nothing, except
    that the empty answer it gives for a code made of white space becomes
    "CHF". *)
Theorem normalize_ccy_stable :
  forall ccy : option string,
    _normalize_ccy None = "CHF"%string /\
    _normalize_ccy (Some ""%string) = "CHF"%string /\
    _normalize_ccy ccy <> "GBp"%string /\
    _normalize_ccy (Some (_normalize_ccy ccy)) =
      (if Py.nonempty (_normalize_ccy ccy) then _normalize_ccy ccy else "CHF"%string).
Proof.
  intros ccy. split; [reflexivity |]. split; [reflexivity |].
  split; [| apply CcyFacts.normalize_again].
  destruct ccy as [c |]; [| discriminate].
  unfold _normalize_ccy.
  destruct (Py.nonempty c); [| discriminate].
  destruct (String.eqb (Py.strip c) "GBp") eqn:E; [discriminate |].
  intros H. rewrite H in E. discriminate.
Qed.

(** X3. For a code that normalises to "CHF", [get_fx_rate_to_chf] answers
    [1.0] and [get_fx_series_to_chf] answers one row per day of the window,
    from its first to its last day in ascending order, each with the value
    [1.0]; neither sends a request. *)
Theorem chf_is_identity :
  forall (w : world) (ccy : string) (s e : Z) (log : list request),
    _normalize_ccy (Some ccy) = "CHF"%string ->
    get_fx_rate_to_chf w ccy log = (Ok 1%float, log) /\
    exists fx,
      get_fx_series_to_chf w ccy s e log = (Ok fx, log) /\
      Forall (fun v => v = 1%float) (Pd.values fx) /\
      (forall d, In d (Pd.index fx) <-> s <= d <= e) /\
      StronglySorted Z.lt (Pd.index fx) /\
      Z.of_nat (List.length fx) = Z.max 0 (e - s + 1).
Proof.
  intros w ccy s e log H.
  unfold get_fx_rate_to_chf, get_fx_series_to_chf. rewrite H. simpl.
  split; [reflexivity |].
  eexists. split; [reflexivity |].
  assert (Pd.index (map (fun d => (d, 1%float)) (date_range s e)) = date_range s e)
    as Hidx.
  { unfold Pd.index. rewrite map_map. apply map_id. }
  split; [| split; [| split]].
  - unfold Pd.values. rewrite map_map. apply Forall_forall.
    intros v Hv. apply in_map_iff in Hv as [d [<- _]]. reflexivity.
  - intros d. rewrite Hidx. apply DataFacts.date_range_In.
  - rewrite Hidx. apply DataFacts.date_range_sorted.
  - unfold date_range. rewrite !length_map, length_seq. lia.
Qed.

Lemma chf_is_identity_witness :
  get_fx_rate_to_chf pence_world " CHF " [] = (Ok 1%float, []) /\
  exists fx,
    get_fx_series_to_chf pence_world " CHF " 9 13 [] = (Ok fx, []) /\
    Forall (fun v => v = 1%float) (Pd.values fx) /\
    (forall d, In d (Pd.index fx) <-> 9 <= d <= 13) /\
    StronglySorted Z.lt (Pd.index fx) /\
    Z.of_nat (List.length fx) = Z.max 0 (13 - 9 + 1).
Proof. apply (chf_is_identity pence_world " CHF " 9 13 []). reflexivity. Defined.

(** X4. For a code that does not normalise to "CHF", [get_fx_rate_to_chf]
    and [get_fx_series_to_chf] each send exactly one request, for the ticker
    made of the normalised code and "CHF=X" (the last five days for the rate,
    the window for the series), and raise exactly when no usable close comes
    back; otherwise the rate is the last close that has a value, which is
    not a NaN, and the series is the closes that have a value. *)
Theorem fx_from_one_download :
  forall (w : world) (ccy : string) (s e : Z) (log : list request),
    let c := _normalize_ccy (Some ccy) in
    let fx_ticker := (c ++ "CHF=X")%string in
    c <> "CHF"%string ->
    get_fx_rate_to_chf w ccy log =
      (match close_of w fx_ticker (Period "5d") with
       | Some close => Ok (last (Pd.values close) Py.nan)
       | None => Raised
       end, log ++ [Download fx_ticker (Period "5d")]) /\
    (forall close, close_of w fx_ticker (Period "5d") = Some close ->
                   PrimFloat.is_nan (last (Pd.values close) Py.nan) = false) /\
    get_fx_series_to_chf w ccy s e log =
      (match close_of w fx_ticker (Window s e) with
       | Some close => Ok close
       | None => Raised
       end, log ++ [Download fx_ticker (Window s e)]).
Proof.
  intros w ccy s e log c fx_ticker Hc.
  assert (String.eqb c "CHF" = false) as Hb by now apply String.eqb_neq.
  split; [| split].
  - unfold get_fx_rate_to_chf. fold c. rewrite Hb.
    unfold bind. rewrite MFacts.download_close_run.
    change (fx_ticker_of c) with fx_ticker.
    destruct (close_of w fx_ticker (Period "5d")) as [close |] eqn:E; [| reflexivity].
    destruct (DataFacts.close_of_clean _ _ _ _ E) as [Hne _].
    now rewrite (DataFacts.last_map_Some _ Py.nan (DataFacts.values_nonempty _ Hne)).
  - intros close E.
    destruct (DataFacts.close_of_clean _ _ _ _ E) as [Hne [Hnan _]].
    unfold no_nan in Hnan. rewrite Forall_forall in Hnan. apply Hnan.
    apply DataFacts.last_In. now apply DataFacts.values_nonempty.
  - unfold get_fx_series_to_chf. fold c. rewrite Hb.
    unfold bind. rewrite MFacts.download_close_run.
    change (fx_ticker_of c) with fx_ticker.
    destruct (close_of w fx_ticker (Window s e)); reflexivity.
Qed.

Lemma fx_from_one_download_witness :
  get_fx_rate_to_chf pence_world "GBp" [] =
    (Ok 1.25%float, [Download "GBPCHF=X" (Period "5d")]) /\
  get_fx_series_to_chf pence_world "USD" 9 13 [] =
    (Raised, [Download "USDCHF=X" (Window 9 13)]).
Proof.
  destruct (fx_from_one_download pence_world "GBp" 9 13 []) as [Hrate _];
    [discriminate |].
  destruct (fx_from_one_download pence_world "USD" 9 13 []) as [_ [_ Hseries]];
    [discriminate |].
  split; [exact Hrate | exact Hseries].
Defined.

(** ** The current price *)

(** X5. [get_current_price] raises, without any download, when the metadata
    cannot be read (one request), and when they hold no quote and the
    five-day history is empty, has no closes, or has only missing closes
    (two requests). *)
Theorem current_price_unavailable :
  forall (w : world) (t : string) (log : list request),
    (yf_info w t = None ->
     get_current_price w t log = (Raised, log ++ [Info t])) /\
    (forall info,
        yf_info w t = Some info ->
        Py.or_else (Py.or_else (regularMarketPrice info) (currentPrice info))
                   (previousClose info) = None ->
        yf_history w t = None \/
        (exists col, yf_history w t = Some col /\
                     Forall (fun v => PrimFloat.is_nan v = true) col) ->
        get_current_price w t log = (Raised, log ++ [Info t; History t])).
Proof.
  intros w t log. split.
  - intros H. unfold get_current_price, ticker_info_of, bind, ask. now rewrite H.
  - intros info Hi Hq Hh.
    unfold get_current_price, ticker_info_of, bind, ask. rewrite Hi.
    unfold ret at 1. rewrite Hq. rewrite <- app_assoc. simpl.
    destruct Hh as [-> | [col [-> Hall]]]; [reflexivity |].
    assert (filter (fun v => negb (PrimFloat.is_nan v)) col = []) as ->;
      [| reflexivity].
    induction Hall as [| v l Hv _ IH]; [reflexivity |]. simpl. now rewrite Hv.
Qed.

Lemma current_price_unavailable_witness :
  get_current_price pence_world "NESN.SW" [] = (Raised, [Info "NESN.SW"]) /\
  get_current_price silent_world "X" [] = (Raised, [Info "X"; History "X"]).
Proof.
  split.
  - apply (current_price_unavailable pence_world "NESN.SW" []). reflexivity.
  - destruct (current_price_unavailable silent_world "X" []) as [_ H].
    eapply H.
    + reflexivity.
    + reflexivity.
    + right. exists [Py.nan]. split; [reflexivity |]. repeat constructor.
Defined.

(** X6. When the metadata hold a quote [p] (the first of
    [regularMarketPrice], [currentPrice] that is neither missing nor zero,
    else [previousClose]), [get_current_price] takes [p / 100] when the raw
    currency code is exactly "GBp" and [p] otherwise, and multiplies it by
    the rate of the normalised code: by [1.0] without a download when that
    code is "CHF" or empty, by the last close of "<code>CHF=X" after one
    download otherwise; it raises when that download gives nothing. *)
Theorem current_price_converted :
  forall (w : world) (t : string) (info : ticker_info) (p : float)
         (log : list request),
    yf_info w t = Some info ->
    Py.or_else (Py.or_else (regularMarketPrice info) (currentPrice info))
               (previousClose info) = Some p ->
    let c := _normalize_ccy (currency info) in
    let price := match currency info with
                 | Some raw => if String.eqb raw "GBp" then (p / 100)%float else p
                 | None => p
                 end in
    get_current_price w t log =
      (if String.eqb c "CHF" || negb (Py.nonempty c)
       then (Ok (price * 1)%float, log ++ [Info t])
       else
         (match close_of w (c ++ "CHF=X")%string (Period "5d") with
          | Some close => Ok (price * last (Pd.values close) Py.nan)%float
          | None => Raised
          end, log ++ [Info t; Download (c ++ "CHF=X")%string (Period "5d")])).
Proof.
  intros w t info p log Hi Hq c price.
  unfold get_current_price, ticker_info_of, bind, ask. rewrite Hi.
  unfold ret at 1. rewrite Hq. unfold ret at 1.
  rewrite CcyFacts.pence_scaling. fold price.
  pose proof (CcyFacts.conversion_run w (currency info) price (log ++ [Info t])) as H.
  cbv zeta in H. unfold bind in H. rewrite H. fold c.
  destruct (String.eqb c "CHF" || negb (Py.nonempty c)); [reflexivity |].
  now rewrite <- app_assoc.
Qed.

(** X7. When the metadata hold no quote, [get_current_price] asks for the
    five-day history and converts, in the same way, its last close that has
    a value. *)
Theorem current_price_from_history :
  forall (w : world) (t : string) (info : ticker_info) (col : list float)
         (log : list request),
    yf_info w t = Some info ->
    Py.or_else (Py.or_else (regularMarketPrice info) (currentPrice info))
               (previousClose info) = None ->
    yf_history w t = Some col ->
    Exists (fun v => PrimFloat.is_nan v = false) col ->
    let c := _normalize_ccy (currency info) in
    let p := last (filter (fun v => negb (PrimFloat.is_nan v)) col) Py.nan in
    let price := match currency info with
                 | Some raw => if String.eqb raw "GBp" then (p / 100)%float else p
                 | None => p
                 end in
    PrimFloat.is_nan p = false /\
    get_current_price w t log =
      (if String.eqb c "CHF" || negb (Py.nonempty c)
       then (Ok (price * 1)%float, log ++ [Info t; History t])
       else
         (match close_of w (c ++ "CHF=X")%string (Period "5d") with
          | Some close => Ok (price * last (Pd.values close) Py.nan)%float
          | None => Raised
          end,
          log ++ [Info t; History t; Download (c ++ "CHF=X")%string (Period "5d")])).
Proof.
  intros w t info col log Hi Hq Hh Hex c p price.
  assert (filter (fun v => negb (PrimFloat.is_nan v)) col <> []) as Hne.
  { apply Exists_exists in Hex as [v [Hv Hn]]. intros E.
    assert (In v (filter (fun v => negb (PrimFloat.is_nan v)) col)) as Hin.
    { apply filter_In. split; [assumption | now rewrite Hn]. }
    now rewrite E in Hin. }
  split.
  - pose proof (DataFacts.last_In _ Py.nan Hne) as Hin.
    apply filter_In in Hin as [_ Hin]. now apply negb_true_iff in Hin.
  - unfold get_current_price, ticker_info_of, bind, ask. rewrite Hi.
    unfold ret at 1. rewrite Hq, Hh.
    rewrite (DataFacts.last_map_Some _ Py.nan Hne). fold p.
    unfold ret.
    rewrite CcyFacts.pence_scaling. fold price.
    pose proof (CcyFacts.conversion_run w (currency info) price
                  ((log ++ [Info t]) ++ [History t])) as H.
    cbv zeta in H. unfold bind, ret in H. rewrite H. fold c.
    destruct (String.eqb c "CHF" || negb (Py.nonempty c));
      now rewrite <- !app_assoc.
Qed.

Lemma current_price_from_history_witness :
  get_current_price history_world "X" [] = (Ok (99 * 1)%float, [Info "X"; History "X"]).
Proof.
  assert (Exists (fun v => PrimFloat.is_nan v = false) [98%float; 99%float; Py.nan])
    as Hex by (apply Exists_cons_hd; reflexivity).
  exact (proj2 (current_price_from_history history_world "X"
                  (bare_info (Some "CHF"%string)) [98%float; 99%float; Py.nan] []
                  eq_refl eq_refl eq_refl Hex)).
Defined.

Lemma current_price_converted_witness :
  get_current_price pence_world "VOD.L" [] =
    (Ok (600 / 100 * 1.25)%float, [Info "VOD.L"; Download "GBPCHF=X" (Period "5d")]) /\
  get_current_price swiss_world "NESN.SW" [] = (Ok (120 * 1)%float, [Info "NESN.SW"]).
Proof.
  split.
  - apply (current_price_converted pence_world "VOD.L" vod_info 600%float []);
      reflexivity.
  - apply (current_price_converted swiss_world "NESN.SW"
             {| currency := Some "CHF"%string;
                regularMarketPrice := Some 120%float;
                currentPrice := None;
                previousClose := None;
                firstTradeDateEpochUtc := None;
                firstTradeDateEpochUTC := None;
                longName := Some "Nestle"%string;
                quoteType := Some "EQUITY"%string |} 120%float []);
      reflexivity.
Defined.

(** ** The first price date and the metadata *)

(** X8. [get_first_price_date] never raises. When the metadata give a
    first-trade date it answers that date after one request. Otherwise
    (metadata unreadable, no time stamp or a zero one, or a time stamp that
    does not convert) it downloads the whole price history and answers its
    earliest date, a date of that history that no other date of it
    precedes, or [None] when there is no usable history. *)
Theorem first_price_date_sources :
  forall (w : world) (t : string) (log : list request),
    (forall d, first_trade_date w t = Some d ->
               get_first_price_date w t log = (Ok (Some d), log ++ [Info t])) /\
    (first_trade_date w t = None ->
     exists first,
       get_first_price_date w t log =
         (Ok first, log ++ [Info t; Download t (Period "max")]) /\
       match close_of w t (Period "max") with
       | Some close =>
           exists m, first = Some m /\ In m (Pd.index close) /\
                     Forall (fun d => m <= d) (Pd.index close)
       | None => first = None
       end).
Proof.
  intros w t log. split.
  - intros d Hd. unfold first_trade_date in Hd.
    unfold get_first_price_date, try_except, bind, ask.
    destruct (yf_info w t) as [info |]; [| discriminate]. simpl.
    destruct (Py.or_else_int _ _) as [e |]; [| discriminate].
    destruct (e =? 0); [discriminate |].
    rewrite Hd. reflexivity.
  - intros Hnone. unfold first_trade_date in Hnone.
    assert (exists first,
               download_close w t (Period "max") (log ++ [Info t]) =
                 (Ok (close_of w t (Period "max")),
                  log ++ [Info t; Download t (Period "max")]) /\
               match close_of w t (Period "max") with
               | Some c => match Pd.index c with
                           | [] => ret None
                           | d :: ds => ret (Some (fold_left Z.min ds d))
                           end
               | None => ret None
               end (log ++ [Info t; Download t (Period "max")]) =
                 (Ok first, log ++ [Info t; Download t (Period "max")]) /\
               match close_of w t (Period "max") with
               | Some close =>
                   exists m, first = Some m /\ In m (Pd.index close) /\
                             Forall (fun d => m <= d) (Pd.index close)
               | None => first = None
               end) as [first [Hdl [Hrun Hprop]]].
    { rewrite MFacts.download_close_run, <- app_assoc. simpl.
      destruct (close_of w t (Period "max")) as [close |] eqn:E.
      - destruct (DataFacts.close_of_clean _ _ _ _ E) as [Hne _].
        destruct (Pd.index close) as [| d ds] eqn:Ei.
        { destruct close; [congruence | discriminate]. }
        eexists. split; [reflexivity |]. split; [reflexivity |].
        exists (fold_left Z.min ds d). split; [reflexivity |]. split.
        + apply DataFacts.fold_left_min_In.
        + destruct (DataFacts.fold_left_min_le ds d) as [H1 H2].
          constructor; assumption.
      - eexists. split; [reflexivity |]. split; reflexivity. }
    exists first. split; [| exact Hprop].
    unfold get_first_price_date, try_except, bind, ask.
    unfold bind in Hdl, Hrun.
    destruct (yf_info w t) as [info |]; simpl.
    + destruct (Py.or_else_int _ _) as [e |]; simpl.
      * destruct (e =? 0); simpl.
        -- fold (close_of w t (Period "max")). rewrite <- app_assoc. exact Hrun.
        -- rewrite Hnone. simpl.
           fold (close_of w t (Period "max")). rewrite <- app_assoc. exact Hrun.
      * fold (close_of w t (Period "max")). rewrite <- app_assoc. exact Hrun.
    + fold (close_of w t (Period "max")). rewrite <- app_assoc. exact Hrun.
Qed.

Lemma first_price_date_sources_witness :
  get_first_price_date dollar_world "SPY" [] = (Ok (Some 3), [Info "SPY"]) /\
  exists first,
    get_first_price_date pence_world "VOD.L" [] =
      (Ok first, [Info "VOD.L"; Download "VOD.L" (Period "max")]) /\
    match close_of pence_world "VOD.L" (Period "max") with
    | Some close =>
        exists m, first = Some m /\ In m (Pd.index close) /\
                  Forall (fun d => m <= d) (Pd.index close)
    | None => first = None
    end.
Proof.
  split.
  - apply (proj1 (first_price_date_sources dollar_world "SPY" []) 3). reflexivity.
  - apply (proj2 (first_price_date_sources pence_world "VOD.L" [])). reflexivity.
Defined.

(** X9. [get_ticker_currency], [get_ticker_name] and [get_asset_type] never
    raise and send exactly one request each. When the metadata cannot be
    read they answer "CHF", [None] and "Unknown"; the asset type is always
    one of "Stock", "ETF", "Fund", "Crypto", "Index", "Other" and "Unknown",
    and it is "Unknown" only when the metadata cannot be read. *)
Theorem metadata_best_effort :
  forall (w : world) (t : string) (log : list request),
    exists (ccy : string) (name : option string) (type : string),
      get_ticker_currency w t log = (Ok ccy, log ++ [Info t]) /\
      get_ticker_name w t log = (Ok name, log ++ [Info t]) /\
      get_asset_type w t log = (Ok type, log ++ [Info t]) /\
      In type ["Stock"; "ETF"; "Fund"; "Crypto"; "Index"; "Other"; "Unknown"]%string /\
      (yf_info w t = None ->
       ccy = "CHF"%string /\ name = None /\ type = "Unknown"%string) /\
      (type = "Unknown"%string -> yf_info w t = None).
Proof.
  intros w t log.
  unfold get_ticker_currency, get_ticker_name, get_asset_type, try_except,
    ticker_info_of, bind, ask.
  destruct (yf_info w t) as [info |]; simpl.
  - do 3 eexists. repeat (split; [reflexivity |]).
    destruct (quoteType info) as [q |]; simpl.
    + destruct (String.eqb q "EQUITY"); [simpl; intuition discriminate |].
      destruct (String.eqb q "ETF"); [simpl; intuition discriminate |].
      destruct (String.eqb q "MUTUALFUND"); [simpl; intuition discriminate |].
      destruct (String.eqb q "CRYPTOCURRENCY"); [simpl; intuition discriminate |].
      destruct (String.eqb q "INDEX"); simpl; intuition discriminate.
    + simpl; intuition discriminate.
  - do 3 eexists. repeat (split; [reflexivity |]).
    simpl. intuition.
Qed.

(** ** The download window and the value series *)

Module SeriesFacts.
Import Pd PdFacts.

Lemma purchase_dates_In (assets : list asset) (p : Z) :
  In p (flat_map (fun a => match purchase_date a with
                           | Some d => [d]
                           | None => []
                           end) assets) <->
  exists a, In a assets /\ purchase_date a = Some p.
Proof.
  rewrite in_flat_map. split; intros [a [Ha H]]; exists a; split; try assumption.
  - destruct (purchase_date a) as [d |]; [| destruct H].
    destruct H as [-> | []]. reflexivity.
  - rewrite H. now left.
Qed.

(** Every row of [loc_set s d v] is the new row or a row of [s]. *)
Lemma loc_set_In_inv (s : Series) (d : Z) (v : float) (e : Z * float) :
  In e (loc_set s d v) -> e = (d, v) \/ In e s.
Proof.
  intros H. destruct (Z.eq_dec (fst e) d) as [E | E].
  - left. destruct e as [d' x]. simpl in E. subst d'.
    f_equal. now apply (Valuation.loc_set_value s d v x).
  - right. now apply (Valuation.loc_set_other s d v e E).
Qed.

Lemma anchor_from_purchase (a : asset) (sh : float) (value : Series) (p : Z) :
  purchase_date a = Some p -> Forall (fun d => p <= d) (index (anchor a sh value)).
Proof.
  intros Hp. apply Forall_forall. intros d Hd.
  apply in_map_iff in Hd as [e [<- He]].
  unfold anchor in He. rewrite Hp in He.
  destruct (0 <? to_float (Some (price a)) 0)%float.
  - apply (proj1 (sort_index_In _ _)) in He.
    apply loc_set_In_inv in He as [-> | He]; [simpl; lia |].
    now apply Valuation.from_date_In in He.
  - now apply Valuation.from_date_In in He.
Qed.

Lemma scale_In_iff (s : Series) (k : float) (d : Z) (v : float) :
  In (d, v) (scale s k) <-> exists x, In (d, x) s /\ v = (x * k)%float.
Proof.
  unfold scale. rewrite in_map_iff. split.
  - intros [[d' x] [E H]]. simpl in E. injection E as Ed Ev. subst d' v.
    now exists x.
  - intros [x [H ->]]. now exists (d, x).
Qed.

(** After the purchase date [anchor] changes nothing. *)
Lemma anchor_after (a : asset) (sh : float) (value : Series) (p d : Z) (v : float) :
  purchase_date a = Some p -> p < d ->
  (In (d, v) (anchor a sh value) <-> In (d, v) value).
Proof.
  intros Hp Hlt. split; [| now apply FxFacts.anchor_keeps with (p := p)].
  unfold anchor. rewrite Hp.
  destruct (0 <? to_float (Some (price a)) 0)%float.
  - intros H. apply (proj1 (sort_index_In _ _)) in H.
    apply loc_set_In_inv in H as [E | H]; [injection E; lia |].
    now apply Valuation.from_date_In in H.
  - intros H. now apply Valuation.from_date_In in H.
Qed.

(** The cell the aligned, forward-filled FX series gives to a price row whose
    date has an FX value. *)
Lemma mul_ffill_at (fx close : Series) (last : float) (d : Z) (x r : float) :
  In (d, x) close -> lookup d fx = Some r -> PrimFloat.is_nan r = false ->
  In (d, (x * r)%float) (mul close (ffill_from last (reindex fx (index close)))).
Proof.
  intros Hin Hl Hr. revert last.
  induction close as [| [d0 x0] rest IH]; intros last; [destruct Hin |].
  unfold mul, reindex. simpl.
  destruct Hin as [E | Hin].
  - injection E as -> ->. left. rewrite Hl, Hr. reflexivity.
  - right. apply IH. assumption.
Qed.

(** The cell given to a price row without FX value that follows a row with
    one. *)
Lemma mul_ffill_next (fx pre post : Series) (last : float) (d1 d2 : Z)
    (x1 x2 r : float) :
  lookup d1 fx = Some r -> PrimFloat.is_nan r = false -> lookup d2 fx = None ->
  In (d2, (x2 * r)%float)
     (mul (pre ++ (d1, x1) :: (d2, x2) :: post)
          (ffill_from last (reindex fx (index (pre ++ (d1, x1) :: (d2, x2) :: post))))).
Proof.
  intros H1 Hr H2. revert last.
  induction pre as [| [d0 x0] pre IH]; intros last.
  - unfold mul, reindex. simpl. rewrite H1, Hr, H2, FxFacts.is_nan_nan.
    right. left. reflexivity.
  - unfold mul, reindex. simpl. right. apply IH.
Qed.

End SeriesFacts.

(** X10. The download window of [update_total_worth_graph] starts at the
    earliest purchase date of the holdings: a purchase date of one of them
    that no other precedes, the holdings without shares included; it starts
    365 days before today when no holding has a purchase date. It ends the
    day after today. *)
Theorem window_starts_at_earliest_purchase :
  forall (today : Z) (assets : list asset),
    (forall a p, In a assets -> purchase_date a = Some p ->
                 start_date_of today assets <= p) /\
    ((exists a p, In a assets /\ purchase_date a = Some p) ->
     exists a, In a assets /\ purchase_date a = Some (start_date_of today assets)) /\
    ((forall a, In a assets -> purchase_date a = None) ->
     start_date_of today assets = today - 365) /\
    end_date_of today = today + 1.
Proof.
  intros today assets. unfold start_date_of.
  pose proof (SeriesFacts.purchase_dates_In assets) as Hin.
  destruct (flat_map _ assets) as [| d ds] eqn:E.
  - split; [| split; [| split]]; try reflexivity.
    + intros a p Ha Hp. exfalso. apply (proj2 (Hin p)). now exists a.
    + intros [a [p [Ha Hp]]]. exfalso. apply (proj2 (Hin p)). now exists a.
  - destruct (DataFacts.fold_left_min_le ds d) as [H1 H2].
    split; [| split; [| split]]; try reflexivity.
    + intros a p Ha Hp.
      assert (In p (d :: ds)) as [<- | Hp'] by (apply Hin; now exists a);
        [assumption |].
      rewrite Forall_forall in H2. now apply H2.
    + intros _. apply Hin. apply DataFacts.fold_left_min_In.
    + intros Hnone. destruct (proj1 (Hin d) (or_introl eq_refl)) as [a [Ha Hp]].
      rewrite (Hnone a Ha) in Hp. discriminate.
Qed.

(** X11. No value series appended by the loop of [update_total_worth_graph]
    for a holding with a purchase date has a row dated before it. *)
Theorem value_series_starts_at_purchase :
  forall (w : world) (s e : Z) (a : asset) (p : Z) (log log' : list request)
         (value : Pd.Series),
    purchase_date a = Some p ->
    holding_series w s e a log = (Ok (Some value), log') ->
    Forall (fun d => p <= d) (Pd.index value).
Proof.
  intros w s e a p log log' value Hp Hrun.
  apply Valuation.holding_series_shape in Hrun as [v0 ->].
  now apply SeriesFacts.anchor_from_purchase.
Qed.

Lemma value_series_starts_at_purchase_witness :
  Forall (fun d => 9 <= d) (Pd.index [(9, 8%float); (10, Py.nan); (11, 1500%float)]).
Proof.
  apply (value_series_starts_at_purchase pence_world 9 13 vod 9 []
           [Download "VOD.L" (Window 9 13); Info "VOD.L";
            Download "GBPCHF=X" (Window 9 13)]);
    reflexivity.
Defined.

(** X12. For a holding quoted in CHF, with shares and a purchase price that
    are positive, whose price history is retrieved, the value series has,
    after the purchase date, exactly the rows of the price history, each
    close multiplied by the shares. *)
Theorem chf_values_are_close_times_shares :
  forall (w : world) (s e : Z) (a : asset) (p : Z) (close : Pd.Series)
         (log : list request),
    Py.nonempty (ticker a) = true ->
    (0 <? shares a)%float = true ->
    (0 <? price a)%float = true ->
    purchase_date a = Some p ->
    close_of w (ticker a) (Window s e) = Some close ->
    asset_currency w (ticker a) = "CHF"%string ->
    exists value,
      holding_series w s e a log =
        (Ok (Some value), log ++ [Download (ticker a) (Window s e); Info (ticker a)]) /\
      forall d v, p < d ->
                  (In (d, v) value <->
                   exists x, In (d, x) close /\ v = (x * shares a)%float).
Proof.
  intros w s e a p close log Ht Hsh Hpr Hp Hc Hccy.
  apply FloatFacts.ltb_0_leb in Hsh.
  exists (anchor a (shares a) (Pd.scale close (shares a))). split.
  - unfold holding_series, to_float. rewrite Ht, Hsh. simpl.
    unfold bind. rewrite MFacts.download_close_run, Hc.
    rewrite MFacts.get_ticker_currency_run, Hccy. simpl.
    pose proof (Valuation.anchor_nonempty a (shares a) (Pd.scale close (shares a))
                  p Hp Hpr) as Hne.
    rewrite <- app_assoc. simpl.
    destruct (anchor a (shares a) (Pd.scale close (shares a)));
      [contradiction | reflexivity].
  - intros d v Hlt. rewrite (SeriesFacts.anchor_after a _ _ p d v Hp Hlt).
    apply SeriesFacts.scale_In_iff.
Qed.

Lemma chf_values_are_close_times_shares_witness :
  exists value,
    holding_series swiss_world 10 15 nesn [] =
      (Ok (Some value), [Download "NESN.SW" (Window 10 15); Info "NESN.SW"]) /\
    forall d v, 10 < d ->
                (In (d, v) value <->
                 exists x, In (d, x) [(10, 100%float); (11, 110%float); (12, 120%float)] /\
                           v = (x * shares nesn)%float).
Proof.
  apply (chf_values_are_close_times_shares swiss_world 10 15 nesn 10
           [(10, 100%float); (11, 110%float); (12, 120%float)] []);
    reflexivity.
Defined.

(** X13. The conversion of a price series with an FX series keeps the dates
    of the price series. A price at a date with an FX value is multiplied by
    that value; a price without one that follows a price with one is
    multiplied by the value of the preceding price date (forward fill). The
    result depends on the FX series only through its values at the price
    dates: FX values of other days are never used. *)
Theorem fx_alignment :
  forall close fx : Pd.Series,
    Pd.index (to_chf close fx) = Pd.index close /\
    (forall d x r,
        In (d, x) close -> Pd.lookup d fx = Some r -> PrimFloat.is_nan r = false ->
        In (d, (x * r)%float) (to_chf close fx)) /\
    (forall pre post d1 x1 d2 x2 r,
        close = pre ++ (d1, x1) :: (d2, x2) :: post ->
        Pd.lookup d1 fx = Some r -> PrimFloat.is_nan r = false ->
        Pd.lookup d2 fx = None ->
        In (d2, (x2 * r)%float) (to_chf close fx)) /\
    (forall fx' : Pd.Series,
        (forall d, In d (Pd.index close) -> Pd.lookup d fx' = Pd.lookup d fx) ->
        to_chf close fx' = to_chf close fx).
Proof.
  intros close fx. split; [apply TotalFacts.index_to_chf |].
  split; [| split].
  - intros d x r Hin Hl Hr. now apply SeriesFacts.mul_ffill_at.
  - intros pre post d1 x1 d2 x2 r -> H1 Hr H2.
    now apply SeriesFacts.mul_ffill_next.
  - intros fx' H. unfold to_chf. f_equal. f_equal. unfold Pd.reindex.
    apply map_ext_in. intros d Hd. now rewrite (H d Hd).
Qed.

(** ** Failures while the chart is recomputed *)

Module EngineFacts.

(** The answer and the requests of [get_fx_series_to_chf]. *)
Lemma fx_series_run w ccy s e log :
  get_fx_series_to_chf w ccy s e log =
    (match fx_series w ccy s e with Some fx => Ok fx | None => Raised end,
     if String.eqb (_normalize_ccy (Some ccy)) "CHF" then log
     else log ++ [Download (fx_ticker_of (_normalize_ccy (Some ccy))) (Window s e)]).
Proof.
  unfold get_fx_series_to_chf, fx_series.
  destruct (String.eqb (_normalize_ccy (Some ccy)) "CHF"); [reflexivity |].
  unfold bind. rewrite MFacts.download_close_run.
  destruct (close_of w _ (Window s e)); reflexivity.
Qed.

(** The requests of the loop body for one holding: at most three. *)
Lemma holding_series_requests w s e a log :
  exists reqs,
    snd (holding_series w s e a log) = log ++ reqs /\ (List.length reqs <= 3)%nat.
Proof.
  unfold holding_series, to_float.
  destruct (negb (Py.nonempty (ticker a)));
    [exists []; split; [symmetry; apply app_nil_r | simpl; lia] |].
  destruct (shares a <=? 0)%float;
    [exists []; split; [symmetry; apply app_nil_r | simpl; lia] |].
  unfold bind. rewrite MFacts.download_close_run.
  destruct (close_of w (ticker a) (Window s e)) as [close |];
    [| exists [Download (ticker a) (Window s e)]; split; [reflexivity | simpl; lia]].
  rewrite MFacts.get_ticker_currency_run.
  destruct (negb (String.eqb (asset_currency w (ticker a)) "CHF")).
  - rewrite fx_series_run.
    destruct (String.eqb (_normalize_ccy (Some (asset_currency w (ticker a)))) "CHF").
    + exists [Download (ticker a) (Window s e); Info (ticker a)].
      split; [| simpl; lia]. rewrite <- app_assoc.
      destruct (fx_series w _ s e); [| reflexivity]. unfold ret.
      destruct (anchor a (shares a) _); reflexivity.
    + eexists [Download (ticker a) (Window s e); Info (ticker a); Download _ (Window s e)].
      split; [| simpl; lia]. rewrite <- !app_assoc.
      destruct (fx_series w _ s e); [| reflexivity]. unfold ret.
      destruct (anchor a (shares a) _); reflexivity.
  - exists [Download (ticker a) (Window s e); Info (ticker a)].
    split; [| simpl; lia]. rewrite <- app_assoc. unfold ret.
    destruct (anchor a (shares a) _); reflexivity.
Qed.

Lemma series_list_of_requests w s e assets log :
  exists reqs,
    snd (series_list_of w s e assets log) = log ++ reqs /\
    (List.length reqs <= 3 * List.length assets)%nat.
Proof.
  revert log. induction assets as [| a rest IH]; intros log.
  - exists []. split; [symmetry; apply app_nil_r | simpl; lia].
  - simpl series_list_of. unfold bind.
    destruct (holding_series_requests w s e a log) as [r1 [H1 L1]].
    destruct (holding_series w s e a log) as [[v |] log1]; simpl in H1; subst log1.
    + destruct (IH (log ++ r1)) as [r2 [H2 L2]].
      destruct (series_list_of w s e rest (log ++ r1)) as [[l |] log2];
        simpl in H2; subst log2; exists (r1 ++ r2);
        (split; [simpl; now rewrite app_assoc | rewrite length_app; simpl; lia]).
    + exists r1. split; [reflexivity | simpl; lia].
Qed.

(** The loop body raises for a holding whose prices are retrieved and whose
    FX series is not. *)
Lemma holding_series_raises w s e a close log :
  Py.nonempty (ticker a) = true -> (shares a <=? 0)%float = false ->
  close_of w (ticker a) (Window s e) = Some close ->
  fx_fails w (ticker a) s e = true ->
  exists log', holding_series w s e a log = (Raised, log').
Proof.
  intros Ht Hs Hc Hfx. unfold fx_fails in Hfx.
  apply andb_prop in Hfx as [Hccy Hnone].
  unfold holding_series, to_float. rewrite Ht, Hs. simpl.
  unfold bind. rewrite MFacts.download_close_run, Hc.
  rewrite MFacts.get_ticker_currency_run, Hccy, fx_series_run.
  destruct (fx_series w (asset_currency w (ticker a)) s e); [discriminate |].
  eexists. reflexivity.
Qed.

(** The loop raises as soon as the body raises for one of the holdings. *)
Lemma series_list_of_raises w s e assets a :
  In a assets ->
  (forall log, exists log', holding_series w s e a log = (Raised, log')) ->
  forall log, exists log', series_list_of w s e assets log = (Raised, log').
Proof.
  intros Hin Hr. induction assets as [| b rest IH]; [destruct Hin |].
  intros log. simpl series_list_of. unfold bind.
  destruct Hin as [-> | Hin].
  - destruct (Hr log) as [log' ->]. now exists log'.
  - destruct (holding_series w s e b log) as [[v |] log1]; [| now exists log1].
    destruct (IH Hin log1) as [log' ->]. now exists log'.
Qed.

(** The loop appends nothing when every holding is skipped or has no price
    history. *)
Lemma series_list_of_empty w s e assets :
  (forall a, In a assets ->
             Py.nonempty (ticker a) = false \/ (shares a <=? 0)%float = true \/
             close_of w (ticker a) (Window s e) = None) ->
  forall log, exists log', series_list_of w s e assets log = (Ok [], log').
Proof.
  induction assets as [| a rest IH]; intros H log; [now exists log |].
  simpl series_list_of. unfold bind.
  assert (exists log1, holding_series w s e a log = (Ok None, log1)) as [log1 ->].
  { unfold holding_series, to_float.
    destruct (H a (or_introl eq_refl)) as [Ht | [Hs | Hc]].
    - rewrite Ht. now exists log.
    - rewrite Hs. destruct (negb (Py.nonempty (ticker a))); now exists log.
    - destruct (negb (Py.nonempty (ticker a))); [now exists log |].
      destruct (shares a <=? 0)%float; [now exists log |].
      unfold bind. rewrite MFacts.download_close_run, Hc. eexists. reflexivity. }
  destruct (IH (fun b Hb => H b (or_intror Hb)) log1) as [log' ->].
  now exists log'.
Qed.

End EngineFacts.

(** X14. When, for one of the holdings, the price history is retrieved but
    the FX series of its currency is not, [update_total_worth_graph] raises:
    the error of [get_fx_series_to_chf] is not caught, whatever the other
    holdings are, and no chart is drawn. *)
Theorem fx_failure_aborts_update :
  forall (w : world) (today : Z) (assets : list asset) (a : asset)
         (close : Pd.Series) (page : chart) (log : list request),
    In a assets ->
    Py.nonempty (ticker a) = true ->
    (0 <? shares a)%float = true ->
    close_of w (ticker a) (Window (start_date_of today assets) (end_date_of today)) =
      Some close ->
    fx_fails w (ticker a) (start_date_of today assets) (end_date_of today) = true ->
    exists log', update_total_worth_graph w today assets page log = (Raised, log').
Proof.
  intros w today assets a close page log Hin Ht Hs Hc Hfx.
  apply FloatFacts.ltb_0_leb in Hs.
  destruct (EngineFacts.series_list_of_raises w _ _ assets a Hin
              (fun l => EngineFacts.holding_series_raises w _ _ a close l Ht Hs Hc Hfx) log)
    as [log' Hrun].
  exists log'. unfold update_total_worth_graph.
  destruct assets as [| b rest]; [destruct Hin |].
  unfold total_series, bind. now rewrite Hrun.
Qed.

Lemma fx_failure_aborts_update_witness :
  exists log',
    update_total_worth_graph dollar_world 12 [nesn; spy] initial_chart [] = (Raised, log').
Proof.
  apply (fx_failure_aborts_update dollar_world 12 [nesn; spy] spy
           [(10, 40%float); (11, 50%float)] initial_chart []).
  - right. now left.
  - reflexivity.
  - reflexivity.
  - reflexivity.
  - reflexivity.
Defined.

(** X15. When no holding yields a value series (the list is empty, or every
    holding has no ticker, no positive shares or no retrievable price
    history), [update_total_worth_graph] does not raise: it resets the page,
    with the total "CHF 0.00", the gain and profit texts cleared, no point,
    the bounds [0, 1] on both axes and no label. *)
Theorem no_series_resets_page :
  forall (w : world) (today : Z) (assets : list asset) (page : chart)
         (log : list request),
    (forall a, In a assets ->
               Py.nonempty (ticker a) = false \/ (shares a <=? 0)%float = true \/
               close_of w (ticker a)
                 (Window (start_date_of today assets) (end_date_of today)) = None) ->
    exists c log',
      update_total_worth_graph w today assets page log = (Ok c, log') /\
      c = reset_total_worth true page /\
      total_worth_value_text c = "CHF 0.00"%string /\
      total_gain_pct_text c = ""%string /\ total_profit_text c = ""%string /\
      data_points c = [] /\ y_axis_labels c = [] /\ x_axis_label_dates c = [] /\
      (min_x c, max_x c, min_y c, max_y c) = (0, 1, 0%float, 1%float).
Proof.
  intros w today assets page log H.
  destruct (EngineFacts.series_list_of_empty w _ _ assets H log) as [log' Hrun].
  exists (reset_total_worth true page).
  unfold update_total_worth_graph. destruct assets as [| b rest].
  - exists log. repeat split.
  - exists log'. unfold total_series, bind. rewrite Hrun. repeat split.
Qed.

Lemma no_series_resets_page_witness :
  exists c log',
    update_total_worth_graph silent_world 12 [vod; nesn] initial_chart [] = (Ok c, log') /\
    c = reset_total_worth true initial_chart /\
    total_worth_value_text c = "CHF 0.00"%string /\
    total_gain_pct_text c = ""%string /\ total_profit_text c = ""%string /\
    data_points c = [] /\ y_axis_labels c = [] /\ x_axis_label_dates c = [] /\
    (min_x c, max_x c, min_y c, max_y c) = (0, 1, 0%float, 1%float).
Proof.
  apply (no_series_resets_page silent_world 12 [vod; nesn] initial_chart []).
  intros a Ha. right. right. reflexivity.
Defined.

(** X16. [update_total_worth_graph] sends at most three requests per
    holding (price history, metadata, FX series), each once: there is no
    retry. A holding without ticker or without positive shares costs no
    request. *)
Theorem at_most_three_requests_per_holding :
  forall (w : world) (today : Z) (assets : list asset) (page : chart)
         (log : list request),
    (exists reqs,
        snd (update_total_worth_graph w today assets page log) = log ++ reqs /\
        (List.length reqs <= 3 * List.length assets)%nat) /\
    (forall s e a,
        Py.nonempty (ticker a) = false \/ (shares a <=? 0)%float = true ->
        holding_series w s e a log = (Ok None, log)).
Proof.
  intros w today assets page log. split.
  - unfold update_total_worth_graph.
    destruct assets as [| b rest];
      [exists []; split; [symmetry; apply app_nil_r | simpl; lia] |].
    destruct (EngineFacts.series_list_of_requests w
                (start_date_of today (b :: rest)) (end_date_of today) (b :: rest) log)
      as [reqs [Hr Hl]].
    exists reqs. split; [| exact Hl].
    unfold total_series, bind.
    destruct (series_list_of w _ _ (b :: rest) log) as [[ss |] log1];
      simpl in Hr; subst log1; [| reflexivity].
    destruct ss as [| s0 ss']; [reflexivity |].
    destruct (with_today today (b :: rest) (combine_series (s0 :: ss'))); reflexivity.
  - intros s e a [Ht | Hs]; unfold holding_series, to_float.
    + now rewrite Ht.
    + rewrite Hs. now destruct (negb (Py.nonempty (ticker a))).
Qed.

(** ** The chart *)

Module ChartFacts.
Import Pd.

Lemma py_range_length (n : nat) : List.length (py_range n) = n.
Proof. unfold py_range. now rewrite length_map, length_seq. Qed.

Lemma py_range_nth (n i : nat) : (i < n)%nat -> nth i (py_range n) 0 = Z.of_nat i.
Proof.
  intros H. unfold py_range.
  change 0 with (Z.of_nat 0). rewrite map_nth, seq_nth by assumption. reflexivity.
Qed.

Lemma fold_left_max_In (ds : list Z) (d : Z) : In (fold_left Z.max ds d) (d :: ds).
Proof.
  revert d. induction ds as [| x ds IH]; intros d; simpl; [now left |].
  destruct (IH (Z.max d x)) as [H | H]; [| auto].
  destruct (Z.max_spec d x) as [[_ E] | [_ E]]; rewrite E in H |- *; auto.
Qed.

Lemma index_max_In (s : Series) (m : Z) : index_max s = Some m -> In m (index s).
Proof.
  unfold index_max. destruct (index s) as [| d ds]; [discriminate |].
  intros [= <-]. apply fold_left_max_In.
Qed.

(** In a strictly ascending list the last element is the greatest. *)
Lemma sorted_last_ge (l : list Z) :
  StronglySorted Z.lt l -> forall d, In d l -> d <= last l 0.
Proof.
  induction 1 as [| x l Hs IH Hx]; intros d Hin; [destruct Hin |].
  destruct l as [| y l'].
  - destruct Hin as [<- | []]. simpl. lia.
  - change (last (x :: y :: l') 0) with (last (y :: l') 0).
    destruct Hin as [<- | Hin]; [| now apply IH].
    inversion Hx as [| ? ? Hxy _]; subst.
    specialize (IH y (or_introl eq_refl)). lia.
Qed.

(** The summary loop and the loop for today's value add the same terms when
    no holding is dated after today. *)
Lemma today_fold_is_current_fold today (assets : list asset) (tc acc : float) :
  Forall (fun a => match purchase_date a with
                   | Some p => p <= today
                   | None => True
                   end) assets ->
  fold_left
    (fun latest_total a =>
       let shares := to_float (Some (shares a)) 0 in
       if (shares <=? 0)%float then latest_total
       else if match purchase_date a with
               | Some pdate => today <? pdate
               | None => false
               end then latest_total
       else
         let current_price := to_float (Some (current_price a)) 0 in
         (latest_total + shares * current_price)%float)
    assets acc =
  snd (fold_left
         (fun totals a =>
            let shares := to_float (Some (shares a)) 0 in
            if (shares <=? 0)%float then totals
            else
              let purchase_price := to_float (Some (price a)) 0 in
              let current_price := to_float (Some (current_price a)) 0 in
              ((fst totals + shares * purchase_price)%float,
               (snd totals + shares * current_price)%float))
         assets (tc, acc)).
Proof.
  intros H. revert tc acc. induction H as [| a l Ha _ IH]; intros tc acc;
    [reflexivity |].
  simpl. destruct (shares a <=? 0)%float; [apply IH |].
  destruct (purchase_date a) as [p |]; [| apply IH].
  assert ((today <? p) = false) as -> by (apply Z.ltb_ge; exact Ha).
  apply IH.
Qed.

End ChartFacts.

(** X17. The chart drawn from a total series has one point per row: the
    point of rank [i] has the abscissa [i] (not the date) and the value of
    the row of rank [i]; the x axis runs from 0 to [max(1, n - 1)], and the
    total shown is the value of the last row. *)
Theorem chart_points_are_indexed :
  forall (assets : list asset) (total : Pd.Series),
    let c := draw assets total in
    let n := List.length total in
    List.length (data_points c) = n /\
    (forall i, (i < n)%nat ->
               nth i (data_points c) (0, 0%float) =
                 (Z.of_nat i, nth i (Pd.values total) 0%float)) /\
    min_x c = 0 /\ max_x c = Z.max 1 (Z.of_nat n - 1) /\
    total_worth_value_text c =
      ("CHF " ++ Fmt.fixed2 true (last (Pd.values total) 0%float))%string.
Proof.
  intros assets total c n. subst c. unfold draw. cbn [data_points min_x max_x
    total_worth_value_text].
  assert (List.length (Pd.values total) = n) as Hlen
    by (unfold Pd.values; apply length_map).
  rewrite Hlen. split; [| split; [| repeat split]].
  - rewrite length_combine, ChartFacts.py_range_length, Hlen. apply Nat.min_id.
  - intros i Hi. rewrite combine_nth
      by (now rewrite ChartFacts.py_range_length, Hlen).
    now rewrite ChartFacts.py_range_nth.
Qed.

(** X18. When no holding is dated after today, the value computed for
    today's point of the total series is the [total_current] of the summary:
    the same sum of [shares * current_price], in the same order. *)
Theorem today_value_is_total_current :
  forall (today : Z) (assets : list asset),
    Forall (fun a => match purchase_date a with
                     | Some p => p <= today
                     | None => True
                     end) assets ->
    latest_total_of today assets = snd (summary_totals assets).
Proof.
  intros today assets H. unfold latest_total_of, summary_totals.
  now apply ChartFacts.today_fold_is_current_fold.
Qed.

Lemma today_value_is_total_current_witness :
  latest_total_of 12 [vod; nesn] = snd (summary_totals [vod; nesn]).
Proof.
  apply (today_value_is_total_current 12 [vod; nesn]).
  repeat constructor; simpl; lia.
Defined.

(** X19. Every total series produced by [update_total_worth_graph] reaches
    today: its last date, the greatest one, is today or later. *)
Theorem total_series_reaches_today :
  forall (w : world) (today : Z) (assets : list asset) (log log' : list request)
         (total : Pd.Series),
    total_series w today assets log = (Ok (Some total), log') ->
    today <= last (Pd.index total) 0 /\
    Forall (fun d => d <= last (Pd.index total) 0) (Pd.index total).
Proof.
  intros w today assets log log' total Hrun.
  pose proof (TotalFacts.total_series_strict _ _ _ _ _ _ Hrun) as Hs.
  split.
  - unfold total_series, bind in Hrun.
    destruct (series_list_of w _ _ assets log) as [[ss |] log1]; [| discriminate].
    destruct ss as [| s0 ss']; [discriminate |].
    assert (with_today today assets (combine_series (s0 :: ss')) = total /\
            total <> []) as [E Hne].
    { destruct (with_today today assets (combine_series (s0 :: ss')));
        [discriminate |].
      unfold ret in Hrun. injection Hrun as <- _. split; [reflexivity | discriminate]. }
    clear Hrun. unfold with_today in E.
    destruct (Pd.index_max (combine_series (s0 :: ss'))) as [latest |] eqn:Hm.
    + destruct (latest <? today) eqn:Hb.
      * apply ChartFacts.sorted_last_ge; [assumption |]. rewrite <- E.
        apply (in_map fst _ (today, latest_total_of today assets)).
        apply (proj2 (PdFacts.sort_index_In _ _)), Valuation.loc_set_In.
      * apply Z.ltb_ge in Hb. subst total.
        pose proof (ChartFacts.sorted_last_ge _ Hs latest
                      (ChartFacts.index_max_In _ _ Hm)). lia.
    + exfalso. apply Hne. subst total. unfold Pd.index_max in Hm.
      destruct (combine_series (s0 :: ss')); [reflexivity | discriminate].
  - apply Forall_forall. intros d Hd. now apply ChartFacts.sorted_last_ge.
Qed.

Lemma total_series_reaches_today_witness :
  14 <= last (Pd.index [(10, 270%float); (11, 330%float); (12, 360%float); (14, 360%float)]) 0 /\
  Forall (fun d => d <= last (Pd.index [(10, 270%float); (11, 330%float);
                                         (12, 360%float); (14, 360%float)]) 0)
         (Pd.index [(10, 270%float); (11, 330%float); (12, 360%float); (14, 360%float)]).
Proof.
  apply (total_series_reaches_today swiss_world 14 [nesn] []
           [Download "NESN.SW" (Window 10 15); Info "NESN.SW"]).
  vm_compute. reflexivity.
Defined.

(** ** The x-axis labels *)

Module LabelFacts.

(** Checked by evaluation for every span up to ten years. *)
Lemma offsets_checked : forallb offsets_ok (py_range 3661) = true.
Proof. vm_compute. reflexivity. Qed.

Lemma offsets_ok_upto (total_days : Z) :
  0 <= total_days <= 3660 -> offsets_ok total_days = true.
Proof.
  intros H. pose proof offsets_checked as Hall.
  rewrite forallb_forall in Hall. apply Hall.
  unfold py_range. apply in_map_iff. exists (Z.to_nat total_days).
  split; [lia |]. apply in_seq. lia.
Qed.

Lemma day_offset_first (total_days : Z) : day_offset total_days 0 7 = 0.
Proof. unfold day_offset. rewrite Z.mul_0_r. reflexivity. Qed.

End LabelFacts.

(** X20. The x axis shows one label for a series with a single date and
    exactly eight labels for a longer one, the first being the first date.
    For a series that spans at most 3660 days the last label is the last
    date and the labels never go back in time. *)
Theorem x_labels_span_the_series :
  (forall d : Z, x_label_dates [d] = [d]) /\
  (forall (first second : Z) (rest : list Z),
      let dates := first :: second :: rest in
      let last_date := last dates first in
      List.length (x_label_dates dates) = 8%nat /\
      hd 0 (x_label_dates dates) = first /\
      (0 <= last_date - first <= 3660 ->
       last (x_label_dates dates) 0 = last_date /\
       nondecreasing (x_label_dates dates) = true)).
Proof.
  split; [reflexivity |].
  intros first second rest dates last_date.
  assert (x_label_dates dates =
            map (fun i => first + day_offset (last_date - first) i (x_labels_count - 1))
                (py_range (Z.to_nat x_labels_count))) as E by reflexivity.
  rewrite E. clear E. split; [reflexivity |]. split.
  - change (first + day_offset (last_date - first) 0 7 = first).
    rewrite LabelFacts.day_offset_first. lia.
  - intros Hspan. pose proof (LabelFacts.offsets_ok_upto _ Hspan) as Hok.
    unfold offsets_ok in Hok.
    set (td := last_date - first) in *.
    set (o := fun i => day_offset td i (x_labels_count - 1)) in *.
    change (map (fun i => first + day_offset td i (x_labels_count - 1))
                (py_range (Z.to_nat x_labels_count)))
      with (map (fun i => first + o i) [0; 1; 2; 3; 4; 5; 6; 7]).
    change (map o (py_range (Z.to_nat x_labels_count)))
      with (map o [0; 1; 2; 3; 4; 5; 6; 7]) in Hok.
    cbn [map hd last nondecreasing] in Hok |- *.
    repeat match goal with
           | H : _ && _ = true |- _ => apply andb_prop in H as [? ?]
           end.
    repeat match goal with
           | H : (_ =? _) = true |- _ => apply Z.eqb_eq in H
           | H : (_ <=? _) = true |- _ => apply Z.leb_le in H
           end.
    split; [lia |].
    repeat (apply andb_true_intro; split); try reflexivity; apply Z.leb_le; lia.
Qed.

Lemma x_labels_span_the_series_witness :
  List.length (x_label_dates [0; 5; 70]) = 8%nat /\
  hd 0 (x_label_dates [0; 5; 70]) = 0 /\
  last (x_label_dates [0; 5; 70]) 0 = 70 /\
  nondecreasing (x_label_dates [0; 5; 70]) = true.
Proof.
  destruct x_labels_span_the_series as [_ H].
  destruct (H 0 5 [70]) as [Hlen [Hhd Hspan]].
  destruct Hspan as [Hlast Hmono]; [simpl; lia |].
  repeat split; assumption.
Defined.

(** X21. The two ways a click on "Add" can end. Either [on_add_click]
    returns at one of its checks, the holdings list being left as it was; or
    it appends exactly one holding at the end of the list, the others
    untouched: a holding whose ticker is the stripped, upper-cased text of
    the ticker field and is not empty, with [shares > 0],
    [purchase_price > 0], a purchase date not after today, a profit of
    [shares * (current_price - price)] and a gain of
    [(current_price - price) / price]; it then calls [refresh_assets()] on
    the new list. No [try] encloses that call: the click raises exactly when
    the refresh does, and the holding is in the list by then. So it is in
    [late_fx_world], where the rate of "USDCHF=X" is there for the current
    price and its series over the dates of the chart is not: the click
    appends the holding [spy] to the empty list, and the refresh raises. *)
Theorem click_appends_one_valid_holding :
  (forall (w : world) (today : Z) (f : form) (assets : list asset) (page : chart)
          (log : list request),
      exists assets' out log',
        on_add_click w today f assets page log = (Ok (assets', out), log') /\
        ((assets' = assets /\ click_raised out = false /\
          exists why, out = Rejected why) \/
         (exists a p pg log0,
             assets' = assets ++ [a] /\ out = Added pg /\
             refresh_assets w today (assets ++ [a]) page log0 = (pg, log') /\
             click_raised out = match pg with Raised => true | Ok _ => false end /\
             ticker a = Py.upper (Py.strip (ticker_field f)) /\
             Py.nonempty (ticker a) = true /\
             (0 <? shares a)%float = true /\ (0 <? price a)%float = true /\
             purchase_date a = Some p /\ p <= today /\
             profit_gain a = (shares a * (current_price a - price a))%float /\
             percentage_gain a = ((current_price a - price a) / price a)%float))) /\
  on_add_click late_fx_world 12 spy_form [] initial_chart [] =
    (Ok ([spy], Added Raised),
     [Info "SPY"; Download "USDCHF=X" (Period "5d");
      Info "SPY"; Info "SPY"; Info "SPY";
      Download "SPY" (Window 10 13); Info "SPY";
      Download "USDCHF=X" (Window 10 13)]) /\
  run (refresh_assets late_fx_world 12 [spy] initial_chart) =
    (Raised,
     [Download "SPY" (Window 10 13); Info "SPY";
      Download "USDCHF=X" (Window 10 13)]) /\
  click_raised (Added Raised) = true.
Proof.
  split; [| vm_compute; repeat split].
  intros w today f assets page log.
  set (t := Py.upper (Py.strip (ticker_field f))).
  set (sh := to_float (shares_field f) 0).
  set (pr := to_float (price_field f) 0).
  pose proof (ClickFacts.on_add_click_cases w today f assets page log) as Hcases.
  cbv zeta in Hcases. fold t sh pr in Hcases.
  destruct Hcases
    as [[_ E] | [_ [p [Hp [Ht [Hs [Hpr [[_ E] | [Hle [[log1 [_ E]] | H]]]]]]]]]].
  - do 3 eexists. split; [exact E |]. left. repeat split. eauto.
  - do 3 eexists. split; [exact E |]. left. repeat split. eauto.
  - do 3 eexists. split; [exact E |]. left. repeat split. eauto.
  - destruct H as [cp [log1 [first_dt [log2 [_ [_ H]]]]]].
    destruct (ClickFacts.append_asset_ok w today t sh pr cp p assets page log2)
      as [a [pg [log' [Hrun [Ha [Hsh [Hprice [Hcp [Hd [Hprofit [Hgain [log0 Href]]]]]]]]]]]].
    assert (on_add_click w today f assets page log =
              append_asset w today t sh pr cp p assets page log2 ->
            exists assets' out log'0,
              on_add_click w today f assets page log = (Ok (assets', out), log'0) /\
              ((assets' = assets /\ click_raised out = false /\
                exists why, out = Rejected why) \/
               (exists a p pg log0,
                   assets' = assets ++ [a] /\ out = Added pg /\
                   refresh_assets w today (assets ++ [a]) page log0 = (pg, log'0) /\
                   click_raised out =
                     match pg with Raised => true | Ok _ => false end /\
                   ticker a = t /\
                   Py.nonempty (ticker a) = true /\
                   (0 <? shares a)%float = true /\ (0 <? price a)%float = true /\
                   purchase_date a = Some p /\ p <= today /\
                   profit_gain a = (shares a * (current_price a - price a))%float /\
                   percentage_gain a =
                     ((current_price a - price a) / price a)%float))) as Happ.
    { intros E. exists (assets ++ [a]), (Added pg), log'.
      split; [now rewrite E |].
      right. exists a, p, pg, log0.
      rewrite Ha, Hsh, Hprice, Hcp, Hd, Hprofit, Hgain.
      repeat split; assumption || (now destruct pg). }
    destruct first_dt as [d |]; [| exact (Happ H)].
    destruct H as [[_ E] | [_ E]]; [| exact (Happ E)].
    do 3 eexists. split; [exact E |]. left. repeat split. eauto.
Qed.

(** X22. A click is never rejected for a missing date or for invalid numbers
    after the field validation: the two error dialogs "Please select a
    purchase date." and "Shares and price must be valid numbers." of
    [on_add_click] cannot be shown, since [validate_fields] has already
    returned on those inputs. *)
Theorem unreachable_dialogs :
  forall (w : world) (today : Z) (f : form) (assets assets' : list asset)
         (page : chart) (log log' : list request) (why : rejection),
    on_add_click w today f assets page log = (Ok (assets', Rejected why), log') ->
    why <> NoDate /\ why <> InvalidNumbers.
Proof.
  intros w today f assets assets' page log log' why Hrun.
  destruct (ClickFacts.on_add_click_cases w today f assets page log)
    as [[_ E] | [_ [p [Hp [Ht [Hs [Hpr [[_ E] | [Hle [[log1 [_ E]] | H]]]]]]]]]].
  - rewrite E in Hrun. injection Hrun as _ <- _. split; discriminate.
  - rewrite E in Hrun. injection Hrun as _ <- _. split; discriminate.
  - rewrite E in Hrun. injection Hrun as _ <- _. split; discriminate.
  - destruct H as [cp [log1 [first_dt [log2 [_ [_ H]]]]]].
    assert (forall E : on_add_click w today f assets page log =
                         append_asset w today (Py.upper (Py.strip (ticker_field f)))
                           (to_float (shares_field f) 0) (to_float (price_field f) 0)
                           cp p assets page log2, False) as Happ.
    { intros E. rewrite E in Hrun.
      destruct (ClickFacts.append_asset_ok w today (Py.upper (Py.strip (ticker_field f)))
                  (to_float (shares_field f) 0)
                  (to_float (price_field f) 0) cp p assets page log2)
        as [a [pg [log3 [Hr _]]]].
      rewrite Hr in Hrun. discriminate. }
    destruct first_dt as [d |].
    + destruct H as [[_ E] | [_ E]]; [| now destruct (Happ E)].
      rewrite E in Hrun. injection Hrun as _ <- _. split; discriminate.
    + now destruct (Happ H).
Qed.

Lemma unreachable_dialogs_witness :
  BeforeFirstPrice 10 <> NoDate /\ BeforeFirstPrice 10 <> InvalidNumbers.
Proof.
  apply (unreachable_dialogs pence_world 12 (vod_form 5) [] [] initial_chart []
           [Info "VOD.L"; Download "GBPCHF=X" (Period "5d");
            Info "VOD.L"; Download "VOD.L" (Period "max")]).
  vm_compute. reflexivity.
Defined.

(** X23. When the fields are valid, the purchase date is not after today
    and no current price can be obtained for the ticker, the click is
    rejected as "Invalid ticker": nothing is appended, and the only requests
    are those of the price lookup (the first price date is not asked for). *)
Theorem invalid_ticker_rejected :
  forall (w : world) (today : Z) (f : form) (assets : list asset) (page : chart)
         (log : list request) (p : Z),
    validate_fields f = true ->
    selected_purchase_date f = Some p -> p <= today ->
    fst (run (get_current_price w (Py.upper (Py.strip (ticker_field f))))) = Raised ->
    on_add_click w today f assets page log =
      (Ok (assets, Rejected InvalidTicker),
       log ++ snd (run (get_current_price w (Py.upper (Py.strip (ticker_field f)))))).
Proof.
  intros w today f assets page log p V Hp Hle Hraise.
  pose proof (MFacts.oblivious_get_current_price w
                (Py.upper (Py.strip (ticker_field f))) log) as Hobl.
  rewrite Hraise in Hobl.
  destruct (ClickFacts.on_add_click_cases w today f assets page log)
    as [[V' _] | [_ [p' [Hp' [_ [_ [_ [[Hf _] | [_ [[log1 [Hcp E]] | H]]]]]]]]]].
  - congruence.
  - rewrite Hp in Hp'. injection Hp' as <-. lia.
  - rewrite Hobl in Hcp. injection Hcp as <-. exact E.
  - destruct H as [cp [log1 [first_dt [log2 [Hcp _]]]]].
    rewrite Hobl in Hcp. discriminate.
Qed.

Lemma invalid_ticker_rejected_witness :
  on_add_click dollar_world 12 spy_form [nesn] initial_chart [] =
    (Ok ([nesn], Rejected InvalidTicker),
     [Info "SPY"; Download "USDCHF=X" (Period "5d")]).
Proof.
  assert (10 <= 12) as Hle by lia.
  exact (invalid_ticker_rejected dollar_world 12 spy_form [nesn] initial_chart [] 10
           eq_refl eq_refl Hle eq_refl).
Defined.

(** X24. When the fields are valid, the purchase date is not after today, a
    current price [cp] is obtained and the purchase date is not before the
    first price date (or that date is unknown), the click appends the
    holding, with [cp] as its current price, and refreshes the chart from
    the new list. *)
Theorem valid_click_adds_holding :
  forall (w : world) (today : Z) (f : form) (assets : list asset) (page : chart)
         (log : list request) (p : Z) (cp : float) (first_dt : option Z),
    let t := Py.upper (Py.strip (ticker_field f)) in
    validate_fields f = true ->
    selected_purchase_date f = Some p -> p <= today ->
    fst (run (get_current_price w t)) = Ok cp ->
    fst (run (get_first_price_date w t)) = Ok first_dt ->
    match first_dt with Some d => d <= p | None => True end ->
    exists a pg log' log0,
      on_add_click w today f assets page log = (Ok (assets ++ [a], Added pg), log') /\
      refresh_assets w today (assets ++ [a]) page log0 = (pg, log') /\
      ticker a = t /\ shares a = to_float (shares_field f) 0 /\
      price a = to_float (price_field f) 0 /\ current_price a = cp /\
      purchase_date a = Some p.
Proof.
  intros w today f assets page log p cp first_dt t V Hp Hle Hcp Hfirst Hlisted.
  pose proof (MFacts.oblivious_get_current_price w t log) as Ocp.
  rewrite Hcp in Ocp.
  assert (forall log2,
             on_add_click w today f assets page log =
               append_asset w today t (to_float (shares_field f) 0)
                 (to_float (price_field f) 0) cp p assets page log2 ->
             exists a pg log' log0,
               on_add_click w today f assets page log =
                 (Ok (assets ++ [a], Added pg), log') /\
               refresh_assets w today (assets ++ [a]) page log0 = (pg, log') /\
               ticker a = t /\ shares a = to_float (shares_field f) 0 /\
               price a = to_float (price_field f) 0 /\ current_price a = cp /\
               purchase_date a = Some p) as Happ.
  { intros log2 E.
    destruct (ClickFacts.append_asset_ok w today t (to_float (shares_field f) 0)
                (to_float (price_field f) 0) cp p assets page log2)
      as [a [pg [log' [Hrun [Ha [Hsh [Hprice [Hc [Hd [_ [_ [log0 Href]]]]]]]]]]]].
    exists a, pg, log', log0. rewrite E. repeat split; assumption. }
  destruct (ClickFacts.on_add_click_cases w today f assets page log)
    as [[V' _] | [_ [p' [Hp' [_ [_ [_ [[Hf _] | [_ [[log1 [Hr _]] | H]]]]]]]]]].
  - congruence.
  - rewrite Hp in Hp'. injection Hp' as <-. lia.
  - fold t in Hr. rewrite Ocp in Hr. discriminate.
  - destruct H as [cp' [log1 [fd [log2 [Hr [Hfd H]]]]]].
    fold t in Hr, Hfd, H. rewrite Ocp in Hr. injection Hr as <- <-.
    rewrite Hp in Hp'. injection Hp' as <-.
    rewrite (MFacts.oblivious_get_first_price_date w t), Hfirst in Hfd.
    injection Hfd as <- _.
    destruct first_dt as [d |]; [| now apply (Happ log2)].
    destruct H as [[Hlt _] | [_ E]]; [lia | now apply (Happ log2)].
Qed.

Lemma valid_click_adds_holding_witness :
  exists a pg log' log0,
    on_add_click pence_world 12 (vod_form 10) [nesn] initial_chart [] =
      (Ok ([nesn] ++ [a], Added pg), log') /\
    refresh_assets pence_world 12 ([nesn] ++ [a]) initial_chart log0 = (pg, log') /\
    ticker a = "VOD.L"%string /\ shares a = 2%float /\ price a = 4%float /\
    current_price a = 7.5%float /\ purchase_date a = Some 10.
Proof.
  apply (valid_click_adds_holding pence_world 12 (vod_form 10) [nesn] initial_chart []
           10 7.5%float (Some 10)).
  - reflexivity.
  - reflexivity.
  - lia.
  - reflexivity.
  - reflexivity.
  - simpl. lia.
Defined.

(** X25. Adding a holding whose ticker no holding of the list has, then
    deleting that ticker, gives back the list as it was before the click. *)
Theorem add_then_delete_restores :
  forall (w : world) (today : Z) (f : form) (assets assets' : list asset)
         (page page' : chart) (pg : result chart) (log log' : list request),
    on_add_click w today f assets page log = (Ok (assets', Added pg), log') ->
    (forall b, In b assets -> ticker b <> Py.upper (Py.strip (ticker_field f))) ->
    fst (delete_asset w today (Py.upper (Py.strip (ticker_field f))) assets' page') =
      assets.
Proof.
  intros w today f assets assets' page page' pg log log' Hrun Hfresh.
  assert (exists a, assets' = assets ++ [a] /\
                    ticker a = Py.upper (Py.strip (ticker_field f))) as [a [-> Ha]].
  { destruct (ClickFacts.on_add_click_cases w today f assets page log)
      as [[_ E] | [_ [p [Hp [_ [_ [_ [[_ E] | [_ [[log1 [_ E]] | H]]]]]]]]]];
      try (rewrite E in Hrun; discriminate).
    destruct H as [cp [log1 [first_dt [log2 [_ [_ H]]]]]].
    assert (forall E : on_add_click w today f assets page log =
                         append_asset w today (Py.upper (Py.strip (ticker_field f)))
                           (to_float (shares_field f) 0) (to_float (price_field f) 0)
                           cp p assets page log2,
               exists a, assets' = assets ++ [a] /\
                         ticker a = Py.upper (Py.strip (ticker_field f))) as Happ.
    { intros E. rewrite E in Hrun.
      destruct (ClickFacts.append_asset_ok w today (Py.upper (Py.strip (ticker_field f)))
                  (to_float (shares_field f) 0)
                  (to_float (price_field f) 0) cp p assets page log2)
        as [a [pg' [log3 [Hr [Ha _]]]]].
      rewrite Hr in Hrun. injection Hrun as <- _ _. now exists a. }
    destruct first_dt as [d |]; [| now apply Happ].
    destruct H as [[_ E] | [_ E]]; [rewrite E in Hrun; discriminate | now apply Happ]. }
  unfold delete_asset. simpl.
  rewrite (HoldingsFacts.pop_first_match _ assets a [] Ha Hfresh).
  apply app_nil_r.
Qed.

Lemma add_then_delete_restores_witness :
  fst (delete_asset pence_world 12 (Py.upper (Py.strip " vod.l "))
         ([nesn] ++ [vod_added]) initial_chart) = [nesn].
Proof.
  eapply (add_then_delete_restores pence_world 12 (vod_form 10) [nesn]
            ([nesn] ++ [vod_added]) initial_chart initial_chart _ [] _).
  - vm_compute. reflexivity.
  - intros b [<- | []]. vm_compute. discriminate.
Defined.

(** ** The values of the total series *)

Module SumFacts.
Import Pd PdFacts.

Lemma nan_unique (v : float) : PrimFloat.is_nan v = true -> v = Py.nan.
Proof.
  intros H. apply FloatFacts.is_nan_spec in H. apply Prim2SF_inj.
  rewrite H. reflexivity.
Qed.

Lemma fill_cell_nan (v : float) : fill_cell Py.nan v = v.
Proof.
  unfold fill_cell. destruct (PrimFloat.is_nan v) eqn:E; [| reflexivity].
  symmetry. now apply nan_unique.
Qed.

Lemma fill_row_map (ss : list Series) (h g : Series -> float) :
  fill_row (map h ss) (map g ss) = map (fun s => fill_cell (h s) (g s)) ss.
Proof. induction ss as [| s t IH]; simpl; [reflexivity | now rewrite IH]. Qed.

Lemma concat_columns_rows (ss : list Series) :
  concat_columns ss = map (frame_row ss) (union_index ss).
Proof. reflexivity. Qed.

(** A list of rows built by [frame_row] is determined by its dates. *)
Lemma rows_from_index (ss : list Series) (df : DataFrame) :
  Forall (fun r => r = frame_row ss (fst r)) df -> df = map (frame_row ss) (index df).
Proof.
  induction 1 as [| r t Hr _ IH]; simpl; [reflexivity |].
  now rewrite <- Hr, <- IH.
Qed.

Lemma sorted_rows (ss : list Series) :
  sort_index (concat_columns ss) =
    map (frame_row ss) (index (sort_index (concat_columns ss))).
Proof.
  apply rows_from_index. apply Forall_forall. intros r Hr.
  apply (proj1 (sort_index_In _ _)) in Hr. rewrite concat_columns_rows in Hr.
  apply in_map_iff in Hr as [d [<- _]]. reflexivity.
Qed.

(** The forward-filled row at a date: column by column, the cells of the
    dates so far folded with [fill_cell]. *)
Lemma df_ffill_from_row (ss : list Series) (h : Series -> float)
    (pre post : list Z) (d : Z) :
  In (d, map (fun s => fold_left (fun acc d' => fill_cell acc (frame_cell s d'))
                                 (pre ++ [d]) (h s)) ss)
     (df_ffill_from (map h ss) (map (frame_row ss) (pre ++ d :: post))).
Proof.
  revert h. induction pre as [| d0 pre IH]; intros h; simpl.
  - left. rewrite fill_row_map. reflexivity.
  - right. rewrite fill_row_map. apply (IH (fun s => fill_cell (h s) (frame_cell s d0))).
Qed.

Lemma df_ffill_as_from (ss : list Series) (dates : list Z) :
  df_ffill (map (frame_row ss) dates) =
    df_ffill_from (map (fun _ => Py.nan) ss) (map (frame_row ss) dates).
Proof.
  destruct dates as [| d rest]; [reflexivity |].
  cbn [map df_ffill df_ffill_from frame_row]. rewrite fill_row_map.
  assert (map (fun s => fill_cell Py.nan (frame_cell s d)) ss =
          map (fun s => frame_cell s d) ss) as ->; [| reflexivity].
  apply map_ext. intros s. apply fill_cell_nan.
Qed.

Lemma sum_rows_In (df : DataFrame) (d : Z) (row : list float) :
  In (d, row) df ->
  In (d, fold_left PrimFloat.add
           (map (fun v => if PrimFloat.is_nan v then 0%float else v) row) 0%float)
     (sum_rows (fillna0 df)).
Proof.
  intros H. unfold sum_rows, fillna0. rewrite map_map.
  apply (in_map (fun r => (fst r,
                           fold_left PrimFloat.add
                             (map (fun v => if PrimFloat.is_nan v then 0%float else v)
                                  (snd r)) 0%float)) _ _ H).
Qed.

End SumFacts.

(** X26. At each of its dates the combined series of
    [update_total_worth_graph] is the sum, from left to right starting from
    0, of what each value series contributes there. A series contributes its
    own value at a date where it has one; at a date where it has none (or a
    NaN) it contributes what it contributed at the previous date of the
    total (forward fill); before its first date it contributes 0. *)
Theorem total_is_sum_of_contributions :
  forall (series_list : list Pd.Series),
    (forall pre d post,
        Pd.index (combine_series series_list) = pre ++ d :: post ->
        In (d, fold_left PrimFloat.add
                 (map (fun s => contribution s (pre ++ [d])) series_list) 0%float)
           (combine_series series_list)) /\
    (forall (s : Pd.Series) pre d v,
        Pd.lookup d s = Some v -> PrimFloat.is_nan v = false ->
        contribution s (pre ++ [d]) = v) /\
    (forall (s : Pd.Series) pre d,
        Pd.lookup d s = None \/ Pd.lookup d s = Some Py.nan ->
        contribution s (pre ++ [d]) = contribution s pre) /\
    (forall s : Pd.Series, contribution s [] = 0%float).
Proof.
  intros ss. split; [| split; [| split]].
  - intros pre d post Hidx.
    rewrite TotalFacts.index_combine_series in Hidx.
    unfold combine_series.
    rewrite SumFacts.sorted_rows, Hidx, SumFacts.df_ffill_as_from.
    pose proof (SumFacts.df_ffill_from_row ss (fun _ => Py.nan) pre post d) as Hrow.
    apply SumFacts.sum_rows_In in Hrow. rewrite map_map in Hrow. exact Hrow.
  - intros s pre d v Hl Hv. unfold contribution.
    rewrite fold_left_app. simpl. unfold frame_cell at 2 4. rewrite Hl.
    unfold Pd.fill_cell at 1 3. now rewrite Hv, Hv.
  - intros s pre d H. unfold contribution.
    rewrite fold_left_app. simpl.
    assert (frame_cell s d = Py.nan) as ->
      by (unfold frame_cell; destruct H as [-> | ->]; reflexivity).
    unfold Pd.fill_cell at 1 3. now rewrite FxFacts.is_nan_nan.
  - intros s. reflexivity.
Qed.

Lemma total_is_sum_of_contributions_witness :
  In (11, (0 + 270 + 8)%float)
     (combine_series [[(10, 270%float); (12, 360%float)];
                      [(9, 8%float); (11, Py.nan); (12, 15%float)]]).
Proof.
  destruct (total_is_sum_of_contributions
              [[(10, 270%float); (12, 360%float)];
               [(9, 8%float); (11, Py.nan); (12, 15%float)]]) as [H _].
  exact (H [9; 10] 11 [12] eq_refl).
Defined.

(** ** Signs and colours *)

Module SignFacts.

(** The two-decimal text of a negative number starts with a minus sign. *)
Lemma fixed2_negative (comma : bool) (v : float) :
  (v <? 0)%float = true ->
  exists body, Fmt.fixed2 comma v = ("-" ++ body)%string.
Proof.
  intros Hneg. pose proof Hneg as Hlt.
  rewrite ltb_spec, FloatFacts.Prim2SF_zero in Hlt. unfold SFltb in Hlt.
  unfold Fmt.fixed2, Fmt.scaled_round.
  destruct (Prim2SF v) as [s | s | | s m e] eqn:E; simpl in Hlt; try discriminate.
  - assert (PrimFloat.is_nan v = false) as ->.
    { destruct (PrimFloat.is_nan v) eqn:En; [| reflexivity].
      apply FloatFacts.is_nan_spec in En. congruence. }
    rewrite Hneg. now exists "inf"%string.
  - destruct s; [| discriminate]. eexists. reflexivity.
Qed.

Lemma ltb_0_not_leb (v : float) : (v <? 0)%float = true -> (0 <=? v)%float = false.
Proof.
  rewrite ltb_spec, leb_spec, FloatFacts.Prim2SF_zero. unfold SFltb, SFleb.
  destruct (Prim2SF v) as [s | s | | s m e]; simpl; try discriminate;
    destruct s; simpl; congruence.
Qed.

End SignFacts.

(** X27. The sign shown by [format_signed_chf] and the colour given by
    [signed_color] agree: a value that is [>= 0] is written "CHF +..." and
    coloured green; a negative value is written "CHF -..." and coloured red.
    [format_pct] writes a plus sign in front of a value that is [>= 0] and
    of no other. *)
Theorem sign_and_colour_agree :
  forall (v : float) (comma : bool),
    ((0 <=? v)%float = true ->
     signed_color v = GREEN_ACCENT /\
     format_signed_chf v comma = ("CHF +" ++ Fmt.fixed2 comma v)%string /\
     format_pct v = ("+" ++ Fmt.fixed2 false (v * 100)%float ++ "%")%string) /\
    ((v <? 0)%float = true ->
     signed_color v = RED_ACCENT /\
     (exists body, format_signed_chf v comma = ("CHF -" ++ body)%string) /\
     format_pct v = (Fmt.fixed2 false (v * 100)%float ++ "%")%string).
Proof.
  intros v comma. split.
  - intros H. unfold signed_color, format_signed_chf, format_pct. rewrite H.
    repeat split.
  - intros H. pose proof (SignFacts.ltb_0_not_leb v H) as Hn.
    unfold signed_color, format_signed_chf, format_pct. rewrite Hn.
    split; [reflexivity |]. split; [| reflexivity].
    destruct (SignFacts.fixed2_negative comma v H) as [body ->].
    now exists body.
Qed.

Lemma sign_and_colour_agree_witness :
  (signed_color 7%float = GREEN_ACCENT /\
   format_signed_chf 7%float true = ("CHF +" ++ Fmt.fixed2 true 7%float)%string /\
   format_pct 7%float = ("+" ++ Fmt.fixed2 false (7 * 100)%float ++ "%")%string) /\
  (signed_color (-3)%float = RED_ACCENT /\
   (exists body, format_signed_chf (-3)%float true = ("CHF -" ++ body)%string) /\
   format_pct (-3)%float = (Fmt.fixed2 false (-3 * 100)%float ++ "%")%string).
Proof.
  split.
  - apply (proj1 (sign_and_colour_agree 7%float true)). reflexivity.
  - apply (proj2 (sign_and_colour_agree (-3)%float true)). reflexivity.
Defined.

(** ** Instances on the sample data *)

Lemma metadata_best_effort_witness :
  exists (ccy : string) (name : option string) (type : string),
    get_ticker_currency pence_world "NESN.SW" [] = (Ok ccy, [Info "NESN.SW"]) /\
    get_ticker_name pence_world "NESN.SW" [] = (Ok name, [Info "NESN.SW"]) /\
    get_asset_type pence_world "NESN.SW" [] = (Ok type, [Info "NESN.SW"]) /\
    ccy = "CHF"%string /\ name = None /\ type = "Unknown"%string.
Proof.
  destruct (metadata_best_effort pence_world "NESN.SW" [])
    as [ccy [name [type [H1 [H2 [H3 [_ [Hnone _]]]]]]]].
  exists ccy, name, type. split; [exact H1 |]. split; [exact H2 |].
  split; [exact H3 |]. apply Hnone. reflexivity.
Defined.

Lemma window_starts_at_earliest_purchase_witness :
  start_date_of 12 [nesn; vod] <= 9 /\
  (exists a, In a [nesn; vod] /\ purchase_date a = Some (start_date_of 12 [nesn; vod])).
Proof.
  destruct (window_starts_at_earliest_purchase 12 [nesn; vod]) as [Hle [Hin _]].
  split.
  - apply (Hle vod 9); [right; now left | reflexivity].
  - apply Hin. exists vod, 9. split; [right; now left | reflexivity].
Defined.

Lemma fx_alignment_witness :
  In (11, (600 * 1.25)%float)
     (to_chf [(10, 500%float); (11, 600%float); (12, 700%float)] [(11, 1.25%float)]) /\
  In (12, (700 * 1.25)%float)
     (to_chf [(10, 500%float); (11, 600%float); (12, 700%float)] [(11, 1.25%float)]).
Proof.
  destruct (fx_alignment [(10, 500%float); (11, 600%float); (12, 700%float)]
              [(11, 1.25%float)]) as [_ [Hat [Hnext _]]].
  split.
  - apply (Hat 11 600%float 1.25%float); [right; now left | reflexivity | reflexivity].
  - apply (Hnext [(10, 500%float)] [] 11 600%float 12 700%float 1.25%float);
      reflexivity.
Defined.

Lemma at_most_three_requests_per_holding_witness :
  holding_series pence_world 9 13
    {| ticker := ""; name := None; asset_type := "Stock"; shares := 2%float;
       price := 4%float; current_price := 7.5%float; purchase_date := Some 9;
       percentage_gain := 0%float; profit_gain := 0%float |} [] = (Ok None, []).
Proof.
  destruct (at_most_three_requests_per_holding pence_world 12 [vod] initial_chart [])
    as [_ H].
  apply H. left. reflexivity.
Defined.

Lemma chart_points_are_indexed_witness :
  nth 1 (data_points (draw [nesn] [(10, 270%float); (11, 330%float); (12, 360%float)]))
      (0, 0%float) = (1, 330%float).
Proof.
  destruct (chart_points_are_indexed [nesn]
              [(10, 270%float); (11, 330%float); (12, 360%float)]) as [_ [H _]].
  apply (H 1%nat). simpl. lia.
Defined.
